(** * MSN Messenger Server: the notification-server protocol engine

    A shallow embedding of the two server implementations of the repository,

    - the asyncio server: [server/protocol_handler.py] (class
      [MSNPProtocolHandler]), [server/client_manager.py] (class
      [ClientManager]) and [utils/database.py] (class [DatabaseManager]);
    - the threaded server: [msn_messenger_server.py] (class [MSNPServer]),

    followed by the properties of the protocol specification stated over
    them.  The configuration ([config/server_config.py]), the account
    tools ([database_setup.py]) and the test client
    ([tests/test_client.py]) are embedded after the servers, with further
    properties of the code at the end.

    Conventions.  Python [str] values are modelled as byte strings
    ([string] of the Standard Library).  The wire protocol is ASCII, and
    the model is one of ASCII traffic ([Py.is_ascii]): on such bytes
    [decode('utf-8')] is the identity and never raises, and [str.strip],
    [str.split], [str.upper], [str.lower] and [int] act as defined in
    module [Py].  Outside ASCII the code decodes (the asyncio server
    raises on malformed bytes, the threaded one drops them) and the
    methods of [str] follow Unicode; properties that depend on it carry
    the hypothesis that the bytes are ASCII.  A
    Python [dict] iterated by the code is an insertion-ordered association
    list.  Socket and stream writes are recorded as a list of [event]s, in
    program order.  A SQLite table is the list of its rows in rowid order.
    No query of the servers has an [ORDER BY]: the rows come in the order
    of the scan that SQLite chooses, which is rowid order in the threaded
    server and, for the contacts of the asyncio server, the order of the
    index of the [UNIQUE] constraint ([Database.index_order]).  A
    connection that a refused insert leaves open keeps the write lock of
    the database until the interpreter collects it ([Database.locked]).
    Timestamps are integers read from a clock that is an argument. *)

From Stdlib Require Import ZArith List Ascii String DecimalString Sorted Lia.
From stdpp Require Import base option list gmap strings.
Import ListNotations.

Local Open Scope Z_scope.

(* ================================================================== *)
(** * Python values and built-ins used by the servers                  *)
(* ================================================================== *)

Module Py.

Definition CR : ascii := "013"%char.
Definition LF : ascii := "010"%char.

(** The two characters written [\r\n] in the sources. *)
Definition CRLF : string := String CR (String LF EmptyString).

(** The bytes are ASCII: the text that [decode('utf-8')] makes of them
    is the bytes themselves. *)
Definition is_ascii_char (c : ascii) : bool := (nat_of_ascii c <? 128)%nat.

Fixpoint is_ascii (s : string) : bool :=
  match s with
  | EmptyString => true
  | String c rest => is_ascii_char c && is_ascii rest
  end.

(** [str.isspace] on one ASCII character. *)
Definition is_space (c : ascii) : bool :=
  let n := nat_of_ascii c in
  ((9 <=? n)%nat && (n <=? 13)%nat) || ((28 <=? n)%nat && (n <=? 32)%nat).

(** [s.split(' ')]: split on every single space, keeping empty fields. *)
Fixpoint split_space (s : string) : list string :=
  match s with
  | EmptyString => [EmptyString]
  | String c rest =>
      if Ascii.eqb c " " then EmptyString :: split_space rest
      else match split_space rest with
           | [] => [String c EmptyString]
           | w :: ws => String c w :: ws
           end
  end.

Fixpoint split_go (cur : string) (s : string) : list string :=
  match s with
  | EmptyString => if String.eqb cur "" then [] else [cur]
  | String c rest =>
      if is_space c
      then (if String.eqb cur "" then split_go "" rest
            else cur :: split_go "" rest)
      else split_go (cur +:+ String c EmptyString) rest
  end.

(** [s.split()] on an ASCII string: split on runs of whitespace, no
    empty fields. *)
Definition split (s : string) : list string := split_go "" s.

Fixpoint lstrip (s : string) : string :=
  match s with
  | String c rest => if is_space c then lstrip rest else s
  | EmptyString => EmptyString
  end.

Fixpoint rstrip (s : string) : string :=
  match s with
  | EmptyString => EmptyString
  | String c rest =>
      match rstrip rest with
      | EmptyString => if is_space c then EmptyString else String c EmptyString
      | r => String c r
      end
  end.

(** [s.strip()] on an ASCII string: the whitespace of [str.isspace]
    goes from both ends. *)
Definition strip (s : string) : string := rstrip (lstrip s).

Definition lower_char (c : ascii) : ascii :=
  let n := nat_of_ascii c in
  if ((65 <=? n) && (n <=? 90))%nat then ascii_of_nat (n + 32) else c.

Definition upper_char (c : ascii) : ascii :=
  let n := nat_of_ascii c in
  if ((97 <=? n) && (n <=? 122))%nat then ascii_of_nat (n - 32) else c.

Fixpoint map_chars (f : ascii -> ascii) (s : string) : string :=
  match s with
  | EmptyString => EmptyString
  | String c rest => String (f c) (map_chars f rest)
  end.

(** [s.lower()] and [s.upper()] on an ASCII string: only the letters
    [a] to [z] and [A] to [Z] change. *)
Definition lower : string -> string := map_chars lower_char.
Definition upper : string -> string := map_chars upper_char.

(** [str(n)] for a natural number, as an f-string prints [len(...)]. *)
Definition str_of_nat (n : nat) : string :=
  NilZero.string_of_uint (Nat.to_uint n).

(** [s.split('@')[0]]: the part before the first [@]. *)
Fixpoint before_at (s : string) : string :=
  match s with
  | EmptyString => EmptyString
  | String c rest =>
      if Ascii.eqb c "@" then EmptyString else String c (before_at rest)
  end.

(** Truth value of a string and of an integer. *)
Definition truthy_str (s : string) : bool := negb (String.eqb s "").
Definition truthy_nat (n : nat) : bool := negb (Nat.eqb n 0).

(** An f-string prints [None] for a NULL column. *)
Definition fmt_opt (o : option string) : string :=
  match o with Some s => s | None => "None" end.

Definition digit_of (c : ascii) : option Z :=
  let n := nat_of_ascii c in
  if ((48 <=? n) && (n <=? 57))%nat then Some (Z.of_nat (n - 48)) else None.

Fixpoint int_digits (acc : option Z) (after_underscore : bool) (s : string)
  : option Z :=
  match s with
  | EmptyString => if after_underscore then None else acc
  | String c rest =>
      match digit_of c with
      | Some d => int_digits (Some (10 * default 0 acc + d)) false rest
      | None =>
          if Ascii.eqb c "_"
          then match acc with
               | Some _ =>
                   if after_underscore then None else int_digits acc true rest
               | None => None
               end
          else None
      end
  end.

(** The whitespace [int] skips at both ends of an ASCII string: tab to
    carriage return, and the space; not the separators 28 to 31, which
    [str.strip] removes. *)
Definition is_int_space (c : ascii) : bool :=
  let n := nat_of_ascii c in
  ((9 <=? n)%nat && (n <=? 13)%nat) || (n =? 32)%nat.

Fixpoint int_lstrip (s : string) : string :=
  match s with
  | String c rest => if is_int_space c then int_lstrip rest else s
  | EmptyString => EmptyString
  end.

Fixpoint int_rstrip (s : string) : string :=
  match s with
  | EmptyString => EmptyString
  | String c rest =>
      match int_rstrip rest with
      | EmptyString =>
          if is_int_space c then EmptyString else String c EmptyString
      | r => String c r
      end
  end.

Fixpoint count_digits (s : string) : Z :=
  match s with
  | EmptyString => 0
  | String c rest =>
      match digit_of c with Some _ => 1 | None => 0 end + count_digits rest
  end.

(** The digits of a decimal literal.  Interpreters since 3.11 refuse a
    literal of more than 4300 digits with [ValueError] too (the default
    of [sys.set_int_max_str_digits], which the program does not
    change); zeros in front count, underscores do not. *)
Definition int_literal (s : string) : option Z :=
  if 4300 <? count_digits s then None else int_digits None false s.

(** [int(s)] on an ASCII string; [None] stands for [ValueError]. *)
Definition int (s : string) : option Z :=
  match int_rstrip (int_lstrip s) with
  | String "+" rest => int_literal rest
  | String "-" rest => Z.opp <$> int_literal rest
  | t => int_literal t
  end.

(** [s.find('\r\n')]: index of the first occurrence, [-1] if none. *)
Fixpoint find_crlf (s : string) : Z :=
  match s with
  | EmptyString => -1
  | String c rest =>
      match rest with
      | String c' _ =>
          if Ascii.eqb c CR && Ascii.eqb c' LF then 0
          else let r := find_crlf rest in if r <? 0 then -1 else r + 1
      | EmptyString => -1
      end
  end.

Fixpoint drop_chars (n : nat) (s : string) : string :=
  match n, s with
  | O, _ => s
  | S n', String _ rest => drop_chars n' rest
  | S _, EmptyString => EmptyString
  end.

Fixpoint take_chars (n : nat) (s : string) : string :=
  match n, s with
  | O, _ => EmptyString
  | S n', String c rest => String c (take_chars n' rest)
  | S _, EmptyString => EmptyString
  end.

(** [s[a:b]] for [a >= 0] and any integer [b]: a negative [b] counts
    from the end, both ends are clamped to the string. *)
Definition slice (s : string) (a b : Z) : string :=
  let n := Z.of_nat (String.length s) in
  let lo := Z.min a n in
  let hi := if b <? 0 then Z.max (n + b) 0 else Z.min b n in
  if hi <=? lo then EmptyString
  else take_chars (Z.to_nat (hi - lo)) (drop_chars (Z.to_nat lo) s).

(** ** Insertion-ordered dictionaries *)

Section Dict.
Context {K V : Type} `{EqDecision K}.

Definition dict := list (K * V).

Fixpoint get (k : K) (d : list (K * V)) : option V :=
  match d with
  | [] => None
  | (k', v) :: rest => if decide (k' = k) then Some v else get k rest
  end.

(** [d[k] = v]: an existing key keeps its place, a new one goes last. *)
Fixpoint set (k : K) (v : V) (d : list (K * V)) : list (K * V) :=
  match d with
  | [] => [(k, v)]
  | (k', v') :: rest =>
      if decide (k' = k) then (k, v) :: rest else (k', v') :: set k v rest
  end.

(** [del d[k]]. *)
Fixpoint del (k : K) (d : list (K * V)) : list (K * V) :=
  match d with
  | [] => []
  | (k', v') :: rest =>
      if decide (k' = k) then rest else (k', v') :: del k rest
  end.

Definition keys (d : list (K * V)) : list K := map fst d.
Definition values (d : list (K * V)) : list V := map snd d.
End Dict.

End Py.

(* ================================================================== *)
(** * [hashlib.md5(...).hexdigest()]                                   *)
(* ================================================================== *)

Module MD5.

Definition mask32 : Z := 0xFFFFFFFF.
Definition add32 (a b : Z) : Z := Z.land (a + b) mask32.
Definition not32 (a : Z) : Z := Z.lxor a mask32.
Definition rotl32 (x : Z) (c : Z) : Z :=
  Z.land (Z.lor (Z.shiftl x c) (Z.shiftr x (32 - c))) mask32.

Definition K : list Z :=
  [ 0xd76aa478; 0xe8c7b756; 0x242070db; 0xc1bdceee;
    0xf57c0faf; 0x4787c62a; 0xa8304613; 0xfd469501;
    0x698098d8; 0x8b44f7af; 0xffff5bb1; 0x895cd7be;
    0x6b901122; 0xfd987193; 0xa679438e; 0x49b40821;
    0xf61e2562; 0xc040b340; 0x265e5a51; 0xe9b6c7aa;
    0xd62f105d; 0x02441453; 0xd8a1e681; 0xe7d3fbc8;
    0x21e1cde6; 0xc33707d6; 0xf4d50d87; 0x455a14ed;
    0xa9e3e905; 0xfcefa3f8; 0x676f02d9; 0x8d2a4c8a;
    0xfffa3942; 0x8771f681; 0x6d9d6122; 0xfde5380c;
    0xa4beea44; 0x4bdecfa9; 0xf6bb4b60; 0xbebfbc70;
    0x289b7ec6; 0xeaa127fa; 0xd4ef3085; 0x04881d05;
    0xd9d4d039; 0xe6db99e5; 0x1fa27cf8; 0xc4ac5665;
    0xf4292244; 0x432aff97; 0xab9423a7; 0xfc93a039;
    0x655b59c3; 0x8f0ccc92; 0xffeff47d; 0x85845dd1;
    0x6fa87e4f; 0xfe2ce6e0; 0xa3014314; 0x4e0811a1;
    0xf7537e82; 0xbd3af235; 0x2ad7d2bb; 0xeb86d391 ].

Definition S : list Z :=
  [ 7; 12; 17; 22; 7; 12; 17; 22; 7; 12; 17; 22; 7; 12; 17; 22;
    5; 9; 14; 20; 5; 9; 14; 20; 5; 9; 14; 20; 5; 9; 14; 20;
    4; 11; 16; 23; 4; 11; 16; 23; 4; 11; 16; 23; 4; 11; 16; 23;
    6; 10; 15; 21; 6; 10; 15; 21; 6; 10; 15; 21; 6; 10; 15; 21 ].

Definition bytes_of_string (s : string) : list Z :=
  map (fun c => Z.of_nat (nat_of_ascii c)) (list_ascii_of_string s).

(** Little-endian bytes of the low [n] bytes of [x]. *)
Fixpoint le_bytes (n : nat) (x : Z) : list Z :=
  match n with
  | O => []
  | Datatypes.S n' => Z.land x 0xFF :: le_bytes n' (Z.shiftr x 8)
  end.

Fixpoint le_word (bs : list Z) : Z :=
  match bs with
  | [] => 0
  | b :: rest => Z.lor b (Z.shiftl (le_word rest) 8)
  end.

(** The message, one [0x80] byte, zero bytes up to 56 modulo 64, and the
    bit length on eight bytes. *)
Definition pad (msg : list Z) : list Z :=
  let n := Z.of_nat (List.length msg) in
  let zeros := Z.to_nat ((55 - n) mod 64) in
  msg ++ [0x80] ++ repeat 0 zeros ++ le_bytes 8 (8 * n).

Fixpoint words (count : nat) (bs : list Z) : list Z :=
  match count with
  | O => []
  | Datatypes.S c => le_word (firstn 4 bs) :: words c (skipn 4 bs)
  end.

Definition state : Type := Z * Z * Z * Z.

Definition round (M : list Z) (st : state) (i : nat) : state :=
  let '(A, B, C, D) := st in
  let iz := Z.of_nat i in
  let '(F, g) :=
    if iz <? 16 then (Z.lor (Z.land B C) (Z.land (not32 B) D), iz)
    else if iz <? 32
         then (Z.lor (Z.land D B) (Z.land (not32 D) C), (5 * iz + 1) mod 16)
    else if iz <? 48
         then (Z.lxor B (Z.lxor C D), (3 * iz + 5) mod 16)
    else (Z.lxor C (Z.lor B (not32 D)), (7 * iz) mod 16) in
  let F' := add32 (add32 (add32 F A) (nth i K 0)) (nth (Z.to_nat g) M 0) in
  (D, add32 B (rotl32 F' (nth i S 0)), B, C).

Definition block (st : state) (chunk : list Z) : state :=
  let M := words 16 chunk in
  let '(a0, b0, c0, d0) := st in
  let '(A, B, C, D) := fold_left (round M) (seq 0 64) st in
  (add32 a0 A, add32 b0 B, add32 c0 C, add32 d0 D).

Fixpoint blocks (count : nat) (st : state) (bs : list Z) : state :=
  match count with
  | O => st
  | Datatypes.S c => blocks c (block st (firstn 64 bs)) (skipn 64 bs)
  end.

Definition init : state := (0x67452301, 0xefcdab89, 0x98badcfe, 0x10325476).

Definition digest (msg : list Z) : list Z :=
  let p := pad msg in
  let '(a, b, c, d) := blocks (List.length p / 64)%nat init p in
  le_bytes 4 a ++ le_bytes 4 b ++ le_bytes 4 c ++ le_bytes 4 d.

Definition hex_digit (n : Z) : ascii :=
  if n <? 10 then ascii_of_nat (Z.to_nat (48 + n))
  else ascii_of_nat (Z.to_nat (87 + n)).

Fixpoint hex (bs : list Z) : string :=
  match bs with
  | [] => EmptyString
  | b :: rest =>
      String (hex_digit (Z.shiftr b 4)) (String (hex_digit (Z.land b 0xF)) (hex rest))
  end.

(** [hashlib.md5(s.encode()).hexdigest()]. *)
Definition hexdigest (s : string) : string := hex (digest (bytes_of_string s)).

End MD5.

(* ================================================================== *)
(** * What a server does to its connections                            *)
(* ================================================================== *)

(** A connection (an asyncio [StreamWriter], a [socket]) is named by a
    number.  [Send w data] is [writer.write(data)] followed by [drain], or
    [socket.send(data)]; [Close w] is [close()]. *)
Inductive event : Type :=
| Send (w : nat) (data : string)
| Close (w : nat).

#[global] Instance event_eq_dec : EqDecision event.
Proof. solve_decision. Defined.

(** The data of the lines sent to connection [w], in order. *)
Fixpoint sent_to (w : nat) (evs : list event) : list string :=
  match evs with
  | [] => []
  | Send w' data :: rest =>
      if decide (w' = w) then data :: sent_to w rest else sent_to w rest
  | Close _ :: rest => sent_to w rest
  end.

(** Whether connection [w] was closed. *)
Definition closed (w : nat) (evs : list event) : bool :=
  bool_decide (Close w ∈ evs).

(* ================================================================== *)
(** * [utils/database.py]: class [DatabaseManager]                     *)
(* ================================================================== *)

Module Database.

(** A row of table [users]. *)
Record user : Type := {
  user_id : Z;
  user_email : string;
  user_password : string;
  user_display_name : option string;
}.

(** A row of table [contacts]; [UNIQUE(owner_email, contact_email,
    list_type)]. *)
Record contact : Type := {
  contact_id : Z;
  owner_email : string;
  contact_email : string;
  nickname : option string;
  list_type : string;
  added_at : Z;
}.

#[global] Instance contact_eq_dec : EqDecision contact.
Proof. solve_decision. Defined.

(** The tables, and whether a connection that a refused [INSERT] left
    open still holds the write lock of the file: the methods that catch
    [IntegrityError] return without [conn.close()], the transaction of
    the refused statement stays open, and the lock is freed only when
    the interpreter collects the connection. *)
Record t : Type := {
  users : list user;
  contacts : list contact;
  locked : bool;
}.

(** A write statement on a new connection: with the lock held by a
    connection that has not been collected, [conn.execute] raises
    [OperationalError] (database is locked), which no method catches
    ([None]); otherwise the write lock is free.  [collected] tells
    whether the interpreter has collected the connections left open
    before.  Reading needs no write lock. *)
Definition available (collected : bool) (db : t) : option t :=
  if locked db && negb collected then None
  else Some {| users := users db; contacts := contacts db; locked := false |}.

(** The dictionary [get_user_contacts] builds from a row:
    [contact_email as email, nickname, list_type]. *)
Record contact_entry : Type := {
  entry_email : string;
  entry_nickname : option string;
  entry_list_type : string;
}.

(** [SELECT * FROM users WHERE email = ?], [fetchone]. *)
Definition get_user_by_email (db : t) (email : string) : option user :=
  find (fun u => String.eqb (user_email u) email) (users db).

Definition same_key (owner peer lst : string) (c : contact) : bool :=
  String.eqb (owner_email c) owner && String.eqb (contact_email c) peer
  && String.eqb (list_type c) lst.

(** The order of the index that [UNIQUE(owner_email, contact_email,
    list_type)] creates, among the rows of one owner: by
    [contact_email], then by [list_type], each as text under the
    collation [BINARY] (byte by byte, a prefix first). *)
Definition index_leb (a b : contact) : bool :=
  if String.eqb (contact_email a) (contact_email b)
  then String.leb (list_type a) (list_type b)
  else String.leb (contact_email a) (contact_email b).

(** A row goes into the index after the rows that are not above it. *)
Fixpoint index_insert (c : contact) (sorted : list contact) : list contact :=
  match sorted with
  | [] => [c]
  | d :: rest =>
      if index_leb d c then d :: index_insert c rest else c :: d :: rest
  end.

(** The rows in the order of the index; rows with the same key stay in
    the order of their rowids. *)
Definition index_order (rows : list contact) : list contact :=
  fold_left (fun sorted c => index_insert c sorted) rows [].

Definition entry_of (c : contact) : contact_entry :=
  {| entry_email := contact_email c;
     entry_nickname := nickname c;
     entry_list_type := list_type c |}.

(** The same order on the entries. *)
Definition entry_leb (a b : contact_entry) : bool :=
  if String.eqb (entry_email a) (entry_email b)
  then String.leb (entry_list_type a) (entry_list_type b)
  else String.leb (entry_email a) (entry_email b).

(** [SELECT contact_email as email, nickname, list_type FROM contacts
    WHERE owner_email = ?].  The statement has no [ORDER BY]; SQLite
    answers it by a search of the index of the uniqueness constraint,
    whose first column is [owner_email], so the rows come in the order
    of that index. *)
Definition get_user_contacts (db : t) (email : string) : list contact_entry :=
  map entry_of
      (index_order (filter (fun c => owner_email c = email) (contacts db))).

(** The rowid SQLite gives a new row of an [INTEGER PRIMARY KEY] table:
    one more than the largest in use. *)
Definition next_rowid (rows : list contact) : Z :=
  1 + fold_right Z.max 0 (map contact_id rows).

(** The store after a statement that raised [IntegrityError] in a
    method that catches it: the rows are as before, the connection is
    left open with the write lock. *)
Definition refused (db : t) : t :=
  {| users := users db; contacts := contacts db; locked := true |}.

(** [add_contact(owner_email, contact_email, nickname, list_type)] once
    the write lock is free ([available]): [INSERT INTO contacts
    (owner_email, contact_email, nickname, list_type) VALUES (?, ?, ?,
    ?)]; the [IntegrityError] of the uniqueness constraint is caught and
    answered [False], with the connection left open.  [now] is the
    engine's [CURRENT_TIMESTAMP]. *)
Definition add_contact (db : t) (owner peer nick lst : string) (now : Z)
  : t * bool :=
  if existsb (same_key owner peer lst) (contacts db) then (refused db, false)
  else ({| users := users db;
           contacts := contacts db ++
             [ {| contact_id := next_rowid (contacts db);
                  owner_email := owner;
                  contact_email := peer;
                  nickname := Some nick;
                  list_type := lst;
                  added_at := now |} ];
           locked := locked db |}, true).

(** [remove_contact(owner_email, contact_email, list_type)] once the
    write lock is free: [DELETE FROM contacts WHERE owner_email = ? AND
    contact_email = ? AND list_type = ?]. *)
Definition remove_contact (db : t) (owner peer lst : string) : t :=
  {| users := users db;
     contacts := filter (fun c => same_key owner peer lst c = false)
                        (contacts db);
     locked := locked db |}.

End Database.

(* ================================================================== *)
(** * [server/client_manager.py]: class [ClientManager]                *)
(* ================================================================== *)

Module ClientManager.

(** The [client_info] dictionary of a registered connection. *)
Record client_info : Type := {
  id : nat;
  email : string;
  writer : nat;
  status : string;
  connected_at : Z;
  last_activity : Z;
}.

Record t : Type := {
  clients : list (nat * client_info);   (* client_id -> client_info *)
  email_to_client : gmap string nat;    (* email -> client_id *)
  next_client_id : nat;
}.

(** [__init__]. *)
Definition init : t :=
  {| clients := []; email_to_client := ∅; next_client_id := 1 |}.

(** [add_client(writer, email)]; [now] is [datetime.now()]. *)
Definition add_client (m : t) (w : nat) (e : string) (now : Z) : nat * t :=
  let client_id := next_client_id m in
  let info := {| id := client_id; email := e; writer := w;
                 status := "NLN"; connected_at := now;
                 last_activity := now |} in
  (client_id,
   {| clients := Py.set client_id info (clients m);
      email_to_client := <[e := client_id]> (email_to_client m);
      next_client_id := S client_id |}).

(** The loop of [disconnect_client]: the first client, in dictionary
    order, whose writer is [w]. *)
Fixpoint find_writer (w : nat) (d : list (nat * client_info)) : option nat :=
  match d with
  | [] => None
  | (cid, info) :: rest =>
      if decide (writer info = w) then Some cid else find_writer w rest
  end.

(** [disconnect_client(writer)]. *)
Definition disconnect_client (m : t) (w : nat) : t :=
  match find_writer w (clients m) with
  | Some cid =>
      if Py.truthy_nat cid then
        match Py.get cid (clients m) with
        | Some info =>
            {| clients := Py.del cid (clients m);
               email_to_client := delete (email info) (email_to_client m);
               next_client_id := next_client_id m |}
        | None => m
        end
      else m
  | None => m
  end.

(** [get_client_by_id(client_id)]. *)
Definition get_client_by_id (m : t) (cid : nat) : option client_info :=
  Py.get cid (clients m).

(** [get_client_by_email(email)]. *)
Definition get_client_by_email (m : t) (e : string) : option client_info :=
  match email_to_client m !! e with
  | Some cid => if Py.truthy_nat cid then Py.get cid (clients m) else None
  | None => None
  end.

(** [update_client_status(client_id, status)]. *)
Definition update_client_status (m : t) (cid : nat) (st : string) (now : Z)
  : t :=
  match Py.get cid (clients m) with
  | Some info =>
      {| clients :=
           Py.set cid {| id := id info; email := email info;
                         writer := writer info; status := st;
                         connected_at := connected_at info;
                         last_activity := now |} (clients m);
         email_to_client := email_to_client m;
         next_client_id := next_client_id m |}
  | None => m
  end.

(** One turn of the loop of [get_online_contacts]. *)
Definition online_step (e : string) (acc : list (string * string))
    (info : client_info) : list (string * string) :=
  if negb (String.eqb (email info) e) && negb (String.eqb (status info) "HDN")
  then acc ++ [(email info, status info)]
  else acc.

(** [get_online_contacts(email)]: the entries are the pairs of the keys
    ['email'] and ['status']. *)
Definition get_online_contacts (m : t) (e : string) : list (string * string) :=
  fold_left (online_step e) (Py.values (clients m)) [].

End ClientManager.

(* ================================================================== *)
(** * [server/protocol_handler.py]: class [MSNPProtocolHandler]        *)
(* ================================================================== *)

Module Handler.

(** The attributes of a handler that change; [reader] and [writer] are
    the connection, named by the number [w] given to every method. *)
Record t : Type := {
  client_id : option nat;
  email : option string;
  transaction_id : nat;
  authenticated : bool;
  protocol_version : option string;
}.

(** [__init__]. *)
Definition init : t :=
  {| client_id := None; email := None; transaction_id := 0%nat;
     authenticated := false; protocol_version := None |}.

(** The objects every handler shares. *)
Record shared : Type := {
  client_manager : ClientManager.t;
  db_manager : Database.t;
}.

(** What a command reads from outside the program: a fresh
    [str(uuid.uuid4())], the clock, the text [reader.read(n)] yields
    once decoded ([None] when decoding raises), and whether the
    interpreter has by now collected the database connections that
    earlier commands left open ([Database.available]). *)
Record env : Type := {
  uuid4 : string;
  now : Z;
  read : Z -> option string;
  collected : bool;
}.

(** The state after a command, what it wrote, and whether it raised. *)
Record step : Type := Step {
  handler : t;
  world : shared;
  out : list event;
  raised : bool;
}.

Definition set_manager (s : shared) (m : ClientManager.t) : shared :=
  {| client_manager := m; db_manager := db_manager s |}.

Definition set_db (s : shared) (d : Database.t) : shared :=
  {| client_manager := client_manager s; db_manager := d |}.

(** [send_response(response)]. *)
Definition send_response (w : nat) (response : string) : list event :=
  [Send w response].

(** [send_error(transaction_id, error_code)]. *)
Definition send_error (w : nat) (transaction_id : string) (error_code : nat)
  : list event :=
  send_response w
    (Py.str_of_nat error_code +:+ " " +:+ transaction_id +:+ Py.CRLF).

Definition supported_versions : list string :=
  ["MSNP21"; "MSNP20"; "MSNP19"; "MSNP18"; "MSNP15"; "MSNP12"; "MSNP11";
   "MSNP10"; "MSNP9"; "MSNP8"]%string.

(** The loop of [handle_ver]: the first supported version the client
    offers. *)
Definition select_version (client_versions : list string) : option string :=
  find (fun version => bool_decide (version ∈ client_versions))
       supported_versions.

Definition lst_line (c : Database.contact_entry) : string :=
  "LST " +:+ Database.entry_email c +:+ " "
  +:+ Py.fmt_opt (Database.entry_nickname c) +:+ " "
  +:+ Database.entry_list_type c +:+ Py.CRLF.

Section WithRouter.

(** [server/message_router.py] is not among the sources: the method
    [MessageRouter.broadcast_status_change(email, status)] is a
    parameter.  The router is built from the client manager alone
    ([MessageRouter(self.client_manager)]); it is given as a function
    of the registry and its two arguments to the writes it makes. *)
Variable broadcast_status_change :
  ClientManager.t -> option string -> string -> list event.

(** [handle_ver(parts, transaction_id)].  No element of
    [supported_versions] is empty, so [not selected_version] holds for
    [None] only. *)
Definition handle_ver (w : nat) (h : t) (s : shared) (parts : list string)
    (tid : string) : step :=
  let client_versions := skipn 2 parts in
  let selected_version :=
    match select_version client_versions with
    | Some version => version
    | None => "MSNP8"%string
    end in
  Step {| client_id := client_id h; email := email h;
          transaction_id := transaction_id h;
          authenticated := authenticated h;
          protocol_version := Some selected_version |}
       s
       (send_response w
          ("VER " +:+ tid +:+ " " +:+ selected_version +:+ Py.CRLF))
       false.

(** [handle_cvr(parts, transaction_id)]. *)
Definition handle_cvr (w : nat) (h : t) (s : shared) (parts : list string)
    (tid : string) : step :=
  Step h s
       (send_response w
          ("CVR " +:+ tid
           +:+ " 8.5.1302 8.5.1302 8.5.1302 http://messenger.msn.com"
           +:+ Py.CRLF))
       false.

(** [handle_usr(parts, transaction_id)]. *)
Definition handle_usr (e : env) (w : nat) (h : t) (s : shared)
    (parts : list string) (tid : string) : step :=
  if (List.length parts <? 4)%nat then Step h s (send_error w tid 911) false
  else
    let auth_type := nth 2 parts ""%string in
    if String.eqb auth_type "I" then
      (* 'USR 3 I user@hotmail.com': remember the email, send a challenge *)
      let challenge := uuid4 e in
      Step {| client_id := client_id h; email := Some (nth 3 parts ""%string);
              transaction_id := transaction_id h;
              authenticated := authenticated h;
              protocol_version := protocol_version h |}
           s
           (send_response w
              ("USR " +:+ tid +:+ " S " +:+ challenge +:+ Py.CRLF))
           false
    else if String.eqb auth_type "S" then
      (* 'USR 4 S response_hash' *)
      match email h with
      | Some self_email =>
          if Py.truthy_str self_email then
            let provided_hash := nth 3 parts ""%string in
            match Database.get_user_by_email (db_manager s) self_email with
            | Some user =>
                (* any hash is accepted *)
                let '(cid, m) :=
                  ClientManager.add_client (client_manager s) w self_email
                                           (now e) in
                Step {| client_id := Some cid; email := email h;
                        transaction_id := transaction_id h;
                        authenticated := true;
                        protocol_version := protocol_version h |}
                     (set_manager s m)
                     (send_response w
                        ("USR " +:+ tid +:+ " OK " +:+ self_email +:+ " "
                         +:+ self_email +:+ " 1 0" +:+ Py.CRLF))
                     false
            | None => Step h s (send_error w tid 911) false
            end
          else Step h s [] false
      | None => Step h s [] false
      end
    else Step h s [] false.

(** [get_user_contacts(self.email)]: no row has a NULL owner. *)
Definition my_contacts (h : t) (s : shared) : list Database.contact_entry :=
  match email h with
  | Some self_email => Database.get_user_contacts (db_manager s) self_email
  | None => []
  end.

(** [handle_syn(parts, transaction_id)]. *)
Definition handle_syn (w : nat) (h : t) (s : shared) (parts : list string)
    (tid : string) : step :=
  if negb (authenticated h) then Step h s (send_error w tid 911) false
  else
    let contacts := my_contacts h s in
    Step h s
         (flat_map (fun c => send_response w (lst_line c)) contacts
          ++ send_response w
               ("SYN " +:+ tid +:+ " "
                +:+ Py.str_of_nat (List.length contacts) +:+ " 0" +:+ Py.CRLF))
         false.

(** [handle_chg(parts, transaction_id)]. *)
Definition handle_chg (e : env) (w : nat) (h : t) (s : shared)
    (parts : list string) (tid : string) : step :=
  if negb (authenticated h) then Step h s (send_error w tid 911) false
  else if (3 <=? List.length parts)%nat then
    let status := nth 2 parts ""%string in
    let m :=
      match client_id h with
      | Some cid =>
          ClientManager.update_client_status (client_manager s) cid status
                                             (now e)
      | None => client_manager s
      end in
    Step h (set_manager s m)
         (broadcast_status_change m (email h) status
          ++ send_response w
               ("CHG " +:+ tid +:+ " " +:+ status +:+ " 0" +:+ Py.CRLF))
         false
  else Step h s [] false.

(** [handle_msg(parts, transaction_id)].  The text taken out of the
    payload is not used; [int], [read] and [decode] may raise. *)
Definition handle_msg (e : env) (w : nat) (h : t) (s : shared)
    (parts : list string) (tid : string) : step :=
  if negb (authenticated h) then Step h s (send_error w tid 911) false
  else if (4 <=? List.length parts)%nat then
    match Py.int (nth 3 parts ""%string) with
    | Some msg_length =>
        match read e msg_length with
        | Some message_content =>
            Step h s
                 (send_response w ("MSG " +:+ tid +:+ " OK" +:+ Py.CRLF))
                 false
        | None => Step h s [] true
        end
    | None => Step h s [] true
    end
  else Step h s [] false.

(** [handle_cal(parts, transaction_id)]. *)
Definition handle_cal (e : env) (w : nat) (h : t) (s : shared)
    (parts : list string) (tid : string) : step :=
  if (3 <=? List.length parts)%nat then
    let session_id := uuid4 e in
    Step h s
         (send_response w
            ("CAL " +:+ tid +:+ " RINGING " +:+ session_id +:+ Py.CRLF))
         false
  else Step h s [] false.

(** [handle_ans(parts, transaction_id)]. *)
Definition handle_ans (w : nat) (h : t) (s : shared) (parts : list string)
    (tid : string) : step :=
  Step h s (send_response w ("ANS " +:+ tid +:+ " OK" +:+ Py.CRLF)) false.

(** [handle_add(parts, transaction_id)].  When the database is locked
    the [INSERT] raises and nothing is answered.  With no email yet the
    owner is NULL, which the [NOT NULL] constraint refuses: an
    [IntegrityError] like that of a duplicate. *)
Definition handle_add (e : env) (w : nat) (h : t) (s : shared)
    (parts : list string) (tid : string) : step :=
  if (5 <=? List.length parts)%nat then
    let list_type := nth 2 parts ""%string in
    let peer := nth 3 parts ""%string in
    let nickname := nth 4 parts ""%string in
    match Database.available (collected e) (db_manager s) with
    | None => Step h s [] true
    | Some free =>
        let db :=
          match email h with
          | Some self_email =>
              fst (Database.add_contact free self_email peer nickname
                                        list_type (now e))
          | None => Database.refused free
          end in
        Step h (set_db s db)
             (send_response w
                ("ADD " +:+ tid +:+ " " +:+ list_type +:+ " " +:+ peer
                 +:+ " " +:+ nickname +:+ Py.CRLF))
             false
    end
  else Step h s [] false.

(** [handle_rem(parts, transaction_id)].  When the database is locked
    the [DELETE] raises and nothing is answered.  With no email yet the
    owner is NULL and no row is deleted. *)
Definition handle_rem (e : env) (w : nat) (h : t) (s : shared)
    (parts : list string) (tid : string) : step :=
  if (4 <=? List.length parts)%nat then
    let list_type := nth 2 parts ""%string in
    let peer := nth 3 parts ""%string in
    match Database.available (collected e) (db_manager s) with
    | None => Step h s [] true
    | Some free =>
        let db :=
          match email h with
          | Some self_email =>
              Database.remove_contact free self_email peer list_type
          | None => free
          end in
        Step h (set_db s db)
             (send_response w
                ("REM " +:+ tid +:+ " " +:+ list_type +:+ " " +:+ peer
                 +:+ Py.CRLF))
             false
    end
  else Step h s [] false.

(** [handle_lst(parts, transaction_id)]. *)
Definition handle_lst (w : nat) (h : t) (s : shared) (parts : list string)
    (tid : string) : step :=
  Step h s
       (flat_map (fun c => send_response w (lst_line c)) (my_contacts h s))
       false.

(** [handle_out(parts, transaction_id)]. *)
Definition handle_out (w : nat) (h : t) (s : shared) (parts : list string)
    (tid : string) : step :=
  Step h
       (set_manager s
          (ClientManager.disconnect_client (client_manager s) w))
       (send_response w ("OUT" +:+ Py.CRLF))
       false.

(** [handle_png(parts, transaction_id)]. *)
Definition handle_png (w : nat) (h : t) (s : shared) (parts : list string)
    (tid : string) : step :=
  Step h s (send_response w ("QNG 60" +:+ Py.CRLF)) false.

(** [handle_qng(parts, transaction_id)]. *)
Definition handle_qng (w : nat) (h : t) (s : shared) (parts : list string)
    (tid : string) : step :=
  Step h s [] false.

(** [process_command(message)]. *)
Definition process_command (e : env) (w : nat) (h : t) (s : shared)
    (message : string) : step :=
  let parts := Py.split_space message in
  if (List.length parts <? 2)%nat then Step h s [] false
  else
    let command := nth 0 parts ""%string in
    let tid := nth 1 parts "0"%string in
    if String.eqb command "VER" then handle_ver w h s parts tid
    else if String.eqb command "CVR" then handle_cvr w h s parts tid
    else if String.eqb command "USR" then handle_usr e w h s parts tid
    else if String.eqb command "SYN" then handle_syn w h s parts tid
    else if String.eqb command "CHG" then handle_chg e w h s parts tid
    else if String.eqb command "MSG" then handle_msg e w h s parts tid
    else if String.eqb command "ADD" then handle_add e w h s parts tid
    else if String.eqb command "REM" then handle_rem e w h s parts tid
    else if String.eqb command "LST" then handle_lst w h s parts tid
    else if String.eqb command "CAL" then handle_cal e w h s parts tid
    else if String.eqb command "ANS" then handle_ans w h s parts tid
    else if String.eqb command "OUT" then handle_out w h s parts tid
    else if String.eqb command "PNG" then handle_png w h s parts tid
    else if String.eqb command "QNG" then handle_qng w h s parts tid
    else Step h s [] false.

(** One turn of the loop of [handle_connection] on the line [data]
    that [readline] returned, a line of ASCII bytes (which
    [data.decode('utf-8')] leaves as they are): an empty line is
    skipped, an exception ends the loop. *)
Definition handle_line (e : env) (w : nat) (h : t) (s : shared)
    (data : string) : step :=
  let message := Py.strip data in
  if negb (Py.truthy_str message) then Step h s [] false
  else process_command e w h s message.

(** The [finally] block of [MSNPServer.handle_client] in
    [server/msnp_server.py], run when the loop ends. *)
Definition close_connection (w : nat) (s : shared) : shared * list event :=
  (set_manager s (ClientManager.disconnect_client (client_manager s) w),
   [Close w]).

(** [handle_connection] on the lines a connection delivers, each with
    what the command reads from outside; the end of the list is the
    end of the stream.  The second component is the output. *)
Fixpoint handle_connection (w : nat) (h : t) (s : shared)
    (input : list (string * env)) : t * shared * list event :=
  match input with
  | [] => let '(s', evs) := close_connection w s in (h, s', evs)
  | (data, e) :: rest =>
      let r := handle_line e w h s data in
      if raised r then
        let '(s', evs) := close_connection w (world r) in
        (handler r, s', out r ++ evs)
      else
        let '(h', s', evs) := handle_connection w (handler r) (world r) rest in
        (h', s', out r ++ evs)
  end.

End WithRouter.

End Handler.

(* ================================================================== *)
(** * [server/msnp_server.py]: the connections of the asyncio server   *)
(* ================================================================== *)

Module AsyncServer.

(** The shared objects of [MSNPServer] and one protocol handler for
    every open connection, under the number naming its writer. *)
Record t : Type := {
  shared : Handler.shared;
  handlers : gmap nat Handler.t;
}.

(** [MSNPServer.__init__], over a database. *)
Definition init (db : Database.t) : t :=
  {| shared := {| Handler.client_manager := ClientManager.init;
                  Handler.db_manager := db |};
     handlers := ∅ |}.

(** What happens to the server: a connection is accepted, a connection
    delivers a line, a connection reaches the end of its stream. *)
Inductive action : Type :=
| Accept (w : nat)
| Line (w : nat) (data : string) (e : Handler.env)
| Eof (w : nat).

Section WithRouter.
Variable broadcast_status_change :
  ClientManager.t -> option string -> string -> list event.

Definition close (srv : t) (w : nat) (s : Handler.shared) : t * list event :=
  let '(s', evs) := Handler.close_connection w s in
  ({| shared := s'; handlers := delete w (handlers srv) |}, evs).

(** [handle_client(reader, writer)], one action at a time. *)
Definition step (srv : t) (a : action) : t * list event :=
  match a with
  | Accept w =>
      match handlers srv !! w with
      | Some _ => (srv, [])
      | None =>
          ({| shared := shared srv;
              handlers := <[w := Handler.init]> (handlers srv) |}, [])
      end
  | Line w data e =>
      match handlers srv !! w with
      | Some h =>
          let r := Handler.handle_line broadcast_status_change e w h
                                       (shared srv) data in
          if Handler.raised r then
            let '(srv', evs) := close srv w (Handler.world r) in
            (srv', Handler.out r ++ evs)
          else
            ({| shared := Handler.world r;
                handlers := <[w := Handler.handler r]> (handlers srv) |},
             Handler.out r)
      | None => (srv, [])
      end
  | Eof w =>
      match handlers srv !! w with
      | Some _ => close srv w (shared srv)
      | None => (srv, [])
      end
  end.

Fixpoint run (srv : t) (acts : list action) : t * list event :=
  match acts with
  | [] => (srv, [])
  | a :: rest =>
      let '(srv', evs) := step srv a in
      let '(srv'', evs') := run srv' rest in
      (srv'', evs ++ evs')
  end.

End WithRouter.

(** The command word of a line, as [process_command] reads it. *)
Definition command_of (data : string) : string :=
  nth 0 (Py.split_space (Py.strip data)) ""%string.

(** The action is a [CHG] line of connection [w]. *)
Definition sends_chg (w : nat) (a : action) : bool :=
  match a with
  | Line w' data _ => Nat.eqb w' w && String.eqb (command_of data) "CHG"
  | _ => false
  end.

(** The line of the action, if it is one, is ASCII. *)
Definition ascii_action (a : action) : bool :=
  match a with
  | Line _ data _ => Py.is_ascii data
  | _ => true
  end.

Definition manager (srv : t) : ClientManager.t :=
  Handler.client_manager (shared srv).

(** Client ids are handed out in increasing order: every id in the
    registry or held by a handler is below [next_client_id]. *)
Definition ids_below_next (srv : t) : Prop :=
  (forall c info, In (c, info) (ClientManager.clients (manager srv)) ->
                  (c < ClientManager.next_client_id (manager srv))%nat)
  /\ (forall w h c, handlers srv !! w = Some h ->
                    Handler.client_id h = Some c ->
                    (c < ClientManager.next_client_id (manager srv))%nat).

(** Every entry of the registry under the id [cid] has status [NLN]. *)
Definition recorded_online (cid : nat) (srv : t) : Prop :=
  forall info, In (cid, info) (ClientManager.clients (manager srv)) ->
               ClientManager.status info = "NLN"%string.


(** What a line does to the registry and to the client id of its
    handler: nothing, a registration, a status update of the handler's
    own client (a [CHG] line), or the removal of a client of the
    connection. *)
Definition registry_effect (w : nat) (now : Z) (data : string)
    (h h' : Handler.t) (m m' : ClientManager.t) : Prop :=
  (m' = m /\ Handler.client_id h' = Handler.client_id h)
  \/ (exists mail, m' = snd (ClientManager.add_client m w mail now)
                   /\ Handler.client_id h'
                      = Some (ClientManager.next_client_id m))
  \/ (command_of data = "CHG"%string
      /\ Handler.client_id h' = Handler.client_id h
      /\ exists c st, Handler.client_id h = Some c
                      /\ m' = ClientManager.update_client_status m c st now)
  \/ (m' = ClientManager.disconnect_client m w
      /\ Handler.client_id h' = Handler.client_id h).

End AsyncServer.

(* ================================================================== *)
(** * [msn_messenger_server.py]: class [MSNPServer]                    *)
(* ================================================================== *)

Module Legacy.

(** ** The SQLite database [database/msn_messenger.db] *)

Record user : Type := {
  user_id : Z;
  user_email : string;
  user_password : string;
  user_display_name : option string;
  user_status : string;
}.

Record contact : Type := {
  contact_id : Z;
  contact_user_id : Z;
  contact_email : string;
  contact_name : option string;
  list_type : string;
}.

#[global] Instance contact_eq_dec : EqDecision contact.
Proof. solve_decision. Defined.

Record message : Type := {
  message_id : Z;
  from_user : option string;
  to_user : option string;
  message_text : string;
}.

(** The tables, with the counters [AUTOINCREMENT] keeps for them in
    [sqlite_sequence]. *)
Record database : Type := {
  users : list user;
  users_seq : Z;
  contacts : list contact;
  contacts_seq : Z;
  messages : list message;
  messages_seq : Z;
}.

Definition find_user (db : database) (email : string) : option user :=
  find (fun u => String.eqb (user_email u) email) (users db).

(** [authenticate_user(username, client_hash, challenge)]. *)
Definition authenticate_user (db : database)
    (username client_hash challenge : string) : bool :=
  match find_user db username with
  | Some u =>
      let password := user_password u in
      (* expected hash: MD5(MD5(password) + challenge) *)
      let password_hash := MD5.hexdigest password in
      let expected_hash := MD5.hexdigest (password_hash +:+ challenge) in
      String.eqb (Py.lower client_hash) (Py.lower expected_hash)
  | None => false
  end.

(** [get_display_name(email)]. *)
Definition get_display_name (db : database) (email : string) : string :=
  match find_user db email with
  | Some u =>
      match user_display_name u with
      | Some name => if Py.truthy_str name then name else Py.before_at email
      | None => Py.before_at email
      end
  | None => Py.before_at email
  end.

Record contact_entry : Type := {
  entry_email : string;
  entry_name : string;
  entry_list_type : string;
}.

Definition entry_of (c : contact) : contact_entry :=
  {| entry_email := contact_email c;
     entry_name :=
       match contact_name c with
       | Some name =>
           if Py.truthy_str name then name else Py.before_at (contact_email c)
       | None => Py.before_at (contact_email c)
       end;
     entry_list_type := list_type c |}.

(** The rows of [contacts] joined to the user of that email. *)
Definition contacts_of (db : database) (email : string) : list contact :=
  match find_user db email with
  | Some u => filter (fun c => contact_user_id c = user_id u) (contacts db)
  | None => []
  end.

(** [get_user_contacts(email)]. *)
Definition get_user_contacts (db : database) (email : option string)
  : list contact_entry :=
  match email with
  | Some e => map entry_of (contacts_of db e)
  | None => []
  end.

Definition next_id (ids : list Z) (seq : Z) : Z :=
  1 + Z.max seq (fold_right Z.max 0 ids).

(** [store_message(from_user, to_user, message)]. *)
Definition store_message (db : database) (sender recipient : option string)
    (body : string) : database :=
  let i := next_id (map message_id (messages db)) (messages_seq db) in
  {| users := users db; users_seq := users_seq db; contacts := contacts db;
     contacts_seq := contacts_seq db;
     messages := messages db ++
       [ {| message_id := i; from_user := sender; to_user := recipient;
            message_text := body |} ];
     messages_seq := i |}.

(** [add_contact(user_email, contact_email, contact_name, list_type)]:
    no column but [id] is unique, so [INSERT OR REPLACE] inserts. *)
Definition add_contact (db : database) (user_email : option string)
    (peer name lst : string) : database :=
  match user_email ≫= find_user db with
  | Some u =>
      let i := next_id (map contact_id (contacts db)) (contacts_seq db) in
      {| users := users db; users_seq := users_seq db;
         contacts := contacts db ++
           [ {| contact_id := i; contact_user_id := user_id u;
                contact_email := peer; contact_name := Some name;
                list_type := lst |} ];
         contacts_seq := i;
         messages := messages db; messages_seq := messages_seq db |}
  | None => db
  end.

(** [remove_contact(user_email, contact_email, list_type)]. *)
Definition remove_contact (db : database) (user_email : option string)
    (peer lst : string) : database :=
  match user_email ≫= find_user db with
  | Some u =>
      {| users := users db; users_seq := users_seq db;
         contacts :=
           filter (fun c => ¬ (contact_user_id c = user_id u
                               ∧ contact_email c = peer ∧ list_type c = lst))
                  (contacts db);
         contacts_seq := contacts_seq db;
         messages := messages db; messages_seq := messages_seq db |}
  | None => db
  end.

(** ** The connections *)

(** The [client_info] dictionary of [handle_client]; the keys
    ['challenge'] and ['username'] are absent until phase 1 of [USR].
    (The key ['address'] is only logged.) *)
Record client_info : Type := {
  socket : nat;
  id : nat;
  authenticated : bool;
  email : option string;
  transaction_id : nat;
  version : option string;
  status : string;
  challenge : option string;
  username : option string;
}.

Record t : Type := {
  clients : list (nat * client_info);
  client_counter : nat;
  db : database;
}.

Definition supported_versions : list string :=
  ["MSNP2"; "MSNP3"; "MSNP4"; "MSNP5"; "MSNP6"; "MSNP7"]%string.

(** [send_response(client_info, response)]. *)
Definition send_response (ci : client_info) (response : string) : list event :=
  [Send (socket ci) response].

(** [send_error(client_info, error_code)]. *)
Definition send_error (ci : client_info) (error_code : string) : list event :=
  send_response ci (error_code +:+ Py.CRLF).

(** What a handler leaves: the server, the client's dictionary, the
    writes, and whether it raised. *)
Record step : Type := Step {
  server : t;
  client : client_info;
  out : list event;
  raised : bool;
}.

Definition set_db (srv : t) (d : database) : t :=
  {| clients := clients srv; client_counter := client_counter srv; db := d |}.

(** The loop of [handle_ver_command]. *)
Definition select_version (client_versions : list string) : option string :=
  find (fun version => bool_decide (version ∈ client_versions))
       (rev supported_versions).

(** [handle_ver_command(client_info, parts)]. *)
Definition handle_ver_command (srv : t) (ci : client_info)
    (parts : list string) : step :=
  if (List.length parts <? 3)%nat then Step srv ci (send_error ci "501") false
  else
    let transaction_id := nth 1 parts ""%string in
    let client_versions := skipn 2 parts in
    let supported_version :=
      match select_version client_versions with
      | Some version => version
      | None => "MSNP7"%string
      end in
    let ci' := {| socket := socket ci; id := id ci;
                  authenticated := authenticated ci; email := email ci;
                  transaction_id := Legacy.transaction_id ci;
                  version := Some supported_version; status := status ci;
                  challenge := challenge ci; username := username ci |} in
    Step srv ci'
         (send_response ci'
            ("VER " +:+ transaction_id +:+ " " +:+ supported_version
             +:+ Py.CRLF))
         false.

(** [handle_cvr_command(client_info, parts)]. *)
Definition handle_cvr_command (srv : t) (ci : client_info)
    (parts : list string) : step :=
  if (List.length parts <? 8)%nat then Step srv ci (send_error ci "501") false
  else
    let transaction_id := nth 1 parts ""%string in
    Step srv ci
         (send_response ci
            ("CVR " +:+ transaction_id
             +:+ " 7.0.0816 7.0.0816 7.0.0816 http://messenger.msn.com http://messenger.msn.com"
             +:+ Py.CRLF))
         false.

(** [send_initial_presence(client_info)], for the email just set. *)
Definition send_initial_presence (srv : t) (ci : client_info)
    (self_email : string) : list event :=
  send_response ci
    ("NLN " +:+ status ci +:+ " " +:+ self_email +:+ " "
     +:+ get_display_name (db srv) self_email +:+ Py.CRLF).

(** [handle_usr_command(client_info, parts)]; [new_challenge] is what
    [generate_challenge()] draws. *)
Definition handle_usr_command (new_challenge : string) (srv : t)
    (ci : client_info) (parts : list string) : step :=
  if (List.length parts <? 4)%nat then Step srv ci (send_error ci "501") false
  else
    let transaction_id := nth 1 parts ""%string in
    let auth_type := nth 2 parts ""%string in
    if String.eqb auth_type "MD5" && (List.length parts =? 4)%nat then
      (* initial authentication request *)
      let name := nth 3 parts ""%string in
      let ci' := {| socket := socket ci; id := id ci;
                    authenticated := authenticated ci; email := email ci;
                    transaction_id := Legacy.transaction_id ci;
                    version := version ci; status := status ci;
                    challenge := Some new_challenge;
                    username := Some name |} in
      Step srv ci'
           (send_response ci'
              ("USR " +:+ transaction_id +:+ " MD5 S " +:+ new_challenge
               +:+ Py.CRLF))
           false
    else if String.eqb auth_type "MD5" && (List.length parts =? 5)%nat then
      (* authentication response with hash *)
      let name := nth 3 parts ""%string in
      let client_hash := nth 4 parts ""%string in
      if authenticate_user (db srv) name client_hash
                           (default ""%string (challenge ci))
      then
        let ci' := {| socket := socket ci; id := id ci;
                      authenticated := true; email := Some name;
                      transaction_id := Legacy.transaction_id ci;
                      version := version ci; status := "NLN";
                      challenge := challenge ci;
                      username := username ci |} in
        Step srv ci'
             (send_response ci'
                ("USR " +:+ transaction_id +:+ " OK " +:+ name +:+ " "
                 +:+ get_display_name (db srv) name +:+ Py.CRLF)
              ++ send_initial_presence srv ci' name)
             false
      else
        Step srv ci
             (send_response ci
                ("USR " +:+ transaction_id +:+ " 911 0" +:+ Py.CRLF))
             false
    else Step srv ci [] false.

Definition lst_line (c : contact_entry) : string :=
  "LST " +:+ entry_email c +:+ " " +:+ entry_name c +:+ " "
  +:+ entry_list_type c +:+ Py.CRLF.

(** [handle_syn_command(client_info, parts)]. *)
Definition handle_syn_command (srv : t) (ci : client_info)
    (parts : list string) : step :=
  if negb (authenticated ci) then Step srv ci (send_error ci "911") false
  else
    let transaction_id := nth 1 parts "0"%string in
    let contacts := get_user_contacts (db srv) (email ci) in
    Step srv ci
         (send_response ci
            ("SYN " +:+ transaction_id +:+ " "
             +:+ Py.str_of_nat (List.length contacts) +:+ " 0" +:+ Py.CRLF)
          ++ flat_map (fun c => send_response ci (lst_line c)) contacts)
         false.

(** The line [broadcast_status_change] and [send_initial_presence]
    format; a client without email makes [get_display_name] raise. *)
Definition status_message (srv : t) (ci : client_info) : option string :=
  match email ci with
  | Some e =>
      Some ("NLN " +:+ status ci +:+ " " +:+ e +:+ " "
            +:+ get_display_name (db srv) e +:+ Py.CRLF)
  | None => None
  end.

(** The test of the loop of [broadcast_status_change]; a socket object
    is always true. *)
Definition is_recipient (ci : client_info) (other : nat * client_info) : bool :=
  negb (Nat.eqb (fst other) (id ci)) && authenticated (snd other) && true.

(** The loop of [broadcast_status_change]. *)
Fixpoint broadcast_loop (ci : client_info) (status_message : string)
    (others : list (nat * client_info)) : list event :=
  match others with
  | [] => []
  | other :: rest =>
      if is_recipient ci other
      then Send (socket (snd other)) status_message
             :: broadcast_loop ci status_message rest
      else broadcast_loop ci status_message rest
  end.

(** [broadcast_status_change(client_info)], over the dictionary
    [self.clients] in which [client_info] is already updated; [None]
    when formatting the line raises. *)
Definition broadcast_status_change (srv : t) (ci : client_info)
  : option (list event) :=
  match status_message srv ci with
  | Some line => Some (broadcast_loop ci line (clients srv))
  | None => None
  end.

(** The dictionary [self.clients] once [client_info], which is one of
    its values, is mutated. *)
Definition store_client (srv : t) (ci : client_info) : t :=
  {| clients :=
       match Py.get (id ci) (clients srv) with
       | Some _ => Py.set (id ci) ci (clients srv)
       | None => clients srv
       end;
     client_counter := client_counter srv; db := db srv |}.

(** [handle_chg_command(client_info, parts)]. *)
Definition handle_chg_command (srv : t) (ci : client_info)
    (parts : list string) : step :=
  if negb (authenticated ci) then Step srv ci (send_error ci "911") false
  else if (List.length parts <? 3)%nat
  then Step srv ci (send_error ci "501") false
  else
    let transaction_id := nth 1 parts ""%string in
    let new_status := nth 2 parts ""%string in
    let ci' := {| socket := socket ci; id := id ci;
                  authenticated := authenticated ci; email := email ci;
                  transaction_id := Legacy.transaction_id ci;
                  version := version ci; status := new_status;
                  challenge := challenge ci; username := username ci |} in
    let reply :=
      send_response ci'
        ("CHG " +:+ transaction_id +:+ " " +:+ new_status +:+ Py.CRLF) in
    (* notify other clients about the status change *)
    match broadcast_status_change (store_client srv ci') ci' with
    | Some evs => Step srv ci' (reply ++ evs) false
    | None => Step srv ci' reply true
    end.

(** The loop of [forward_message]: every failure inside is passed
    over. *)
Definition forward_message (srv : t) (sender : option string)
    (recipient body : string) : list event :=
  match sender with
  | Some from =>
      flat_map
        (fun other : nat * client_info =>
           if authenticated (snd other)
              && bool_decide (email (snd other) = Some recipient)
           then [Send (socket (snd other))
                      ("MSG " +:+ from +:+ " " +:+ get_display_name (db srv) from
                       +:+ " " +:+ Py.str_of_nat (String.length body)
                       +:+ Py.CRLF +:+ body)]
           else [])
        (clients srv)
  | None => []
  end.

(** [handle_msg_command(client_info, parts, full_message)]. *)
Definition handle_msg_command (srv : t) (ci : client_info)
    (parts : list string) (full_message : string) : step :=
  if negb (authenticated ci) then Step srv ci (send_error ci "911") false
  else if (List.length parts <? 4)%nat
  then Step srv ci (send_error ci "501") false
  else
    let transaction_id := nth 1 parts ""%string in
    let recipient :=
      if String.eqb (nth 2 parts ""%string) "U" then None
      else Some (nth 2 parts ""%string) in
    match Py.int (nth 3 parts ""%string) with
    | None => Step srv ci [] true
    | Some msg_length =>
        let header_end := Py.find_crlf full_message in
        if header_end =? -1 then Step srv ci [] false
        else
          let message_body :=
            Py.slice full_message (header_end + 2)
                     (header_end + 2 + msg_length) in
          let srv' := set_db srv (store_message (db srv) (email ci) recipient
                                                message_body) in
          Step srv' ci
               (send_response ci ("ACK " +:+ transaction_id +:+ Py.CRLF)
                ++ match recipient with
                   | Some r =>
                       if Py.truthy_str r
                       then forward_message srv' (email ci) r message_body
                       else []
                   | None => []
                   end)
               false
    end.

(** [handle_lst_command(client_info, parts)]. *)
Definition handle_lst_command (srv : t) (ci : client_info)
    (parts : list string) : step :=
  Step srv ci [] false.

(** [handle_add_command(client_info, parts)]. *)
Definition handle_add_command (srv : t) (ci : client_info)
    (parts : list string) : step :=
  if negb (authenticated ci) then Step srv ci (send_error ci "911") false
  else if (List.length parts <? 5)%nat
  then Step srv ci (send_error ci "501") false
  else
    let transaction_id := nth 1 parts ""%string in
    let list_type := nth 2 parts ""%string in
    let peer := nth 3 parts ""%string in
    let name := nth 4 parts ""%string in
    Step (set_db srv (add_contact (db srv) (email ci) peer name list_type)) ci
         (send_response ci
            ("ADD " +:+ transaction_id +:+ " " +:+ list_type +:+ " " +:+ peer
             +:+ " " +:+ name +:+ Py.CRLF))
         false.

(** [handle_rem_command(client_info, parts)]. *)
Definition handle_rem_command (srv : t) (ci : client_info)
    (parts : list string) : step :=
  if negb (authenticated ci) then Step srv ci (send_error ci "911") false
  else if (List.length parts <? 4)%nat
  then Step srv ci (send_error ci "501") false
  else
    let transaction_id := nth 1 parts ""%string in
    let list_type := nth 2 parts ""%string in
    let peer := nth 3 parts ""%string in
    Step (set_db srv (remove_contact (db srv) (email ci) peer list_type)) ci
         (send_response ci
            ("REM " +:+ transaction_id +:+ " " +:+ list_type +:+ " " +:+ peer
             +:+ Py.CRLF))
         false.

(** [handle_out_command(client_info, parts)]. *)
Definition handle_out_command (srv : t) (ci : client_info)
    (parts : list string) : step :=
  Step srv ci (send_response ci ("OUT" +:+ Py.CRLF) ++ [Close (socket ci)])
       false.

(** [handle_png_command(client_info, parts)]. *)
Definition handle_png_command (srv : t) (ci : client_info)
    (parts : list string) : step :=
  Step srv ci (send_response ci ("QNG 50" +:+ Py.CRLF)) false.

(** [handle_qng_command(client_info, parts)]. *)
Definition handle_qng_command (srv : t) (ci : client_info)
    (parts : list string) : step :=
  Step srv ci [] false.

(** The [try] block of [process_msnp_command]. *)
Definition dispatch (new_challenge : string) (srv : t) (ci : client_info)
    (parts : list string) (message : string) : step :=
  let command := Py.upper (nth 0 parts ""%string) in
  if String.eqb command "VER" then handle_ver_command srv ci parts
  else if String.eqb command "CVR" then handle_cvr_command srv ci parts
  else if String.eqb command "USR"
       then handle_usr_command new_challenge srv ci parts
  else if String.eqb command "SYN" then handle_syn_command srv ci parts
  else if String.eqb command "CHG" then handle_chg_command srv ci parts
  else if String.eqb command "LST" then handle_lst_command srv ci parts
  else if String.eqb command "ADD" then handle_add_command srv ci parts
  else if String.eqb command "REM" then handle_rem_command srv ci parts
  else if String.eqb command "MSG"
       then handle_msg_command srv ci parts message
  else if String.eqb command "OUT" then handle_out_command srv ci parts
  else if String.eqb command "PNG" then handle_png_command srv ci parts
  else if String.eqb command "QNG" then handle_qng_command srv ci parts
  else Step srv ci [] false.

(** [process_msnp_command(client_info, message)]: an exception of a
    handler is answered with error 911.  The result is the server, in
    whose dictionary the client is updated, and the writes. *)
Definition process_msnp_command (new_challenge : string) (srv : t)
    (ci : client_info) (message : string) : t * client_info * list event :=
  if negb (Py.truthy_str message) then (srv, ci, [])
  else
    let parts := Py.split message in
    if (List.length parts <? 1)%nat then (srv, ci, [])
    else
      let r := dispatch new_challenge srv ci parts message in
      let evs :=
        if raised r then out r ++ send_error (client r) "911" else out r in
      (store_client (server r) (client r), client r, evs).

(** The dictionary [handle_client] registers for a new connection. *)
Definition new_client (sock client_id : nat) : client_info :=
  {| socket := sock; id := client_id; authenticated := false; email := None;
     transaction_id := 0%nat; version := None; status := "FLN";
     challenge := None; username := None |}.

(** [start_server] accepts the connection [sock] and [handle_client]
    registers it. *)
Definition accept (srv : t) (sock : nat) : t :=
  let client_id := client_counter srv in
  {| clients := Py.set client_id (new_client sock client_id) (clients srv);
     client_counter := S client_id; db := db srv |}.

(** One turn of the loop of [handle_client] for the client [client_id]
    on the bytes [data] that [recv] returned, ASCII bytes (which
    [decode('utf-8', errors='ignore')] leaves as they are). *)
Definition receive (new_challenge : string) (srv : t) (client_id : nat)
    (data : string) : t * list event :=
  match Py.get client_id (clients srv) with
  | Some ci =>
      let '(srv', _, evs) :=
        process_msnp_command new_challenge srv ci (Py.strip data) in
      (srv', evs)
  | None => (srv, [])
  end.

(** [cleanup_client(client_id)]. *)
Definition cleanup_client (srv : t) (client_id : nat) : t * list event :=
  match Py.get client_id (clients srv) with
  | Some ci =>
      ({| clients := Py.del client_id (clients srv);
          client_counter := client_counter srv; db := db srv |},
       [Close (socket ci)])
  | None => (srv, [])
  end.

(** [MSNPServer.__init__] over a database. *)
Definition init (d : database) : t :=
  {| clients := []; client_counter := 1%nat; db := d |}.

(** What happens to the server: a connection is accepted, the thread of
    a client receives bytes (and [generate_challenge] would draw
    [new_challenge]), the thread of a client ends. *)
Inductive action : Type :=
| Accept (sock : nat)
| Receive (client_id : nat) (data : string) (new_challenge : string)
| Cleanup (client_id : nat).

Definition run_step (srv : t) (a : action) : t * list event :=
  match a with
  | Accept sock => (accept srv sock, [])
  | Receive client_id data new_challenge =>
      receive new_challenge srv client_id data
  | Cleanup client_id => cleanup_client srv client_id
  end.

Fixpoint run (srv : t) (acts : list action) : t * list event :=
  match acts with
  | [] => (srv, [])
  | a :: rest =>
      let '(srv', evs) := run_step srv a in
      let '(srv'', evs') := run srv' rest in
      (srv'', evs ++ evs')
  end.

(** The command word of the bytes, as [process_msnp_command] reads it. *)
Definition command_of (data : string) : string :=
  Py.upper (nth 0 (Py.split (Py.strip data)) ""%string).

(** The action is a [CHG] command of the client [client_id]. *)
Definition sends_chg (client_id : nat) (a : action) : bool :=
  match a with
  | Receive c data _ => Nat.eqb c client_id && String.eqb (command_of data) "CHG"
  | _ => false
  end.

(** The bytes of the action, if it has any, are ASCII. *)
Definition ascii_action (a : action) : bool :=
  match a with
  | Receive _ data _ => Py.is_ascii data
  | _ => true
  end.


(** Every client is registered once, under its own id, below the
    counter. *)
Definition keys_ok (srv : t) : Prop :=
  NoDup (Py.keys (clients srv))
  /\ forall k ci, In (k, ci) (clients srv) ->
                  id ci = k /\ (k < client_counter srv)%nat.

(** What a command does to the dictionary of its client: the client
    keeps its status and whether it is authenticated, or it has just
    logged in, or the command is [CHG]. *)
Definition client_effect (command : string) (ci ci' : client_info) : Prop :=
  id ci' = id ci
  /\ ((authenticated ci' = authenticated ci /\ status ci' = status ci)
      \/ (authenticated ci' = true /\ status ci' = "NLN"%string)
      \/ (authenticated ci' = authenticated ci /\ command = "CHG"%string)).

(** Every entry of [clients] under the id [cid] has status [NLN]. *)
Definition recorded_online (cid : nat) (srv : t) : Prop :=
  forall ci, In (cid, ci) (clients srv) -> status ci = "NLN"%string.

End Legacy.

(* ================================================================== *)
(** * [server/message_router.py]: class [MessageRouter]                *)
(* ================================================================== *)

Module MessageRouter.

Definition on_list (db : Database.t) (owner lst peer : string) : bool :=
  existsb (Database.same_key owner peer lst) (Database.contacts db).

Definition has_list (db : Database.t) (owner lst : string) : bool :=
  existsb (fun c => String.eqb (Database.owner_email c) owner
                    && String.eqb (Database.list_type c) lst)
          (Database.contacts db).

(** Modelled from the spec: [server/message_router.py] is not among the
    sources.  Section 4.5: the block list of the user does not contain
    the peer, and the allow list contains the peer or is empty. *)
Definition al_bl_check (db : Database.t) (user peer : string) : bool :=
  negb (on_list db user "BL" peer)
  && (on_list db user "AL" peer || negb (has_list db user "AL")).

(** Modelled from the spec: [server/message_router.py] is not among the
    sources.  Section 4.5, fan-out: the peers on the reverse list of the
    user that pass the allow/block check and have an active session get
    the line [state NLN user displayName capabilities]; section 4.2: a
    change to [HDN] is not fanned out. *)
Definition broadcast_status_change (db : Database.t) (m : ClientManager.t)
    (email : option string) (status : string) : list event :=
  match email with
  | Some user =>
      if String.eqb status "HDN" then []
      else
        let display_name :=
          match Database.get_user_by_email db user with
          | Some u => default user (Database.user_display_name u)
          | None => user
          end in
        flat_map
          (fun c : Database.contact =>
             if String.eqb (Database.owner_email c) user
                && String.eqb (Database.list_type c) "RL"
                && al_bl_check db user (Database.contact_email c)
             then match ClientManager.get_client_by_email
                          m (Database.contact_email c) with
                  | Some info =>
                      [Send (ClientManager.writer info)
                            (status +:+ " NLN " +:+ user +:+ " "
                             +:+ display_name +:+ " 0" +:+ Py.CRLF)]
                  | None => []
                  end
             else [])
          (Database.contacts db)
  | None => []
  end.

End MessageRouter.

(* ================================================================== *)
(** * The words of the specification                                   *)
(* ================================================================== *)

Module Spec.



(** Section 4.5, over the contact store of the threaded server: the
    peer is on the list of the user. *)
Definition on_list (db : Legacy.database) (user lst peer : string) : bool :=
  existsb (fun c => String.eqb (Legacy.contact_email c) peer
                    && String.eqb (Legacy.list_type c) lst)
          (Legacy.contacts_of db user).

Definition has_list (db : Legacy.database) (user lst : string) : bool :=
  existsb (fun c => String.eqb (Legacy.list_type c) lst)
          (Legacy.contacts_of db user).


(** A registered client another user may see: its email is not the
    queried one and it is not hidden. *)
Definition visible_to (e : string) (info : ClientManager.client_info) : bool :=
  negb (String.eqb (ClientManager.email info) e)
  && negb (String.eqb (ClientManager.status info) "HDN").

(** The entry of a client in a list of online contacts. *)
Definition entry_of (info : ClientManager.client_info) : string * string :=
  (ClientManager.email info, ClientManager.status info).

(** The peers of a list of lines are in ascending order. *)
Fixpoint ascending (peers : list string) : bool :=
  match peers with
  | a :: (b :: _) as rest => String.leb a b && ascending rest
  | _ => true
  end.

End Spec.

(* ================================================================== *)
(** * The scenarios of section 8 of the specification                  *)
(* ================================================================== *)

Module Scenario.

Definition a_x : string := "a@x".
Definition b_x : string := "b@x".
Definition c_x : string := "c@x".

(** The store of the asyncio server: users [a@x] (credential [p]) and
    [b@x], no contact. *)
Definition db : Database.t :=
  {| Database.users :=
       [ {| Database.user_id := 1; Database.user_email := a_x;
            Database.user_password := "p";
            Database.user_display_name := Some a_x |};
         {| Database.user_id := 2; Database.user_email := b_x;
            Database.user_password := "q";
            Database.user_display_name := Some b_x |} ];
     Database.contacts := []; Database.locked := false |}.

(** The nonce and the clock of the scenarios; no payload is pending and
    nothing has been collected. *)
Definition nonce : string := "N".

Definition env0 : Handler.env :=
  {| Handler.uuid4 := nonce; Handler.now := 0;
     Handler.read := fun _ => Some ""%string; Handler.collected := false |}.

Definition router : ClientManager.t -> option string -> string -> list event :=
  MessageRouter.broadcast_status_change db.

Definition shared0 : Handler.shared :=
  {| Handler.client_manager := ClientManager.init;
     Handler.db_manager := db |}.

Definition line (s : string) : string := s +:+ Py.CRLF.

(** Two connections, 1 and 2, authenticate as [a@x] one after the
    other. *)
Definition two_logins : list AsyncServer.action :=
  [ AsyncServer.Accept 1;
    AsyncServer.Line 1 (line "USR 3 I a@x") env0;
    AsyncServer.Line 1 (line "USR 4 S dummy_hash") env0;
    AsyncServer.Accept 2;
    AsyncServer.Line 2 (line "USR 3 I a@x") env0;
    AsyncServer.Line 2 (line "USR 4 S dummy_hash") env0 ].

(** A handler of the asyncio server after [a@x] logged in. *)
Definition handler_a : Handler.t :=
  {| Handler.client_id := Some 1%nat; Handler.email := Some a_x;
     Handler.transaction_id := 0%nat; Handler.authenticated := true;
     Handler.protocol_version := Some "MSNP8"%string |}.

(** The store of the threaded server: the same users, no contact. *)
Definition legacy_db : Legacy.database :=
  {| Legacy.users :=
       [ {| Legacy.user_id := 1; Legacy.user_email := a_x;
            Legacy.user_password := "p";
            Legacy.user_display_name := Some a_x;
            Legacy.user_status := "NLN" |};
         {| Legacy.user_id := 2; Legacy.user_email := b_x;
            Legacy.user_password := "q";
            Legacy.user_display_name := Some b_x;
            Legacy.user_status := "NLN" |} ];
     Legacy.users_seq := 2;
     Legacy.contacts := []; Legacy.contacts_seq := 0;
     Legacy.messages := []; Legacy.messages_seq := 0 |}.

(** A logged-in client of the threaded server. *)
Definition logged_in (sock client_id : nat) (email : string)
  : Legacy.client_info :=
  {| Legacy.socket := sock; Legacy.id := client_id;
     Legacy.authenticated := true; Legacy.email := Some email;
     Legacy.transaction_id := 0%nat; Legacy.version := Some "MSNP7"%string;
     Legacy.status := "NLN"; Legacy.challenge := Some nonce;
     Legacy.username := Some email |}.

(** The threaded server with [a@x] on socket 11 and [b@x] on socket
    12, both logged in, and an empty contact table. *)
Definition legacy_two : Legacy.t :=
  {| Legacy.clients := [ (1%nat, logged_in 11 1 a_x);
                         (2%nat, logged_in 12 2 b_x) ];
     Legacy.client_counter := 3%nat;
     Legacy.db := legacy_db |}.

(** [a@x] adds [c@x], then [b@x], to the forward list. *)
Definition legacy_db_cb : Legacy.database :=
  Legacy.add_contact
    (Legacy.add_contact legacy_db (Some a_x) c_x "c" "FL")
    (Some a_x) b_x "b" "FL".

Definition db_cb : Database.t :=
  fst (Database.add_contact
         (fst (Database.add_contact db a_x c_x "c" "FL" 0))
         a_x b_x "b" "FL" 0).

(** [a@x] already has [b@x] on the forward list. *)
Definition db_with_b : Database.t :=
  fst (Database.add_contact db a_x b_x "b" "FL" 0).

(** [a@x] puts [b@x] on the forward list, then on the allow list. *)
Definition db_fl_al : Database.t :=
  fst (Database.add_contact
         (fst (Database.add_contact db a_x b_x "b" "FL" 0))
         a_x b_x "b" "AL" 0).

Definition legacy_db_b : Legacy.database :=
  Legacy.add_contact legacy_db (Some a_x) b_x "b" "FL".

(** The same outside world once the interpreter has collected the
    database connections left open. *)
Definition env_collected : Handler.env :=
  {| Handler.uuid4 := nonce; Handler.now := 0;
     Handler.read := fun _ => Some ""%string; Handler.collected := true |}.

(** Connection 1 negotiates and asks for a challenge; its next line is
    the response, which registers it as client 1. *)
Definition async_before : list AsyncServer.action :=
  [ AsyncServer.Accept 1;
    AsyncServer.Line 1 (line "VER 1 MSNP8") env0;
    AsyncServer.Line 1 (line "USR 3 I a@x") env0 ].



(** MD5(MD5(p) + N), the response of [a@x] to the challenge [N]. *)
Definition response_a : string := "9e59a5a6ae5b11d1e7990c154ce1d5e0".

(** The threaded server: client 1 connects on socket 11 and asks for a
    challenge; its next bytes are the response. *)
Definition legacy_before : list Legacy.action :=
  [ Legacy.Accept 11; Legacy.Receive 1 (line "USR 3 MD5 a@x") nonce ].

Definition legacy_login : string :=
  line ("USR 4 MD5 a@x " +:+ response_a).







End Scenario.

(* ================================================================== *)
(** * [config/server_config.py]: class [ServerConfig]                  *)
(* ================================================================== *)

Module Config.

(** The values of the configuration: strings, integers, booleans, lists
    of strings, [None], and nested dictionaries.  A dictionary is given
    by its content: the model is one of configurations in which no
    dictionary is reached by two paths, as [__init__] builds them and as
    [set] keeps them when the values stored are not dictionaries
    ([plain]). *)
#[warnings="-register-all"] Inductive value : Type :=
| VNone
| VStr (s : string)
| VInt (n : Z)
| VBool (b : bool)
| VList (l : list string)
| VDict (d : list (string * value)).

(** [key.split('.')]: split on every dot, keeping empty fields. *)
Fixpoint split_dot (s : string) : list string :=
  match s with
  | EmptyString => [EmptyString]
  | String c rest =>
      if Ascii.eqb c "." then EmptyString :: split_dot rest
      else match split_dot rest with
           | [] => [String c EmptyString]
           | w :: ws => String c w :: ws
           end
  end.

(** The loop of [get]: descend while the value is a dictionary that has
    the key, return the default otherwise. *)
Fixpoint get_path (v : value) (keys : list string) (default : value) : value :=
  match keys with
  | [] => v
  | k :: rest =>
      match v with
      | VDict d =>
          match Py.get k d with
          | Some child => get_path child rest default
          | None => default
          end
      | _ => default
      end
  end.

(** [get(key, default)]. *)
Definition get (config : value) (key : string) (default : value) : value :=
  get_path config (split_dot key) default.

(** The loop and the last assignment of [set]: a missing key on the way
    gets an empty dictionary; [None] stands for the [TypeError] that a
    value which is not a dictionary raises when it is tested for the key
    or indexed. *)
Fixpoint set_path (v : value) (keys : list string) (new : value)
  : option value :=
  match keys with
  | [] => None
  | k :: rest =>
      match v with
      | VDict d =>
          match rest with
          | [] => Some (VDict (Py.set k new d))
          | _ :: _ =>
              let child := match Py.get k d with
                           | Some c => c
                           | None => VDict []
                           end in
              match set_path child rest new with
              | Some child' => Some (VDict (Py.set k child' d))
              | None => None
              end
          end
      | _ => None
      end
  end.

(** [set(key, value)]. *)
Definition set (config : value) (key : string) (new : value) : option value :=
  set_path config (split_dot key) new.

(** The value is not a dictionary. *)
Definition plain (v : value) : bool :=
  match v with
  | VDict _ => false
  | _ => true
  end.

(** A sequence of [set] calls, each with its key and value; [None] when
    one of them raises. *)
Fixpoint run (config : value) (calls : list (string * value)) : option value :=
  match calls with
  | [] => Some config
  | (key, new) :: rest =>
      match set config key new with
      | Some config' => run config' rest
      | None => None
      end
  end.

(** Two paths part at some key: neither is a prefix of the other. *)
Fixpoint diverge (p q : list string) : Prop :=
  match p, q with
  | a :: p', b :: q' => a <> b \/ (a = b /\ diverge p' q')
  | _, _ => False
  end.

(** [self.config] as [__init__] builds it, given what [os.getenv] reads
    for the six settings that come from the environment. *)
Definition initial (host : string) (port max_connections : Z)
    (db_path log_level log_file : string) : value :=
  VDict
    [ ("server"%string,
       VDict [ ("host"%string, VStr host); ("port"%string, VInt port);
               ("max_connections"%string, VInt max_connections) ]);
      ("database"%string, VDict [ ("path"%string, VStr db_path) ]);
      ("logging"%string,
       VDict [ ("level"%string, VStr log_level);
               ("file"%string, VStr log_file) ]);
      ("protocol"%string,
       VDict [ ("supported_versions"%string,
                VList Handler.supported_versions);
               ("default_version"%string, VStr "MSNP8");
               ("ping_interval"%string, VInt 60);
               ("session_timeout"%string, VInt 3600) ]);
      ("features"%string,
       VDict [ ("enable_message_history"%string, VBool true);
               ("enable_file_transfer"%string, VBool false);
               ("enable_voice_chat"%string, VBool false);
               ("max_message_length"%string, VInt 1664) ]) ].

(** The configuration with the defaults of [os.getenv]. *)
Definition default_config : value :=
  initial "localhost" 1863 1000 "database/user_system.db" "INFO"
          "logs/msnp_server.log".

(** The default configuration after [set('server.port', 1864)]. *)
Definition port_1864 : value :=
  initial "localhost" 1864 1000 "database/user_system.db" "INFO"
          "logs/msnp_server.log".

(** The default configuration after [set('logging.level', 'DEBUG')],
    and after [set('server.port', 1864)] as well. *)
Definition debug_config : value :=
  initial "localhost" 1863 1000 "database/user_system.db" "DEBUG"
          "logs/msnp_server.log".

Definition debug_port_1864 : value :=
  initial "localhost" 1864 1000 "database/user_system.db" "DEBUG"
          "logs/msnp_server.log".

End Config.

(* ================================================================== *)
(** * [utils/database.py]: users, and the keys of the contact table    *)
(* ================================================================== *)

Module Store.

(** The rowid of a new row of [users]. *)
Definition next_user_id (rows : list Database.user) : Z :=
  1 + fold_right Z.max 0 (map Database.user_id rows).

(** [display_name or email]. *)
Definition display_or_email (display_name : option string) (email : string)
  : string :=
  match display_name with
  | Some name => if Py.truthy_str name then name else email
  | None => email
  end.

(** The [INSERT] of [create_user] once the write lock is free: the
    [IntegrityError] of [email TEXT NOT NULL UNIQUE] is caught and
    answered [False], with the connection left open. *)
Definition insert_user (db : Database.t) (email password : string)
    (display_name : option string) : Database.t * bool :=
  if existsb (fun u => String.eqb (Database.user_email u) email)
             (Database.users db)
  then (Database.refused db, false)
  else ({| Database.users := Database.users db ++
             [ {| Database.user_id := next_user_id (Database.users db);
                  Database.user_email := email;
                  Database.user_password := password;
                  Database.user_display_name :=
                    Some (display_or_email display_name email) |} ];
           Database.contacts := Database.contacts db;
           Database.locked := Database.locked db |}, true).

(** [create_user(email, password, display_name)]: [INSERT INTO users
    (email, password, display_name) VALUES (?, ?, ?)] with
    [display_name or email].  [None] stands for the [OperationalError]
    of a locked database, which the method does not catch. *)
Definition create_user (collected : bool) (db : Database.t)
    (email password : string) (display_name : option string)
  : option (Database.t * bool) :=
  match Database.available collected db with
  | Some free => Some (insert_user free email password display_name)
  | None => None
  end.

(** The columns of [UNIQUE(owner_email, contact_email, list_type)]. *)
Definition contact_key (c : Database.contact) : string * string * string :=
  (Database.owner_email c, Database.contact_email c, Database.list_type c).

(** The constraint holds: no two rows of [contacts] have the same key. *)
Definition unique_contacts (db : Database.t) : Prop :=
  NoDup (map contact_key (Database.contacts db)).

(** [email TEXT NOT NULL UNIQUE] holds for [users]. *)
Definition unique_users (db : Database.t) : Prop :=
  NoDup (map Database.user_email (Database.users db)).

(** What a session does to the contact table. *)
Inductive change : Type :=
| Add (owner peer nick lst : string) (now : Z)
| Remove (owner peer lst : string).

Definition apply (db : Database.t) (c : change) : Database.t :=
  match c with
  | Add owner peer nick lst now =>
      fst (Database.add_contact db owner peer nick lst now)
  | Remove owner peer lst => Database.remove_contact db owner peer lst
  end.

Definition run (db : Database.t) (cs : list change) : Database.t :=
  fold_left apply cs db.

(** The entry [get_user_contacts] builds for a contact added with
    [add_contact]. *)
Definition new_entry (peer nick lst : string) : Database.contact_entry :=
  {| Database.entry_email := peer; Database.entry_nickname := Some nick;
     Database.entry_list_type := lst |}.

End Store.

(* ================================================================== *)
(** * [server/client_manager.py]: the registry over time               *)
(* ================================================================== *)

Module Registry.

(** The calls that change a [ClientManager]. *)
Inductive call : Type :=
| AddClient (w : nat) (e : string) (now : Z)
| DisconnectClient (w : nat)
| UpdateClientStatus (cid : nat) (st : string) (now : Z).

Definition apply (m : ClientManager.t) (c : call) : ClientManager.t :=
  match c with
  | AddClient w e now => snd (ClientManager.add_client m w e now)
  | DisconnectClient w => ClientManager.disconnect_client m w
  | UpdateClientStatus cid st now =>
      ClientManager.update_client_status m cid st now
  end.

Definition run (m : ClientManager.t) (cs : list call) : ClientManager.t :=
  fold_left apply cs m.

(** [get_all_clients()]: a copy of the dictionary. *)
Definition get_all_clients (m : ClientManager.t)
  : list (nat * ClientManager.client_info) :=
  ClientManager.clients m.

(** The client ids of the registry are distinct, each client is stored
    under its own id, and every id is at least 1 and below the counter. *)
Definition ids_ok (m : ClientManager.t) : Prop :=
  NoDup (Py.keys (ClientManager.clients m))
  /\ forall c info, In (c, info) (ClientManager.clients m) ->
                    ClientManager.id info = c
                    /\ (1 <= c < ClientManager.next_client_id m)%nat.

(** The status of a client is replaced and its activity time set; the
    rest is kept. *)
Definition with_status (info : ClientManager.client_info) (st : string)
    (now : Z) : ClientManager.client_info :=
  {| ClientManager.id := ClientManager.id info;
     ClientManager.email := ClientManager.email info;
     ClientManager.writer := ClientManager.writer info;
     ClientManager.status := st;
     ClientManager.connected_at := ClientManager.connected_at info;
     ClientManager.last_activity := now |}.

(** Two sessions of the same email, on the connections 1 and 2. *)
Definition two_sessions : ClientManager.t :=
  run ClientManager.init [AddClient 1 "a@x" 0; AddClient 2 "a@x" 1].

End Registry.

(* ================================================================== *)
(** * What the sessions of the asyncio server keep                     *)
(* ================================================================== *)

Module Session.

(** The event is a write to connection [w]. *)
Definition writes_to (w : nat) (ev : event) : Prop :=
  exists text, ev = Send w text.

(** The line is a [CHG] command that [handle_chg] carries out: the
    handler is authenticated and the line has a status. *)
Definition changes_status (h : Handler.t) (data : string) : bool :=
  let parts := Py.split_space (Py.strip data) in
  String.eqb (nth 0 parts ""%string) "CHG"
  && Handler.authenticated h
  && (3 <=? List.length parts)%nat.

(** No two connections hold the same client id. *)
Definition distinct_holders (srv : AsyncServer.t) : Prop :=
  forall w1 w2 h1 h2 c,
    AsyncServer.handlers srv !! w1 = Some h1 ->
    AsyncServer.handlers srv !! w2 = Some h2 ->
    Handler.client_id h1 = Some c ->
    Handler.client_id h2 = Some c ->
    w1 = w2.

(** The string has whitespace only. *)
Fixpoint blank (s : string) : bool :=
  match s with
  | EmptyString => true
  | String c rest => Py.is_space c && blank rest
  end.

(** The keys of [command_handlers] in [process_command]. *)
Definition commands : list string :=
  ["VER"; "CVR"; "USR"; "SYN"; "CHG"; "MSG"; "ADD"; "REM"; "LST"; "CAL";
   "ANS"; "OUT"; "PNG"; "QNG"]%string.

End Session.

(* ================================================================== *)
(** * The user accounts of the threaded server                         *)
(* ================================================================== *)

Module Accounts.

(** The id [AUTOINCREMENT] draws for a new row of [users]: one more
    than the largest id the table ever had. *)
Definition next_user_id (db : Legacy.database) : Z :=
  Legacy.next_id (map Legacy.user_id (Legacy.users db)) (Legacy.users_seq db).

(** [INSERT INTO users (email, password, display_name) VALUES (?, ?, ?)]
    under [email TEXT UNIQUE NOT NULL]; the column [status] takes its
    default.  The answer is whether the row went in; a statement that
    is refused leaves nothing once its connection is closed. *)
Definition insert_user (db : Legacy.database) (email password : string)
    (display_name : option string) : Legacy.database * bool :=
  if existsb (fun u => String.eqb (Legacy.user_email u) email) (Legacy.users db)
  then (db, false)
  else ({| Legacy.users := Legacy.users db ++
             [ {| Legacy.user_id := next_user_id db;
                  Legacy.user_email := email;
                  Legacy.user_password := password;
                  Legacy.user_display_name := display_name;
                  Legacy.user_status := "NLN" |} ];
           Legacy.users_seq := next_user_id db;
           Legacy.contacts := Legacy.contacts db;
           Legacy.contacts_seq := Legacy.contacts_seq db;
           Legacy.messages := Legacy.messages db;
           Legacy.messages_seq := Legacy.messages_seq db |}, true).

(** [INSERT OR IGNORE INTO users (email, password, display_name) VALUES
    (?, ?, ?)], committed: when the email exists no row goes in, but the
    id drawn for it is used up, the counter keeps it. *)
Definition insert_or_ignore (db : Legacy.database) (email password : string)
    (display_name : option string) : Legacy.database :=
  if existsb (fun u => String.eqb (Legacy.user_email u) email) (Legacy.users db)
  then {| Legacy.users := Legacy.users db;
          Legacy.users_seq := next_user_id db;
          Legacy.contacts := Legacy.contacts db;
          Legacy.contacts_seq := Legacy.contacts_seq db;
          Legacy.messages := Legacy.messages db;
          Legacy.messages_seq := Legacy.messages_seq db |}
  else fst (insert_user db email password display_name).

(** [MSNPServer.init_database] in [msn_messenger_server.py], on the
    tables that exist: the two [INSERT OR IGNORE] of the default users. *)
Definition init_database (db : Legacy.database) : Legacy.database :=
  insert_or_ignore
    (insert_or_ignore db "aquaboxs34@hotmail.com" "password123"
                      (Some "AquaBoxs"%string))
    "testuser@hotmail.com" "test123" (Some "Test User"%string).

(** [add_user(email, password, display_name)] in [database_setup.py]: a
    display name that is missing or empty becomes the part of the email
    before the [@]; a duplicate email is reported and nothing is
    inserted. *)
Definition add_user (db : Legacy.database) (email password : string)
    (display_name : option string) : Legacy.database * bool :=
  let name :=
    match display_name with
    | Some n => if Py.truthy_str n then n else Py.before_at email
    | None => Py.before_at email
    end in
  insert_user db email password (Some name).

(** [MSNWebServer.authenticate_web_user(email, password)]: [SELECT * FROM
    users WHERE email = ? AND password = ?] has a row. *)
Definition authenticate_web_user (db : Legacy.database)
    (email password : string) : bool :=
  existsb (fun u => String.eqb (Legacy.user_email u) email
                    && String.eqb (Legacy.user_password u) password)
          (Legacy.users db).

(** [email TEXT UNIQUE NOT NULL] holds. *)
Definition unique_emails (db : Legacy.database) : Prop :=
  NoDup (map Legacy.user_email (Legacy.users db)).

(** The ids of the rows of [contacts] and [messages] are distinct and
    not above the counters of [AUTOINCREMENT]. *)
Definition rows_fresh (db : Legacy.database) : Prop :=
  NoDup (map Legacy.contact_id (Legacy.contacts db))
  /\ Forall (fun c => Legacy.contact_id c <= Legacy.contacts_seq db)
            (Legacy.contacts db)
  /\ NoDup (map Legacy.message_id (Legacy.messages db))
  /\ Forall (fun m => Legacy.message_id m <= Legacy.messages_seq db)
            (Legacy.messages db).

(** The event is a write to the socket, or its closing. *)
Definition on_socket (sock : nat) (ev : event) : Prop :=
  ev = Close sock \/ exists text, ev = Send sock text.

(** Every authenticated client has an email. *)
Definition logged_in_have_email (srv : Legacy.t) : Prop :=
  forall k ci, In (k, ci) (Legacy.clients srv) ->
               Legacy.authenticated ci = true -> is_Some (Legacy.email ci).

End Accounts.

(* ================================================================== *)
(** * [tests/test_client.py]: class [MSNPTestClient]                   *)
(* ================================================================== *)

Module TestClient.





(** [StreamReader.readline()] on the bytes received so far: the first
    line with its line feed and what follows it; [None] when no line
    feed has arrived. *)
Fixpoint readline (buffer : string) : option (string * string) :=
  match buffer with
  | EmptyString => None
  | String c rest =>
      if Ascii.eqb c Py.LF then Some (String c EmptyString, rest)
      else match readline rest with
           | Some (line, rest') => Some (String c line, rest')
           | None => None
           end
  end.

(** The client and the asyncio server at the other end of its
    connection: the bytes the server has written to the connection that
    the client has not read yet, whether the server has closed it, and
    the [transaction_id] of the client. *)
Record t : Type := {
  server : AsyncServer.t;
  unread : string;
  eof : bool;
  transaction_id : nat;
}.

Definition set_unread (c : t) (buffer : string) : t :=
  {| server := server c; unread := buffer; eof := eof c;
     transaction_id := transaction_id c |}.

Section WithRouter.
Variable broadcast_status_change :
  ClientManager.t -> option string -> string -> list event.


(** [send_command(command)]: the line goes to the server, which handles
    it; [e] is what the server reads from outside meanwhile. *)
Definition send_command (e : Handler.env) (w : nat) (c : t) (command : string)
  : t :=
  let '(srv, evs) :=
    AsyncServer.step broadcast_status_change (server c)
      (AsyncServer.Line w (command +:+ Py.CRLF) e) in
  {| server := srv;
     unread := unread c +:+ String.concat "" (sent_to w evs);
     eof := eof c || closed w evs;
     transaction_id := S (transaction_id c) |}.

(** [read_response()]: the next line, stripped; what is left of the
    stream at its end; [None] when the client waits for a line that
    does not come. *)
Definition read_response (c : t) : option (string * t) :=
  match readline (unread c) with
  | Some (data, rest) => Some (Py.strip data, set_unread c rest)
  | None =>
      if eof c then Some (Py.strip (unread c), set_unread c EmptyString)
      else None
  end.


(** [sync_contacts()]. *)
Definition sync_contacts (e : nat -> Handler.env) (w : nat) (c : t)
  : option (string * t) :=
  read_response
    (send_command (e (transaction_id c)) w c
       ("SYN " +:+ Py.str_of_nat (transaction_id c) +:+ " 0 0")).

(** [change_status(status)]. *)
Definition change_status (e : nat -> Handler.env) (w : nat) (c : t)
    (status : string) : option (string * t) :=
  read_response
    (send_command (e (transaction_id c)) w c
       ("CHG " +:+ Py.str_of_nat (transaction_id c) +:+ " " +:+ status
        +:+ " 0")).

End WithRouter.

End TestClient.

(* ================================================================== *)
(** * Properties                                                       *)
(* ================================================================== *)

(** ** Test vectors of the digest (RFC 1321) *)

Example md5_empty : MD5.hexdigest "" = "d41d8cd98f00b204e9800998ecf8427e"%string.
Proof. vm_compute. reflexivity. Qed.

Example md5_a : MD5.hexdigest "a" = "0cc175b9c0f1b6a831c399e269772661"%string.
Proof. vm_compute. reflexivity. Qed.

Example md5_abc : MD5.hexdigest "abc" = "900150983cd24fb0d6963f7d28e17f72"%string.
Proof. vm_compute. reflexivity. Qed.

Example md5_long :
  MD5.hexdigest "12345678901234567890123456789012345678901234567890123456789012345678901234567890"
  = "57edf4a22be3c955ac49da2e2107b67a"%string.
Proof. vm_compute. reflexivity. Qed.

(* ------------------------------------------------------------------ *)
(** ** Version negotiation ([VER])                                     *)
(* ------------------------------------------------------------------ *)

Section FirstMatch.
Variable rank : string -> nat.


End FirstMatch.






(* ------------------------------------------------------------------ *)
(** ** Authentication ([USR])                                          *)
(* ------------------------------------------------------------------ *)

(** The threaded server verifies the response: [authenticate_user]
    succeeds exactly when the user exists and the hash is
    MD5(MD5(password) + challenge), whatever the case of its letters. *)
Lemma authenticate_user_iff (db : Legacy.database)
    (username client_hash challenge : string) :
  Legacy.authenticate_user db username client_hash challenge = true <->
  exists u, Legacy.find_user db username = Some u /\
            Py.lower client_hash
            = Py.lower (MD5.hexdigest
                          (MD5.hexdigest (Legacy.user_password u) +:+ challenge)).
Proof.
  unfold Legacy.authenticate_user.
  destruct (Legacy.find_user db username) as [u|].
  - rewrite String.eqb_eq. split.
    + intros H. exists u. auto.
    + intros (u' & Hu & H). injection Hu as ->. assumption.
  - split; [discriminate|]. intros (u & Hu & _). discriminate.
Qed.

(** On a wrong hash the threaded server answers [USR t 911 0] and leaves
    the client as it was. *)
Lemma legacy_usr_mismatch (ch : string) (srv : Legacy.t) (ci : Legacy.client_info)
    (cmd tid name client_hash : string) :
  Legacy.authenticate_user (Legacy.db srv) name client_hash
    (default ""%string (Legacy.challenge ci)) = false ->
  Legacy.handle_usr_command ch srv ci [cmd; tid; "MD5"%string; name; client_hash]
  = Legacy.Step srv ci
      [Send (Legacy.socket ci) ("USR " +:+ tid +:+ " 911 0" +:+ Py.CRLF)] false.
Proof.
  intros H. unfold Legacy.handle_usr_command.
  change (List.length [cmd; tid; "MD5"%string; name; client_hash] <? 4)%nat
    with false.
  cbn [nth]. cbv iota.
  change (String.eqb "MD5" "MD5") with true.
  change (List.length [cmd; tid; "MD5"%string; name; client_hash] =? 4)%nat
    with false.
  change (List.length [cmd; tid; "MD5"%string; name; client_hash] =? 5)%nat
    with true.
  cbn [andb]. rewrite H. reflexivity.
Qed.

(** The asyncio server does not look at the hash: phase 2 of [USR] gives
    the same result for any two hashes. *)
Lemma handler_usr_ignores_hash (e : Handler.env) (w : nat) (h : Handler.t)
    (s : Handler.shared) (cmd tid hash1 hash2 : string) :
  Handler.handle_usr e w h s [cmd; tid; "S"%string; hash1] tid
  = Handler.handle_usr e w h s [cmd; tid; "S"%string; hash2] tid.
Proof. reflexivity. Qed.

(** C1 at the failing input: user [a@x] has credential [p] and the nonce
    is [N]; after [USR 3 I a@x] the asyncio server answers the response
    [USR 4 S dummy_hash] with [USR 4 OK] and marks the session
    authenticated, although the hash is not MD5(MD5(p) + N). *)
Theorem handler_authenticates_wrong_hash :
  let run := AsyncServer.run Scenario.router (AsyncServer.init Scenario.db)
               [ AsyncServer.Accept 1;
                 AsyncServer.Line 1 (Scenario.line "USR 3 I a@x") Scenario.env0;
                 AsyncServer.Line 1 (Scenario.line "USR 4 S dummy_hash")
                                  Scenario.env0 ] in
  snd run = [ Send 1 (Scenario.line "USR 3 S N");
              Send 1 (Scenario.line "USR 4 OK a@x a@x 1 0") ]
  /\ Handler.authenticated <$> (AsyncServer.handlers (fst run) !! 1%nat)
     = Some true
  /\ Py.lower "dummy_hash"
     <> Py.lower (MD5.hexdigest (MD5.hexdigest "p" +:+ Scenario.nonce))
  /\ Legacy.authenticate_user Scenario.legacy_db "a@x" "dummy_hash"
       Scenario.nonce = false.
Proof. vm_compute. repeat split; discriminate. Qed.

(* ------------------------------------------------------------------ *)
(** ** Error lines                                                     *)
(* ------------------------------------------------------------------ *)

(** The error line of the asyncio server is the code, the transaction
    id, and nothing else. *)
Lemma handler_send_error_line (w : nat) (tid : string) :
  Handler.send_error w tid 911 = [Send w ("911 " +:+ tid +:+ Py.CRLF)].
Proof. reflexivity. Qed.

(** A command the asyncio server refuses for want of authentication is
    answered by that one line, and changes nothing. *)
Lemma handler_unauthenticated_refused (router : ClientManager.t -> option string -> string -> list event)
    (e : Handler.env) (w : nat) (h : Handler.t) (s : Handler.shared)
    (parts : list string) (tid : string) :
  Handler.authenticated h = false ->
  Handler.handle_syn w h s parts tid
    = Handler.Step h s [Send w ("911 " +:+ tid +:+ Py.CRLF)] false
  /\ Handler.handle_chg router e w h s parts tid
    = Handler.Step h s [Send w ("911 " +:+ tid +:+ Py.CRLF)] false
  /\ Handler.handle_msg e w h s parts tid
    = Handler.Step h s [Send w ("911 " +:+ tid +:+ Py.CRLF)] false.
Proof.
  intros H. unfold Handler.handle_syn, Handler.handle_chg, Handler.handle_msg.
  rewrite H. auto.
Qed.

(** C6 at the failing input: the threaded server answers [SYN 5 0 0] on
    a connection that is not authenticated with the line [911] alone; the
    transaction id 5 is not on it. *)
Theorem legacy_error_line_has_no_transaction_id
    (ch : string) (srv : Legacy.t) (sock client_id : nat) :
  snd (Legacy.process_msnp_command ch srv (Legacy.new_client sock client_id)
         "SYN 5 0 0")
  = [Send sock ("911" +:+ Py.CRLF)].
Proof. reflexivity. Qed.

(* ------------------------------------------------------------------ *)
(** ** Logout ([OUT])                                                  *)
(* ------------------------------------------------------------------ *)

(** C7 at the failing input: the asyncio server drops the line [OUT]
    without a transaction id; nothing is written, nothing is closed and
    the handler and the registry stay as they are. *)
Theorem handler_bare_out_is_dropped
    (router : ClientManager.t -> option string -> string -> list event)
    (e : Handler.env) (w : nat) (h : Handler.t) (s : Handler.shared) :
  Handler.handle_line router e w h s ("OUT" +:+ Py.CRLF)
  = Handler.Step h s [] false.
Proof. reflexivity. Qed.

(** With a transaction id the asyncio server leaves the registry and
    echoes [OUT]; it does not close the connection. *)
Lemma handler_out_with_id
    (router : ClientManager.t -> option string -> string -> list event)
    (e : Handler.env) (w : nat) (h : Handler.t) (s : Handler.shared) :
  Handler.handle_line router e w h s ("OUT 5" +:+ Py.CRLF)
  = Handler.Step h
      (Handler.set_manager s
         (ClientManager.disconnect_client (Handler.client_manager s) w))
      [Send w ("OUT" +:+ Py.CRLF)] false.
Proof. reflexivity. Qed.

(** The threaded server honours the bare [OUT]: echo, then close. *)
Lemma legacy_bare_out_honoured (ch : string) (srv : Legacy.t)
    (ci : Legacy.client_info) :
  snd (Legacy.process_msnp_command ch srv ci "OUT")
  = [Send (Legacy.socket ci) ("OUT" +:+ Py.CRLF); Close (Legacy.socket ci)].
Proof. reflexivity. Qed.

(* ------------------------------------------------------------------ *)
(** ** The registry: online contacts                                   *)
(* ------------------------------------------------------------------ *)

Lemma online_loop (e : string) (l : list ClientManager.client_info)
    (acc : list (string * string)) :
  fold_left (ClientManager.online_step e) l acc
  = acc ++ map Spec.entry_of (List.filter (Spec.visible_to e) l).
Proof.
  revert acc. induction l as [|info l IH]; intros acc; simpl.
  - by rewrite app_nil_r.
  - rewrite IH. unfold ClientManager.online_step, Spec.visible_to at 2.
    destruct (negb _ && negb _); simpl; [|reflexivity].
    by rewrite <- app_assoc.
Qed.

Lemma get_online_contacts_eq (m : ClientManager.t) (e : string) :
  ClientManager.get_online_contacts m e
  = map Spec.entry_of (List.filter (Spec.visible_to e)
                              (Py.values (ClientManager.clients m))).
Proof. unfold ClientManager.get_online_contacts. by rewrite online_loop. Qed.

Lemma visible_to_spec (e : string) (info : ClientManager.client_info) :
  Spec.visible_to e info = true <->
  ClientManager.email info <> e /\ ClientManager.status info <> "HDN"%string.
Proof.
  unfold Spec.visible_to. rewrite andb_true_iff, !negb_true_iff, !String.eqb_neq.
  tauto.
Qed.

Lemma in_online_contacts (m : ClientManager.t) (e em st : string) :
  In (em, st) (ClientManager.get_online_contacts m e) <->
  exists cid info,
    In (cid, info) (ClientManager.clients m)
    /\ ClientManager.email info = em /\ ClientManager.status info = st
    /\ em <> e /\ st <> "HDN"%string.
Proof.
  rewrite get_online_contacts_eq, in_map_iff. split.
  - intros (info & Hentry & Hin). apply filter_In in Hin as [Hin Hvis].
    apply visible_to_spec in Hvis as [Hne Hst].
    unfold Py.values in Hin. apply in_map_iff in Hin as ([cid info'] & Heq & Hin).
    simpl in Heq. subst info'. injection Hentry as <- <-.
    exists cid, info. auto.
  - intros (cid & info & Hin & <- & <- & Hne & Hst).
    exists info. split; [reflexivity|].
    apply filter_In. split.
    + unfold Py.values. apply in_map_iff. by exists (cid, info).
    + by apply visible_to_spec.
Qed.

(** C10: the entries [get_online_contacts(email)] returns are those of
    the registered clients whose email is not the queried one and whose
    status is not [HDN]; a hidden client contributes no entry. *)
Theorem get_online_contacts_hides_self_and_hidden
    (m : ClientManager.t) (e : string) :
  Forall (fun entry : string * string =>
            fst entry <> e /\ snd entry <> "HDN"%string
            /\ exists cid info,
                 In (cid, info) (ClientManager.clients m)
                 /\ ClientManager.email info = fst entry
                 /\ ClientManager.status info = snd entry)
         (ClientManager.get_online_contacts m e)
  /\ (forall cid info,
        In (cid, info) (ClientManager.clients m) ->
        ClientManager.status info = "HDN"%string ->
        ~ In info (List.filter (Spec.visible_to e)
                               (Py.values (ClientManager.clients m))))
  /\ ClientManager.get_online_contacts m e
     = map Spec.entry_of (List.filter (Spec.visible_to e)
                                 (Py.values (ClientManager.clients m))).
Proof.
  split; [|split].
  - apply List.Forall_forall. intros [em st] Hin.
    apply in_online_contacts in Hin
      as (cid & info & Hin & Hem & Hst & Hne & Hhdn).
    simpl. split; [assumption|split; [assumption|]]. by exists cid, info.
  - intros cid info _ Hst Hin. apply filter_In in Hin as [_ Hvis].
    apply visible_to_spec in Hvis as [_ Hne]. contradiction.
  - apply get_online_contacts_eq.
Qed.

(* ------------------------------------------------------------------ *)
(** ** The contact store ([ADD], [REM])                                *)
(* ------------------------------------------------------------------ *)

Lemma filter_fresh_row {A : Type} (key : A -> bool) (l : list A) (row : A) :
  existsb key l = false -> key row = true ->
  filter (fun c => key c = false) (l ++ [row]) = l.
Proof.
  intros Hl Hrow. induction l as [|a l IH]; simpl in *.
  - rewrite filter_cons_False; [reflexivity|]. by rewrite Hrow.
  - apply orb_false_iff in Hl as [Ha Hl].
    rewrite filter_cons_True by assumption. by rewrite IH.
Qed.

Lemma same_key_refl (owner peer lst nick : string) (i now : Z) :
  Database.same_key owner peer lst
    {| Database.contact_id := i; Database.owner_email := owner;
       Database.contact_email := peer; Database.nickname := Some nick;
       Database.list_type := lst; Database.added_at := now |} = true.
Proof. unfold Database.same_key. simpl. by rewrite !String.eqb_refl. Qed.

Lemma legacy_add_then_remove (db : Legacy.database) (user peer name lst : string)
    (u : Legacy.user) :
  Legacy.find_user db user = Some u ->
  existsb (fun c => bool_decide (Legacy.contact_user_id c = Legacy.user_id u
                                 /\ Legacy.contact_email c = peer
                                 /\ Legacy.list_type c = lst))
          (Legacy.contacts db) = false ->
  Legacy.contacts
    (Legacy.remove_contact (Legacy.add_contact db (Some user) peer name lst)
                           (Some user) peer lst)
  = Legacy.contacts db.
Proof.
  intros Hu Hfresh. unfold Legacy.add_contact, Legacy.remove_contact.
  cbn. rewrite Hu. cbn. unfold Legacy.find_user in *. cbn. rewrite Hu. cbn.
  generalize (Legacy.next_id (map Legacy.contact_id (Legacy.contacts db))
                             (Legacy.contacts_seq db)).
  intros i. induction (Legacy.contacts db) as [|a l IH]; simpl in *.
  - rewrite filter_cons_False; [reflexivity|]. simpl. tauto.
  - apply orb_false_iff in Hfresh as [Ha Hl].
    apply bool_decide_eq_false in Ha.
    rewrite filter_cons_True by assumption. by rewrite IH.
Qed.

Lemma add_then_remove_store (db : Database.t)
    (owner peer nick lst : string) (now : Z) :
  existsb (Database.same_key owner peer lst) (Database.contacts db) = false ->
  Database.remove_contact
    (fst (Database.add_contact db owner peer nick lst now)) owner peer lst
  = db.
Proof.
  intros Hfresh. unfold Database.add_contact. rewrite Hfresh.
  unfold Database.remove_contact. simpl.
  rewrite (filter_fresh_row (Database.same_key owner peer lst))
    by (assumption || apply same_key_refl).
  by destruct db.
Qed.

(** C8, as the code has it: when the owner has no row for (peer, list),
    [ADD] and then [REM] of that pair leave the contact table as it was.
    In the asyncio server, on a database that no refused insert has left
    locked, both commands are answered and the store is the one before
    the [ADD]; in the threaded server the rows and the users are the
    ones before the [ADD], and the counter of [AUTOINCREMENT] has moved
    on by the id that was used. *)
Theorem add_then_remove_restores_store :
  (forall (e1 e2 : Handler.env) (w : nat) (h : Handler.t) (s : Handler.shared)
          (owner tid1 tid2 lst peer nick : string),
      Handler.email h = Some owner ->
      Database.locked (Handler.db_manager s) = false ->
      existsb (Database.same_key owner peer lst)
              (Database.contacts (Handler.db_manager s)) = false ->
      let r1 := Handler.handle_add e1 w h s
                  ["ADD"%string; tid1; lst; peer; nick] tid1 in
      let r2 := Handler.handle_rem e2 w (Handler.handler r1) (Handler.world r1)
                  ["REM"%string; tid2; lst; peer] tid2 in
      Handler.raised r1 = false
      /\ Handler.out r1
         = [Send w ("ADD " +:+ tid1 +:+ " " +:+ lst +:+ " " +:+ peer +:+ " "
                    +:+ nick +:+ Py.CRLF)]
      /\ Handler.raised r2 = false
      /\ Handler.out r2
         = [Send w ("REM " +:+ tid2 +:+ " " +:+ lst +:+ " " +:+ peer
                    +:+ Py.CRLF)]
      /\ Handler.world r2 = s)
  /\
  (forall (srv : Legacy.t) (ci : Legacy.client_info) (u : Legacy.user)
          (owner tid1 tid2 lst peer name : string),
      Legacy.authenticated ci = true ->
      Legacy.email ci = Some owner ->
      Legacy.find_user (Legacy.db srv) owner = Some u ->
      existsb (fun c => bool_decide (Legacy.contact_user_id c = Legacy.user_id u
                                     /\ Legacy.contact_email c = peer
                                     /\ Legacy.list_type c = lst))
              (Legacy.contacts (Legacy.db srv)) = false ->
      let r1 := Legacy.handle_add_command srv ci
                  ["ADD"%string; tid1; lst; peer; name] in
      let r2 := Legacy.handle_rem_command (Legacy.server r1) (Legacy.client r1)
                  ["REM"%string; tid2; lst; peer] in
      let db2 := Legacy.db (Legacy.server r2) in
      Legacy.contacts db2 = Legacy.contacts (Legacy.db srv)
      /\ Legacy.users db2 = Legacy.users (Legacy.db srv)
      /\ Legacy.messages db2 = Legacy.messages (Legacy.db srv)
      /\ Legacy.contacts_seq db2
         = Legacy.next_id (map Legacy.contact_id
                               (Legacy.contacts (Legacy.db srv)))
                          (Legacy.contacts_seq (Legacy.db srv))).
Proof.
  split.
  - intros e1 e2 w h s owner tid1 tid2 lst peer nick Hh Hfree Hfresh.
    destruct s as [m [users rows lock]]. cbn in Hfree, Hfresh. subst lock.
    unfold Handler.handle_add, Handler.handle_rem, Database.available.
    cbn. rewrite Hh. unfold Database.add_contact. cbn. rewrite Hfresh. cbn.
    repeat split. unfold Handler.set_db, Database.remove_contact. cbn.
    rewrite (filter_fresh_row (Database.same_key owner peer lst))
      by (assumption || apply same_key_refl).
    reflexivity.
  - intros srv ci u owner tid1 tid2 lst peer name Hauth Hmail Hu Hfresh.
    unfold Legacy.handle_add_command, Legacy.handle_rem_command.
    rewrite Hauth. cbn. rewrite Hauth. cbn. rewrite Hmail.
    split; [by apply (legacy_add_then_remove _ _ _ _ _ u)|].
    unfold Legacy.add_contact, Legacy.remove_contact. cbn. rewrite Hu. cbn.
    unfold Legacy.find_user in *. cbn. rewrite Hu. cbn. auto.
Qed.

Lemma add_then_remove_restores_store_witness :
  (Handler.email Scenario.handler_a = Some "a@x"%string
   /\ Database.locked (Handler.db_manager Scenario.shared0) = false
   /\ existsb (Database.same_key "a@x" "b@x" "FL")
              (Database.contacts (Handler.db_manager Scenario.shared0)) = false
   /\ let r1 := Handler.handle_add Scenario.env0 1 Scenario.handler_a
                  Scenario.shared0 ["ADD"; "8"; "FL"; "b@x"; "b"]%string "8" in
      let r2 := Handler.handle_rem Scenario.env0 1 (Handler.handler r1)
                  (Handler.world r1) ["REM"; "9"; "FL"; "b@x"]%string "9" in
      Handler.out r1 = [Send 1 (Scenario.line "ADD 8 FL b@x b")]
      /\ Handler.out r2 = [Send 1 (Scenario.line "REM 9 FL b@x")]
      /\ Handler.world r2 = Scenario.shared0)
  /\
  (Legacy.find_user (Legacy.db Scenario.legacy_two) "a@x"
   = hd_error (Legacy.users Scenario.legacy_db)
   /\ let r1 := Legacy.handle_add_command Scenario.legacy_two
                  (Scenario.logged_in 11 1 "a@x")
                  ["ADD"; "8"; "FL"; "b@x"; "b"]%string in
      let r2 := Legacy.handle_rem_command (Legacy.server r1) (Legacy.client r1)
                  ["REM"; "9"; "FL"; "b@x"]%string in
      Legacy.contacts (Legacy.db (Legacy.server r2)) = []
      /\ Legacy.contacts_seq (Legacy.db (Legacy.server r2)) = 1).
Proof.
  destruct add_then_remove_restores_store as [Hasync Hlegacy].
  split.
  - split; [reflexivity|]. split; [reflexivity|]. split; [reflexivity|].
    destruct (Hasync Scenario.env0 Scenario.env0 1%nat Scenario.handler_a
                Scenario.shared0 "a@x" "8" "9" "FL" "b@x" "b"
                eq_refl eq_refl eq_refl)%string
      as (_ & Hout1 & _ & Hout2 & Hworld).
    split; [exact Hout1|]. split; [exact Hout2|exact Hworld].
  - split; [reflexivity|].
    destruct (Hlegacy Scenario.legacy_two (Scenario.logged_in 11 1 "a@x")
                {| Legacy.user_id := 1; Legacy.user_email := "a@x";
                   Legacy.user_password := "p";
                   Legacy.user_display_name := Some "a@x"%string;
                   Legacy.user_status := "NLN" |}
                "a@x" "8" "9" "FL" "b@x" "b"
                eq_refl eq_refl eq_refl eq_refl)%string
      as (Hrows & _ & _ & Hseq).
    split; [exact Hrows|exact Hseq].
Defined.

(** C8 as stated fails when the owner already has the row.  In the
    threaded server [a@x] has [b@x] on the forward list; [ADD] inserts a
    second row and [REM] deletes both: the table is empty, not as
    before.  In the asyncio server the [ADD] is refused and leaves the
    database locked; the [REM] then raises and ends the connection with
    the row still there, or, once the interpreter has collected the
    connection of the [ADD], deletes the row that was there before. *)
Lemma add_then_remove_deletes_existing_row :
  (let srv := Legacy.set_db Scenario.legacy_two Scenario.legacy_db_b in
   let r1 := Legacy.handle_add_command srv (Scenario.logged_in 11 1 "a@x")
               ["ADD"; "8"; "FL"; "b@x"; "b"]%string in
   let r2 := Legacy.handle_rem_command (Legacy.server r1) (Legacy.client r1)
               ["REM"; "9"; "FL"; "b@x"]%string in
   List.length (Legacy.contacts (Legacy.db srv)) = 1%nat
   /\ List.length (Legacy.contacts (Legacy.db (Legacy.server r1))) = 2%nat
   /\ Legacy.out r1 = [Send 11 (Scenario.line "ADD 8 FL b@x b")]
   /\ Legacy.out r2 = [Send 11 (Scenario.line "REM 9 FL b@x")]
   /\ Legacy.contacts (Legacy.db (Legacy.server r2)) = []
   /\ Legacy.contacts (Legacy.db (Legacy.server r2))
      <> Legacy.contacts (Legacy.db srv))
  /\
  (let s := Handler.set_db Scenario.shared0 Scenario.db_with_b in
   let r1 := Handler.handle_add Scenario.env0 1 Scenario.handler_a s
               ["ADD"; "8"; "FL"; "b@x"; "b"]%string "8" in
   let rem e := Handler.handle_rem e 1 (Handler.handler r1) (Handler.world r1)
                  ["REM"; "9"; "FL"; "b@x"]%string "9" in
   List.length (Database.contacts (Handler.db_manager s)) = 1%nat
   /\ Handler.out r1 = [Send 1 (Scenario.line "ADD 8 FL b@x b")]
   /\ Database.contacts (Handler.db_manager (Handler.world r1))
      = Database.contacts (Handler.db_manager s)
   /\ Database.locked (Handler.db_manager (Handler.world r1)) = true
   /\ Handler.raised (rem Scenario.env0) = true
   /\ Handler.out (rem Scenario.env0) = []
   /\ Handler.world (rem Scenario.env0) = Handler.world r1
   /\ Handler.raised (rem Scenario.env_collected) = false
   /\ Handler.out (rem Scenario.env_collected)
      = [Send 1 (Scenario.line "REM 9 FL b@x")]
   /\ Database.contacts
        (Handler.db_manager (Handler.world (rem Scenario.env_collected))) = []).
Proof. vm_compute. repeat split; discriminate. Qed.

(* ------------------------------------------------------------------ *)
(** ** Contact synchronisation ([SYN])                                 *)
(* ------------------------------------------------------------------ *)

Lemma flat_map_single {A B : Type} (f : A -> B) (l : list A) :
  flat_map (fun a => [f a]) l = map f l.
Proof. induction l as [|a l IH]; simpl; [reflexivity|by rewrite IH]. Qed.

Lemma index_leb_total (a b : Database.contact) :
  Database.index_leb a b = false -> Database.index_leb b a = true.
Proof.
  unfold Database.index_leb. rewrite (String.eqb_sym (Database.contact_email b)).
  destruct (String.eqb _ _); intros H.
  - destruct (String.leb_total (Database.list_type a) (Database.list_type b));
      congruence.
  - destruct (String.leb_total (Database.contact_email a)
                               (Database.contact_email b)); congruence.
Qed.

Lemma index_insert_perm (c : Database.contact) (l : list Database.contact) :
  Database.index_insert c l ≡ₚ c :: l.
Proof.
  induction l as [|d l IH]; simpl; [reflexivity|].
  destruct (Database.index_leb d c); [|reflexivity].
  rewrite IH. apply Permutation_swap.
Qed.

Lemma index_insert_sorted (c : Database.contact) (l : list Database.contact) :
  Sorted (fun a b => Database.index_leb a b = true) l ->
  Sorted (fun a b => Database.index_leb a b = true) (Database.index_insert c l).
Proof.
  induction l as [|d l IH]; intros Hs; simpl.
  - repeat constructor.
  - apply Sorted_inv in Hs as [Hs Hd].
    destruct (Database.index_leb d c) eqn:Hdc.
    + constructor; [by apply IH|].
      destruct l as [|d' l]; simpl.
      * by constructor.
      * destruct (Database.index_leb d' c); constructor; [|assumption].
        by apply HdRel_inv in Hd.
    + constructor; [by constructor|]. constructor. by apply index_leb_total.
Qed.

Lemma index_fold (rows acc : list Database.contact) :
  Sorted (fun a b => Database.index_leb a b = true) acc ->
  let r := fold_left (fun sorted c => Database.index_insert c sorted) rows acc in
  Sorted (fun a b => Database.index_leb a b = true) r /\ r ≡ₚ acc ++ rows.
Proof.
  revert acc. induction rows as [|c rows IH]; intros acc Hacc; simpl.
  - split; [assumption|]. by rewrite app_nil_r.
  - destruct (IH (Database.index_insert c acc)
                (index_insert_sorted c acc Hacc)) as [Hs Hp].
    split; [assumption|]. rewrite Hp, index_insert_perm. simpl.
    apply Permutation_middle.
Qed.

(** The rows in index order are the rows, sorted. *)
Lemma index_order_spec (rows : list Database.contact) :
  Sorted (fun a b => Database.index_leb a b = true) (Database.index_order rows)
  /\ Database.index_order rows ≡ₚ rows.
Proof. apply (index_fold rows []). constructor. Qed.

Lemma index_order_app (rows : list Database.contact) (c : Database.contact) :
  Database.index_order (rows ++ [c])
  = Database.index_insert c (Database.index_order rows).
Proof. unfold Database.index_order. by rewrite fold_left_app. Qed.

Lemma sorted_entries (l : list Database.contact) :
  Sorted (fun a b => Database.index_leb a b = true) l ->
  Sorted (fun a b => Database.entry_leb a b = true) (map Database.entry_of l).
Proof.
  induction 1 as [|c l Hs IH Hd]; simpl; constructor; [assumption|].
  destruct Hd; simpl; constructor. assumption.
Qed.

(** What [get_user_contacts] answers: the entries of the rows of the
    owner, each once, in ascending order of the peer and then of the
    list. *)
Lemma get_user_contacts_spec (db : Database.t) (owner : string) :
  let rows := Database.get_user_contacts db owner in
  Sorted (fun a b => Database.entry_leb a b = true) rows
  /\ rows ≡ₚ map Database.entry_of
               (filter (fun c => Database.owner_email c = owner)
                       (Database.contacts db)).
Proof.
  unfold Database.get_user_contacts.
  destruct (index_order_spec
              (filter (fun c => Database.owner_email c = owner)
                      (Database.contacts db))) as [Hs Hp].
  split; [by apply sorted_entries|]. by rewrite Hp.
Qed.

(** C5, as the code has it: an authenticated session that sends [SYN]
    gets one line [SYN t N 0], where [N] is the number of contact rows
    of the user, and exactly one [LST] line for each of these rows.  The
    threaded server sends the [SYN] line first and the [LST] lines in
    the order of the rows in the table, which is the order in which
    they were added.  The asyncio server sends the [LST] lines first, in
    ascending order of the peer and then of the name of the list as
    text, and the [SYN] line last. *)
Theorem syn_sends_count_and_one_line_per_row :
  (forall (srv : Legacy.t) (ci : Legacy.client_info) (parts : list string),
      Legacy.authenticated ci = true ->
      let rows := Legacy.get_user_contacts (Legacy.db srv) (Legacy.email ci) in
      let lines := map (fun c => Send (Legacy.socket ci) (Legacy.lst_line c))
                       rows in
      Legacy.out (Legacy.handle_syn_command srv ci parts)
      = Send (Legacy.socket ci)
             ("SYN " +:+ nth 1 parts "0"%string +:+ " "
              +:+ Py.str_of_nat (List.length rows) +:+ " 0" +:+ Py.CRLF)
          :: lines
      /\ List.length lines = List.length rows
      /\ forall owner, Legacy.email ci = Some owner ->
           rows = map Legacy.entry_of
                      (Legacy.contacts_of (Legacy.db srv) owner))
  /\
  (forall (w : nat) (h : Handler.t) (s : Handler.shared) (parts : list string)
          (tid : string),
      Handler.authenticated h = true ->
      let rows := Handler.my_contacts h s in
      let lines := map (fun c => Send w (Handler.lst_line c)) rows in
      Handler.out (Handler.handle_syn w h s parts tid)
      = lines ++
        [Send w ("SYN " +:+ tid +:+ " " +:+ Py.str_of_nat (List.length rows)
                 +:+ " 0" +:+ Py.CRLF)]
      /\ List.length lines = List.length rows
      /\ Sorted (fun a b => Database.entry_leb a b = true) rows
      /\ forall owner, Handler.email h = Some owner ->
           rows ≡ₚ map Database.entry_of
                      (filter (fun c => Database.owner_email c = owner)
                              (Database.contacts (Handler.db_manager s)))).
Proof.
  split.
  - intros srv ci parts Hauth rows lines.
    unfold Legacy.handle_syn_command. rewrite Hauth. cbn.
    unfold Legacy.send_response. rewrite flat_map_single.
    split; [reflexivity|]. split; [subst lines; by rewrite length_map|].
    intros owner Hmail. subst rows. by rewrite Hmail.
  - intros w h s parts tid Hauth rows lines.
    unfold Handler.handle_syn. rewrite Hauth. cbn.
    unfold Handler.send_response. rewrite flat_map_single.
    split; [reflexivity|]. split; [subst lines; by rewrite length_map|].
    subst rows. unfold Handler.my_contacts.
    destruct (Handler.email h) as [mail|].
    + destruct (get_user_contacts_spec (Handler.db_manager s) mail)
        as [Hs Hp].
      split; [exact Hs|]. intros owner [= <-]. exact Hp.
    + split; [constructor|]. intros owner [=].
Qed.

Lemma syn_sends_count_and_one_line_per_row_witness :
  Legacy.authenticated (Scenario.logged_in 11 1 "a@x") = true
  /\ Legacy.out
       (Legacy.handle_syn_command
          (Legacy.set_db Scenario.legacy_two Scenario.legacy_db_cb)
          (Scenario.logged_in 11 1 "a@x") ["SYN"; "9"; "0"; "0"]%string)
     = [ Send 11 (Scenario.line "SYN 9 2 0");
         Send 11 (Scenario.line "LST c@x c FL");
         Send 11 (Scenario.line "LST b@x b FL") ]
  /\ Handler.authenticated Scenario.handler_a = true
  /\ Handler.out
       (Handler.handle_syn 1 Scenario.handler_a
          (Handler.set_db Scenario.shared0 Scenario.db_cb)
          ["SYN"; "9"; "0"; "0"]%string "9")
     = [ Send 1 (Scenario.line "LST b@x b FL");
         Send 1 (Scenario.line "LST c@x c FL");
         Send 1 (Scenario.line "SYN 9 2 0") ].
Proof.
  destruct syn_sends_count_and_one_line_per_row as [Hlegacy Hhandler].
  split; [reflexivity|]. split.
  - rewrite (proj1 (Hlegacy
               (Legacy.set_db Scenario.legacy_two Scenario.legacy_db_cb)
               (Scenario.logged_in 11 1 "a@x") ["SYN"; "9"; "0"; "0"]%string
               eq_refl)).
    reflexivity.
  - split; [reflexivity|].
    rewrite (proj1 (Hhandler 1%nat Scenario.handler_a
               (Handler.set_db Scenario.shared0 Scenario.db_cb)
               ["SYN"; "9"; "0"; "0"]%string "9"%string eq_refl)).
    reflexivity.
Defined.

(** C5 as stated fails: [a@x] added [c@x] and then [b@x].  The threaded
    server lists [c@x] before [b@x], which is not ascending.  The
    asyncio server lists them in ascending order but sends the [SYN]
    line after the [LST] lines, not first; and with [b@x] on the forward
    and on the allow list it sends the allow list (bit 2) before the
    forward list (bit 1). *)
Lemma syn_lines_are_not_sorted :
  let legacy := Legacy.set_db Scenario.legacy_two Scenario.legacy_db_cb in
  let parts := ["SYN"; "9"; "0"; "0"]%string in
  Legacy.out (Legacy.handle_syn_command legacy
                (Scenario.logged_in 11 1 "a@x") parts)
  = [ Send 11 (Scenario.line "SYN 9 2 0");
      Send 11 (Scenario.line "LST c@x c FL");
      Send 11 (Scenario.line "LST b@x b FL") ]
  /\ map Legacy.entry_email
         (Legacy.get_user_contacts Scenario.legacy_db_cb (Some "a@x"%string))
     = ["c@x"; "b@x"]%string
  /\ Spec.ascending ["c@x"; "b@x"]%string = false
  /\ Handler.out
       (Handler.handle_syn 1 Scenario.handler_a
          (Handler.set_db Scenario.shared0 Scenario.db_cb) parts "9")
     = [ Send 1 (Scenario.line "LST b@x b FL");
         Send 1 (Scenario.line "LST c@x c FL");
         Send 1 (Scenario.line "SYN 9 2 0") ]
  /\ Handler.out
       (Handler.handle_syn 1 Scenario.handler_a
          (Handler.set_db Scenario.shared0 Scenario.db_fl_al) parts "9")
     = [ Send 1 (Scenario.line "LST b@x b AL");
         Send 1 (Scenario.line "LST b@x b FL");
         Send 1 (Scenario.line "SYN 9 2 0") ].
Proof. vm_compute. repeat split. Qed.

(* ------------------------------------------------------------------ *)
(** ** The registry: a second login                                    *)
(* ------------------------------------------------------------------ *)

Section DictFacts.
Context {V : Type}.
Implicit Types (d : list (nat * V)) (k : nat) (v : V).

Lemma get_set_eq d k v : Py.get k (Py.set k v d) = Some v.
Proof.
  induction d as [|[k' v'] d IH]; simpl.
  - by rewrite decide_True.
  - destruct (decide (k' = k)) as [->|Hne]; simpl.
    + by rewrite decide_True.
    + by rewrite decide_False.
Qed.

Lemma get_set_ne d k k' v : k <> k' -> Py.get k' (Py.set k v d) = Py.get k' d.
Proof.
  intros Hne. induction d as [|[k0 v0] d IH]; simpl.
  - by rewrite decide_False.
  - destruct (decide (k0 = k)) as [->|Hne0]; simpl.
    + by rewrite !decide_False.
    + destruct (decide (k0 = k')); [reflexivity|assumption].
Qed.

(** An entry of the updated dictionary is the new one or an old one. *)
Lemma in_set d k v k' v' :
  In (k', v') (Py.set k v d) -> (k' = k /\ v' = v) \/ In (k', v') d.
Proof.
  induction d as [|[k0 v0] d IH]; simpl.
  - intros [H|[]]. injection H as <- <-. by left.
  - destruct (decide (k0 = k)) as [->|Hne]; simpl.
    + intros [H|H]; [injection H as <- <-; by left|right; by right].
    + intros [H|H]; [right; by left|].
      destruct (IH H) as [?|?]; [by left|right; by right].
Qed.

Lemma in_set_other d k v k' v' :
  k' <> k -> In (k', v') d -> In (k', v') (Py.set k v d).
Proof.
  intros Hne. induction d as [|[k0 v0] d IH]; simpl; [tauto|].
  destruct (decide (k0 = k)) as [->|Hne0]; simpl.
  - intros [H|H]; [injection H as <- <-; contradiction|by right].
  - intros [H|H]; [by left|right; by apply IH].
Qed.

Lemma in_del d k k' v' : In (k', v') (Py.del k d) -> In (k', v') d.
Proof.
  induction d as [|[k0 v0] d IH]; simpl; [tauto|].
  destruct (decide (k0 = k)) as [->|Hne]; simpl.
  - intros H. by right.
  - intros [H|H]; [by left|right; by apply IH].
Qed.

Lemma get_in d k v : Py.get k d = Some v -> In (k, v) d.
Proof.
  induction d as [|[k0 v0] d IH]; simpl; [discriminate|].
  destruct (decide (k0 = k)) as [->|Hne].
  - intros H. injection H as <-. by left.
  - intros H. right. by apply IH.
Qed.

(** A key that is not in the dictionary is appended. *)
Lemma set_fresh d k v :
  (forall v', ~ In (k, v') d) -> Py.set k v d = d ++ [(k, v)].
Proof.
  intros Hfresh. induction d as [|[k0 v0] d IH]; simpl; [reflexivity|].
  destruct (decide (k0 = k)) as [->|Hne].
  - exfalso. apply (Hfresh v0). by left.
  - rewrite IH; [reflexivity|]. intros v' Hin. apply (Hfresh v'). by right.
Qed.
End DictFacts.

(** C3, as the code has it: when a session answers the challenge for an
    identity that the store knows, the email index points to the new
    session and to no other; every session registered before, also one of
    the same identity, keeps its entry unchanged; the only write is the
    [USR t OK] reply to the new session, so that an earlier session is
    sent nothing and is not closed. *)
Theorem second_login_keeps_first_session
    (e : Handler.env) (w : nat) (h : Handler.t) (s : Handler.shared)
    (cmd tid hash self_email : string) (user : Database.user) :
  Handler.email h = Some self_email ->
  Py.truthy_str self_email = true ->
  Database.get_user_by_email (Handler.db_manager s) self_email = Some user ->
  let r := Handler.handle_usr e w h s [cmd; tid; "S"%string; hash] tid in
  let m := Handler.client_manager s in
  let m' := Handler.client_manager (Handler.world r) in
  let cid := ClientManager.next_client_id m in
  Handler.out r
  = [Send w ("USR " +:+ tid +:+ " OK " +:+ self_email +:+ " " +:+ self_email
             +:+ " 1 0" +:+ Py.CRLF)]
  /\ Handler.client_id (Handler.handler r) = Some cid
  /\ ClientManager.email_to_client m' !! self_email = Some cid
  /\ Py.get cid (ClientManager.clients m')
     = Some {| ClientManager.id := cid; ClientManager.email := self_email;
               ClientManager.writer := w; ClientManager.status := "NLN";
               ClientManager.connected_at := Handler.now e;
               ClientManager.last_activity := Handler.now e |}
  /\ (forall c, c <> cid ->
        Py.get c (ClientManager.clients m') = Py.get c (ClientManager.clients m))
  /\ (forall c info, c <> cid -> In (c, info) (ClientManager.clients m) ->
        In (c, info) (ClientManager.clients m')).
Proof.
  intros Hemail Htruthy Huser. unfold Handler.handle_usr.
  change (List.length [cmd; tid; "S"%string; hash] <? 4)%nat with false.
  cbn [nth]. cbv iota.
  change (String.eqb "S" "I") with false.
  change (String.eqb "S" "S") with true. cbv iota.
  rewrite Hemail, Htruthy, Huser. cbn.
  split; [reflexivity|]. split; [reflexivity|].
  split; [apply lookup_insert_eq|].
  split; [apply get_set_eq|].
  split.
  - intros c Hc. apply get_set_ne. congruence.
  - intros c info Hc Hin. by apply in_set_other.
Qed.

Lemma second_login_keeps_first_session_witness :
  let first := fst (AsyncServer.run Scenario.router
                      (AsyncServer.init Scenario.db)
                      [ AsyncServer.Accept 1;
                        AsyncServer.Line 1 (Scenario.line "USR 3 I a@x")
                                         Scenario.env0;
                        AsyncServer.Line 1 (Scenario.line "USR 4 S dummy_hash")
                                         Scenario.env0 ]) in
  let h := {| Handler.client_id := None; Handler.email := Some "a@x"%string;
              Handler.transaction_id := 0%nat; Handler.authenticated := false;
              Handler.protocol_version := None |} in
  let r := Handler.handle_usr Scenario.env0 2 h (AsyncServer.shared first)
             ["USR"; "4"; "S"; "dummy_hash"]%string "4" in
  let m' := Handler.client_manager (Handler.world r) in
  Handler.out r = [Send 2 (Scenario.line "USR 4 OK a@x a@x 1 0")]
  /\ ClientManager.email_to_client m' !! "a@x"%string = Some 2%nat
  /\ (ClientManager.writer <$> Py.get 1%nat (ClientManager.clients m'))
     = Some 1%nat
  /\ (ClientManager.email <$> Py.get 1%nat (ClientManager.clients m'))
     = Some "a@x"%string.
Proof.
  intros first h r m'.
  pose proof (second_login_keeps_first_session Scenario.env0 2 h
                (AsyncServer.shared first) "USR" "4" "dummy_hash" "a@x"
                {| Database.user_id := 1; Database.user_email := "a@x";
                   Database.user_password := "p";
                   Database.user_display_name := Some "a@x"%string |}
                eq_refl eq_refl eq_refl)
    as (Hout & _ & Hindex & _ & Hother & _).
  split; [exact Hout|]. split; [exact Hindex|].
  subst m' r. rewrite (Hother 1%nat) by (vm_compute; lia).
  vm_compute. split; reflexivity.
Defined.

(** C3 as stated fails: connections 1 and 2 authenticate as [a@x] one
    after the other; the registry then holds both sessions under the
    same identity, connection 1 was sent its own replies only (no
    [OUT OTH]) and was not closed. *)
Lemma second_login_does_not_displace :
  let '(srv, evs) := AsyncServer.run Scenario.router
                       (AsyncServer.init Scenario.db) Scenario.two_logins in
  let m := Handler.client_manager (AsyncServer.shared srv) in
  map (fun p => (fst p, ClientManager.email (snd p), ClientManager.writer (snd p)))
      (ClientManager.clients m)
  = [ (1%nat, "a@x"%string, 1%nat); (2%nat, "a@x"%string, 2%nat) ]
  /\ sent_to 1 evs = [ Scenario.line "USR 3 S N";
                       Scenario.line "USR 4 OK a@x a@x 1 0" ]
  /\ ~ In (Scenario.line "OUT OTH") (sent_to 1 evs)
  /\ closed 1 evs = false.
Proof.
  vm_compute. repeat split.
  intros [H|[H|[]]]; discriminate.
Qed.
(* ------------------------------------------------------------------ *)
(** ** Presence fan-out ([CHG])                                        *)
(* ------------------------------------------------------------------ *)




(* ------------------------------------------------------------------ *)
(** ** Presence of a session that never sends [CHG]                    *)
(* ------------------------------------------------------------------ *)

Section Presence.
Variable router : ClientManager.t -> option string -> string -> list event.

Ltac unchanged := left; split; first [reflexivity | assumption].

(** Every command falls in one of the four cases of [registry_effect]. *)
Lemma handle_line_registry_effect (e : Handler.env) (w : nat) (h : Handler.t)
    (s : Handler.shared) (data : string) :
  let r := Handler.handle_line router e w h s data in
  AsyncServer.registry_effect w (Handler.now e) data h (Handler.handler r)
    (Handler.client_manager s) (Handler.client_manager (Handler.world r)).
Proof.
  unfold AsyncServer.registry_effect, AsyncServer.command_of,
    Handler.handle_line.
  destruct (negb (Py.truthy_str (Py.strip data))); [unchanged|].
  unfold Handler.process_command.
  generalize (Py.split_space (Py.strip data)). intros parts.
  destruct (List.length parts <? 2)%nat; [unchanged|].
  set (command := nth 0 parts ""%string).
  set (tid := nth 1 parts "0"%string).
  destruct (String.eqb command "VER"); [unchanged|].
  destruct (String.eqb command "CVR"); [unchanged|].
  destruct (String.eqb command "USR").
  { unfold Handler.handle_usr.
    repeat (case_match; try unchanged).
    match goal with
    | H : ClientManager.add_client _ _ _ _ = _ |- _ =>
        unfold ClientManager.add_client in H; injection H as <- <-
    end.
    right; left. simpl. eexists. split; reflexivity. }
  destruct (String.eqb command "SYN").
  { unfold Handler.handle_syn. case_match; unchanged. }
  destruct (String.eqb command "CHG") eqn:Hchg.
  { apply String.eqb_eq in Hchg. unfold Handler.handle_chg.
    repeat (case_match; try unchanged).
    right; right; left. simpl. split; [assumption|].
    split; [first [reflexivity|assumption]|].
    eexists _, _. split; reflexivity. }
  destruct (String.eqb command "MSG").
  { unfold Handler.handle_msg. repeat (case_match; try unchanged). }
  destruct (String.eqb command "ADD").
  { unfold Handler.handle_add. repeat (case_match; try unchanged). }
  destruct (String.eqb command "REM").
  { unfold Handler.handle_rem. repeat (case_match; try unchanged). }
  destruct (String.eqb command "LST"); [unchanged|].
  destruct (String.eqb command "CAL").
  { unfold Handler.handle_cal. case_match; unchanged. }
  destruct (String.eqb command "ANS"); [unchanged|].
  destruct (String.eqb command "OUT").
  { right; right; right. split; reflexivity. }
  destruct (String.eqb command "PNG"); [unchanged|].
  destruct (String.eqb command "QNG"); unchanged.
Qed.


(** What the four cases have in common: the counter does not decrease;
    an entry of the registry is an old one, or a new one (under the old
    counter, with status [NLN]), or the entry of the handler's own client
    after a [CHG] line; the handler keeps its client id or takes the old
    counter. *)
Lemma registry_effect_entries (w : nat) (now : Z) (data : string)
    (h h' : Handler.t) (m m' : ClientManager.t) :
  AsyncServer.registry_effect w now data h h' m m' ->
  (ClientManager.next_client_id m <= ClientManager.next_client_id m')%nat
  /\ (forall c info,
        In (c, info) (ClientManager.clients m') ->
        In (c, info) (ClientManager.clients m)
        \/ (c = ClientManager.next_client_id m
            /\ ClientManager.next_client_id m'
               = S (ClientManager.next_client_id m)
            /\ ClientManager.status info = "NLN"%string)
        \/ (AsyncServer.command_of data = "CHG"%string
            /\ Handler.client_id h = Some c))
  /\ (forall c,
        Handler.client_id h' = Some c ->
        Handler.client_id h = Some c
        \/ (c = ClientManager.next_client_id m
            /\ ClientManager.next_client_id m'
               = S (ClientManager.next_client_id m))).
Proof.
  intros [[-> Hid]|[(mail & -> & Hid)|[(Hchg & Hid & c0 & st & Hc0 & ->)
                                      |[-> Hid]]]].
  - split; [lia|]. split; [auto|]. intros c Hc. left. congruence.
  - simpl. split; [lia|]. split.
    + intros c info Hin. apply in_set in Hin as [[-> ->]|Hin]; [|by left].
      right; left. auto.
    + intros c Hc. right. split; [congruence|reflexivity].
  - unfold ClientManager.update_client_status.
    destruct (Py.get c0 (ClientManager.clients m)) as [info0|]; simpl.
    + split; [lia|]. split.
      * intros c info Hin. apply in_set in Hin as [[-> _]|Hin]; [|by left].
        right; right. auto.
      * intros c Hc. left. congruence.
    + split; [lia|]. split; [auto|]. intros c Hc. left. congruence.
  - unfold ClientManager.disconnect_client.
    split; [|split].
    + repeat case_match; simpl; lia.
    + intros c info Hin. left. revert Hin.
      repeat case_match; simpl; auto. apply in_del.
    + intros c Hc. left. congruence.
Qed.

Lemma disconnect_entries (m : ClientManager.t) (w : nat) :
  ClientManager.next_client_id (ClientManager.disconnect_client m w)
  = ClientManager.next_client_id m
  /\ forall c info,
       In (c, info) (ClientManager.clients
                       (ClientManager.disconnect_client m w)) ->
       In (c, info) (ClientManager.clients m).
Proof.
  unfold ClientManager.disconnect_client. split.
  - repeat case_match; reflexivity.
  - intros c info. repeat case_match; simpl; auto. apply in_del.
Qed.

Lemma init_ids_below_next (db : Database.t) :
  AsyncServer.ids_below_next (AsyncServer.init db).
Proof.
  split.
  - intros c info [].
  - intros w h c Hh. simpl in Hh. by rewrite lookup_empty in Hh.
Qed.

(** The state after a line of connection [w], whose handler was [h]. *)
Lemma step_line (srv : AsyncServer.t) (w : nat) (data : string)
    (e : Handler.env) (h : Handler.t) :
  AsyncServer.handlers srv !! w = Some h ->
  let r := Handler.handle_line router e w h (AsyncServer.shared srv) data in
  let srv' := fst (AsyncServer.step router srv (AsyncServer.Line w data e)) in
  (Handler.raised r = false
   /\ AsyncServer.manager srv' = Handler.client_manager (Handler.world r)
   /\ AsyncServer.handlers srv'
      = <[w := Handler.handler r]> (AsyncServer.handlers srv))
  \/ (Handler.raised r = true
      /\ AsyncServer.manager srv'
         = ClientManager.disconnect_client
             (Handler.client_manager (Handler.world r)) w
      /\ AsyncServer.handlers srv' = delete w (AsyncServer.handlers srv)).
Proof.
  intros Hh r srv'. subst srv'. simpl. rewrite Hh. fold r.
  destruct (Handler.raised r); [right|left]; auto.
Qed.


Lemma step_keeps_ids (srv : AsyncServer.t) (a : AsyncServer.action) :
  AsyncServer.ids_below_next srv ->
  AsyncServer.ids_below_next (fst (AsyncServer.step router srv a)).
Proof.
  intros [Hentries Hheld]. destruct a as [w|w data e|w].
  - simpl. destruct (AsyncServer.handlers srv !! w) eqn:Hw; simpl;
      [by split|].
    split; [exact Hentries|].
    intros w' h c Hh Hc. simpl in Hh.
    destruct (decide (w = w')) as [->|Hne].
    + rewrite lookup_insert_eq in Hh. injection Hh as <-. discriminate.
    + rewrite lookup_insert_ne in Hh by assumption. by apply (Hheld w' h).
  - destruct (AsyncServer.handlers srv !! w) as [h|] eqn:Hw;
      [|simpl; rewrite Hw; by split].
    pose proof (handle_line_registry_effect e w h (AsyncServer.shared srv) data)
      as Heff.
    apply registry_effect_entries in Heff as (Hnext & Hin & Hid).
    pose proof (Hheld w h) as Hown.
    destruct (step_line srv w data e h Hw) as [(_ & Hm & Hhs)|(_ & Hm & Hhs)];
      unfold AsyncServer.ids_below_next; rewrite Hm, Hhs.
    + split.
      * intros c info Hc.
        destruct (Hin c info Hc) as [Hold|[(-> & Hn & _)|(_ & Hc')]].
        -- apply Hentries in Hold. unfold AsyncServer.manager in Hold. lia.
        -- lia.
        -- specialize (Hown c Hw Hc'). unfold AsyncServer.manager in Hown. lia.
      * intros w' h' c Hh' Hc.
        destruct (decide (w = w')) as [->|Hne].
        -- rewrite lookup_insert_eq in Hh'. injection Hh' as <-.
           destruct (Hid c Hc) as [Hold|[-> Hn]]; [|lia].
           specialize (Hown c Hw Hold). unfold AsyncServer.manager in Hown. lia.
        -- rewrite lookup_insert_ne in Hh' by assumption.
           specialize (Hheld w' h' c Hh' Hc).
           unfold AsyncServer.manager in Hheld. lia.
    + destruct (disconnect_entries
                  (Handler.client_manager
                     (Handler.world
                        (Handler.handle_line router e w h
                           (AsyncServer.shared srv) data))) w) as [Hn Hsub].
      rewrite Hn. split.
      * intros c info Hc. apply Hsub in Hc.
        destruct (Hin c info Hc) as [Hold|[(-> & Hn' & _)|(_ & Hc')]].
        -- apply Hentries in Hold. unfold AsyncServer.manager in Hold. lia.
        -- lia.
        -- specialize (Hown c Hw Hc'). unfold AsyncServer.manager in Hown. lia.
      * intros w' h' c Hh' Hc.
        apply lookup_delete_Some in Hh' as [_ Hh'].
        specialize (Hheld w' h' c Hh' Hc).
        unfold AsyncServer.manager in Hheld. lia.
  - simpl. destruct (AsyncServer.handlers srv !! w) eqn:Hw; simpl;
      [|by split].
    destruct (disconnect_entries (AsyncServer.manager srv) w) as [Hn Hsub].
    unfold AsyncServer.ids_below_next, AsyncServer.manager in *. simpl.
    rewrite Hn. split.
    + intros c info Hc. apply Hsub in Hc. by apply (Hentries c info).
    + intros w' h' c Hh' Hc.
      apply lookup_delete_Some in Hh' as [_ Hh']. by apply (Hheld w' h').
Qed.






End Presence.
(** *** The threaded server *)

Section DictKeys.
Context {V : Type}.
Implicit Types (d : list (nat * V)) (k : nat) (v : V).

Lemma in_keys_set d k v x :
  In x (Py.keys (Py.set k v d)) -> x = k \/ In x (Py.keys d).
Proof.
  unfold Py.keys. induction d as [|[k0 v0] d IH]; simpl.
  - intros [<-|[]]. by left.
  - destruct (decide (k0 = k)) as [->|Hne]; simpl.
    + intros [<-|H]; [by left|right; by right].
    + intros [<-|H]; [right; by left|].
      destruct (IH H) as [->|?]; [by left|right; by right].
Qed.

Lemma nodup_keys_set d k v :
  NoDup (Py.keys d) -> NoDup (Py.keys (Py.set k v d)).
Proof.
  unfold Py.keys. induction d as [|[k0 v0] d IH]; simpl; intros Hd.
  - apply NoDup_cons. split; [apply not_elem_of_nil|constructor].
  - apply NoDup_cons in Hd as [Hk0 Hd].
    destruct (decide (k0 = k)) as [->|Hne]; simpl.
    + apply NoDup_cons. by split.
    + apply NoDup_cons. split; [|by apply IH].
      intros Hin. apply list_elem_of_In in Hin.
      apply (in_keys_set d k v k0) in Hin as [->|Hin]; [congruence|].
      apply Hk0. by apply list_elem_of_In.
Qed.

Lemma in_keys_del d k x : In x (Py.keys (Py.del k d)) -> In x (Py.keys d).
Proof.
  unfold Py.keys. induction d as [|[k0 v0] d IH]; simpl; [tauto|].
  destruct (decide (k0 = k)) as [->|Hne]; simpl.
  - intros H. by right.
  - intros [<-|H]; [by left|right; by apply IH].
Qed.

Lemma nodup_keys_del d k : NoDup (Py.keys d) -> NoDup (Py.keys (Py.del k d)).
Proof.
  unfold Py.keys. induction d as [|[k0 v0] d IH]; simpl; intros Hd.
  - constructor.
  - apply NoDup_cons in Hd as [Hk0 Hd].
    destruct (decide (k0 = k)) as [->|Hne]; simpl; [assumption|].
    apply NoDup_cons. split; [|by apply IH].
    intros Hin. apply list_elem_of_In in Hin. apply in_keys_del in Hin.
    apply Hk0. by apply list_elem_of_In.
Qed.

End DictKeys.

Lemma dispatch_client_effect (ch : string) (srv : Legacy.t)
    (ci : Legacy.client_info) (parts : list string) (message : string) :
  let r := Legacy.dispatch ch srv ci parts message in
  Legacy.client_effect (Py.upper (nth 0 parts ""%string)) ci (Legacy.client r)
  /\ Legacy.clients (Legacy.server r) = Legacy.clients srv
  /\ Legacy.client_counter (Legacy.server r) = Legacy.client_counter srv.
Proof.
  unfold Legacy.dispatch, Legacy.client_effect.
  set (command := Py.upper (nth 0 parts ""%string)).
  destruct (String.eqb command "VER").
  { unfold Legacy.handle_ver_command. case_match; simpl; auto. }
  destruct (String.eqb command "CVR").
  { unfold Legacy.handle_cvr_command. case_match; simpl; auto. }
  destruct (String.eqb command "USR").
  { unfold Legacy.handle_usr_command. repeat case_match; simpl; auto.
    split; [|auto]. split; [reflexivity|]. right; left. auto. }
  destruct (String.eqb command "SYN").
  { unfold Legacy.handle_syn_command. case_match; simpl; auto. }
  destruct (String.eqb command "CHG") eqn:Hchg.
  { apply String.eqb_eq in Hchg. unfold Legacy.handle_chg_command.
    repeat case_match; simpl; auto;
      (split; [|auto]; split; [reflexivity|]; right; right; auto). }
  destruct (String.eqb command "LST"); [simpl; auto|].
  destruct (String.eqb command "ADD").
  { unfold Legacy.handle_add_command. repeat case_match; simpl; auto. }
  destruct (String.eqb command "REM").
  { unfold Legacy.handle_rem_command. repeat case_match; simpl; auto. }
  destruct (String.eqb command "MSG").
  { unfold Legacy.handle_msg_command. repeat case_match; simpl; auto. }
  destruct (String.eqb command "OUT"); [simpl; auto|].
  destruct (String.eqb command "PNG"); [simpl; auto|].
  destruct (String.eqb command "QNG"); simpl; auto.
Qed.

Lemma get_set_same {V : Type} (d : list (nat * V)) (k : nat) (v : V) :
  Py.get k d = Some v -> Py.set k v d = d.
Proof.
  induction d as [|[k0 v0] d IH]; simpl; [discriminate|].
  destruct (decide (k0 = k)) as [->|Hne].
  - intros H. by injection H as ->.
  - intros H. by rewrite IH.
Qed.

(** What the bytes a client sends do to the server: nothing, or the
    dictionary of the client is replaced by one that [client_effect]
    relates to it. *)
Lemma receive_effect (ch : string) (srv : Legacy.t) (cid : nat) (data : string) :
  Legacy.keys_ok srv ->
  let srv' := fst (Legacy.receive ch srv cid data) in
  Legacy.client_counter srv' = Legacy.client_counter srv
  /\ (Legacy.clients srv' = Legacy.clients srv
      \/ exists ci ci',
           Py.get cid (Legacy.clients srv) = Some ci
           /\ Legacy.client_effect (Legacy.command_of data) ci ci'
           /\ Legacy.clients srv' = Py.set cid ci' (Legacy.clients srv)).
Proof.
  intros [Hnodup Hkeys]. unfold Legacy.receive.
  destruct (Py.get cid (Legacy.clients srv)) as [ci|] eqn:Hget; [|simpl; auto].
  unfold Legacy.process_msnp_command, Legacy.command_of.
  destruct (negb (Py.truthy_str (Py.strip data))); [simpl; auto|].
  destruct (List.length (Py.split (Py.strip data)) <? 1)%nat; [simpl; auto|].
  pose proof (dispatch_client_effect ch srv ci (Py.split (Py.strip data))
                (Py.strip data)) as (Heff & Hclients & Hcounter).
  cbn. split; [exact Hcounter|]. right. exists ci. eexists.
  split; [reflexivity|]. split; [exact Heff|].
  destruct Heff as [Hid _]. apply get_in in Hget as Hin.
  apply Hkeys in Hin as [Hci _]. rewrite Hid, Hci, Hclients, Hget.
  reflexivity.
Qed.

Lemma legacy_init_keys_ok (db : Legacy.database) :
  Legacy.keys_ok (Legacy.init db).
Proof. split; [constructor|]. intros k ci []. Qed.

Lemma legacy_step_keeps_keys (srv : Legacy.t) (a : Legacy.action) :
  Legacy.keys_ok srv -> Legacy.keys_ok (fst (Legacy.run_step srv a)).
Proof.
  intros Hok. pose proof Hok as [Hnodup Hkeys].
  destruct a as [sock|cid data ch|cid].
  - simpl. split; simpl; [by apply nodup_keys_set|].
    intros k ci Hin. apply in_set in Hin as [[-> ->]|Hin].
    + simpl. split; [reflexivity|lia].
    + apply Hkeys in Hin as [? ?]. split; [assumption|lia].
  - destruct (receive_effect ch srv cid data Hok)
      as (Hcounter & [Hsame|(ci & ci' & Hget & (Hid & _) & Hset)]);
      simpl; unfold Legacy.keys_ok; rewrite Hcounter.
    + rewrite Hsame. by split.
    + rewrite Hset. split; [by apply nodup_keys_set|].
      apply get_in in Hget. apply Hkeys in Hget as [Hci Hlt].
      intros k x Hin. apply in_set in Hin as [[-> ->]|Hin]; [|by apply Hkeys].
      split; [congruence|assumption].
  - simpl. unfold Legacy.cleanup_client.
    destruct (Py.get cid (Legacy.clients srv)); simpl; [|assumption].
    split; simpl; [by apply nodup_keys_del|].
    intros k x Hin. apply in_del in Hin. by apply Hkeys.
Qed.

Lemma legacy_run_keeps_keys (acts : list Legacy.action) (srv : Legacy.t) :
  Legacy.keys_ok srv -> Legacy.keys_ok (fst (Legacy.run srv acts)).
Proof.
  revert srv. induction acts as [|a acts IH]; intros srv Hsrv; [assumption|].
  simpl. pose proof (legacy_step_keeps_keys srv a Hsrv) as Hstep.
  destruct (Legacy.run_step srv a) as [srv' evs].
  specialize (IH srv' Hstep).
  destruct (Legacy.run srv' acts) as [srv'' evs']. exact IH.
Qed.



(** A line that changes the client id of its handler is a successful
    phase 2 of [USR]: the handler is authenticated and the one line
    written is the reply [USR t OK]. *)
Lemma registration_replies_ok
    (router : ClientManager.t -> option string -> string -> list event)
    (e : Handler.env) (w : nat) (h : Handler.t) (s : Handler.shared)
    (data : string) :
  let r := Handler.handle_line router e w h s data in
  Handler.client_id (Handler.handler r) <> Handler.client_id h ->
  Handler.authenticated (Handler.handler r) = true
  /\ exists tid mail,
       Handler.out r
       = [Send w ("USR " +:+ tid +:+ " OK " +:+ mail +:+ " " +:+ mail
                  +:+ " 1 0" +:+ Py.CRLF)].
Proof.
  unfold Handler.handle_line.
  destruct (negb (Py.truthy_str (Py.strip data))); [simpl; congruence|].
  unfold Handler.process_command.
  generalize (Py.split_space (Py.strip data)). intros parts.
  destruct (List.length parts <? 2)%nat; [simpl; congruence|].
  set (command := nth 0 parts ""%string).
  set (tid := nth 1 parts "0"%string).
  destruct (String.eqb command "VER"); [simpl; congruence|].
  destruct (String.eqb command "CVR"); [simpl; congruence|].
  destruct (String.eqb command "USR").
  { unfold Handler.handle_usr.
    repeat (case_match; try (simpl; congruence)).
    simpl. intros _. split; [reflexivity|]. eexists _, _. reflexivity. }
  destruct (String.eqb command "SYN").
  { unfold Handler.handle_syn. case_match; simpl; congruence. }
  destruct (String.eqb command "CHG").
  { unfold Handler.handle_chg. repeat case_match; simpl; congruence. }
  destruct (String.eqb command "MSG").
  { unfold Handler.handle_msg. repeat case_match; simpl; congruence. }
  destruct (String.eqb command "ADD").
  { unfold Handler.handle_add. repeat case_match; simpl; congruence. }
  destruct (String.eqb command "REM").
  { unfold Handler.handle_rem. repeat case_match; simpl; congruence. }
  destruct (String.eqb command "LST"); [simpl; congruence|].
  destruct (String.eqb command "CAL").
  { unfold Handler.handle_cal. case_match; simpl; congruence. }
  destruct (String.eqb command "ANS"); [simpl; congruence|].
  destruct (String.eqb command "OUT"); [simpl; congruence|].
  destruct (String.eqb command "PNG"); [simpl; congruence|].
  destruct (String.eqb command "QNG"); simpl; congruence.
Qed.







(* ================================================================== *)
(** * Further properties of the code                                  *)
(* ================================================================== *)

(* ------------------------------------------------------------------ *)
(** ** The configuration ([config/server_config.py])                   *)
(* ------------------------------------------------------------------ *)

Section StringDict.
Context {V : Type}.
Implicit Types (d : list (string * V)) (k : string) (v : V).

Lemma sget_set_eq d k v : Py.get k (Py.set k v d) = Some v.
Proof.
  induction d as [|[k' v'] d IH]; simpl.
  - by rewrite decide_True.
  - destruct (decide (k' = k)) as [->|Hne]; simpl.
    + by rewrite decide_True.
    + by rewrite decide_False.
Qed.

Lemma sget_set_ne d k k' v : k <> k' -> Py.get k' (Py.set k v d) = Py.get k' d.
Proof.
  intros Hne. induction d as [|[k0 v0] d IH]; simpl.
  - by rewrite decide_False.
  - destruct (decide (k0 = k)) as [->|Hne0]; simpl.
    + by rewrite !decide_False.
    + destruct (decide (k0 = k')); [reflexivity|assumption].
Qed.
End StringDict.

Lemma split_dot_nonempty (s : string) : Config.split_dot s <> [].
Proof.
  induction s as [|c s IH]; simpl; [discriminate|].
  destruct (Ascii.eqb c "."); [discriminate|].
  destruct (Config.split_dot s); [congruence|discriminate].
Qed.

Lemma set_path_get_path (keys : list string) (cfg cfg' new default : Config.value) :
  Config.set_path cfg keys new = Some cfg' ->
  Config.get_path cfg' keys default = new.
Proof.
  revert cfg cfg'. induction keys as [|k rest IH]; intros cfg cfg' Hset;
    simpl in Hset; [discriminate|].
  destruct cfg as [| | | | |d]; try discriminate.
  destruct rest as [|k' rest'].
  - injection Hset as <-. simpl. by rewrite sget_set_eq.
  - destruct (Config.set_path _ (k' :: rest') new) as [child'|] eqn:Hchild;
      [|discriminate].
    injection Hset as <-. cbn [Config.get_path]. rewrite sget_set_eq.
    exact (IH _ _ Hchild).
Qed.

(** X1: a value stored with [set(key, value)] is the value that
    [get(key)] returns afterwards, whatever the default. *)
Theorem config_get_after_set (config config' new default : Config.value)
    (key : string) :
  Config.set config key new = Some config' ->
  Config.get config' key default = new.
Proof. apply set_path_get_path. Qed.

Lemma config_get_after_set_witness :
  Config.set Config.default_config "server.port" (Config.VInt 1864)
  = Some Config.port_1864
  /\ Config.get Config.port_1864 "server.port" Config.VNone = Config.VInt 1864.
Proof.
  split; [reflexivity|].
  exact (config_get_after_set Config.default_config Config.port_1864
           (Config.VInt 1864) Config.VNone "server.port" eq_refl).
Defined.

Lemma set_path_frame (keys keys' : list string)
    (cfg cfg' new default : Config.value) :
  Config.diverge keys keys' ->
  Config.set_path cfg keys new = Some cfg' ->
  Config.get_path cfg' keys' default = Config.get_path cfg keys' default.
Proof.
  revert keys' cfg cfg'. induction keys as [|k rest IH];
    intros keys' cfg cfg' Hdiv Hset; [contradiction|].
  destruct keys' as [|k2 rest2]; [contradiction|].
  simpl in Hset. destruct cfg as [| | | | |d]; try discriminate.
  simpl in Hdiv. destruct Hdiv as [Hne|[<- Hdiv]].
  - assert (exists x, cfg' = Config.VDict (Py.set k x d)) as [x ->].
    { destruct rest; [injection Hset as <-; eauto|].
      destruct (Config.set_path _ _ new); [|discriminate].
      injection Hset as <-. eauto. }
    simpl. by rewrite sget_set_ne.
  - destruct rest as [|k' rest']; [contradiction|].
    destruct rest2 as [|k2' rest2']; [destruct Hdiv|].
    destruct (Config.set_path _ (k' :: rest') new) as [child'|] eqn:Hchild;
      [|discriminate].
    injection Hset as <-. remember (k2' :: rest2') as q eqn:Hq.
    cbn [Config.get_path]. rewrite sget_set_eq.
    rewrite (IH _ _ _ Hdiv Hchild).
    destruct (Py.get k d); [reflexivity|]. by subst q.
Qed.

(** X2: in the configuration that [__init__] builds, changed by any
    [set] calls that store values other than dictionaries (so that no
    two keys lead to the same dictionary), [set(key, value)] of such a
    value changes nothing under a key whose path parts from the path of
    [key]: [get] answers there as before. *)
Theorem config_set_keeps_other_keys
    (host : string) (port max_connections : Z)
    (db_path log_level log_file : string) (calls : list (string * Config.value))
    (config config' new default : Config.value) (key key' : string) :
  forallb (fun call => Config.plain (snd call)) calls = true ->
  Config.run (Config.initial host port max_connections db_path log_level
                             log_file) calls = Some config ->
  Config.plain new = true ->
  Config.diverge (Config.split_dot key) (Config.split_dot key') ->
  Config.set config key new = Some config' ->
  Config.get config' key' default = Config.get config key' default.
Proof. intros _ _ _. apply set_path_frame. Qed.

Lemma config_set_keeps_other_keys_witness :
  forallb (fun call => Config.plain (snd call))
          [("logging.level"%string, Config.VStr "DEBUG")] = true
  /\ Config.run Config.default_config
                [("logging.level"%string, Config.VStr "DEBUG")]
     = Some Config.debug_config
  /\ Config.plain (Config.VInt 1864) = true
  /\ Config.diverge (Config.split_dot "server.port")
                    (Config.split_dot "server.host")
  /\ Config.set Config.debug_config "server.port" (Config.VInt 1864)
     = Some Config.debug_port_1864
  /\ Config.get Config.debug_port_1864 "server.host" Config.VNone
     = Config.VStr "localhost".
Proof.
  assert (Hdiv : Config.diverge (Config.split_dot "server.port")
                                (Config.split_dot "server.host")).
  { simpl. right. split; [reflexivity|]. left. discriminate. }
  split; [reflexivity|]. split; [reflexivity|]. split; [reflexivity|].
  split; [exact Hdiv|]. split; [reflexivity|].
  rewrite (config_set_keeps_other_keys "localhost" 1863 1000
             "database/user_system.db" "INFO" "logs/msnp_server.log"
             [("logging.level"%string, Config.VStr "DEBUG")]
             Config.debug_config Config.debug_port_1864
             (Config.VInt 1864) Config.VNone "server.port" "server.host"
             eq_refl eq_refl eq_refl Hdiv eq_refl).
  reflexivity.
Defined.

(* ------------------------------------------------------------------ *)
(** ** The store ([utils/database.py])                                 *)
(* ------------------------------------------------------------------ *)

Lemma find_app_last {A : Type} (f : A -> bool) (l : list A) (x : A) :
  existsb f l = false -> find f (l ++ [x]) = if f x then Some x else None.
Proof.
  induction l as [|a l IH]; simpl; [reflexivity|].
  intros H. apply orb_false_iff in H as [-> H]. by apply IH.
Qed.

Lemma find_app_other {A : Type} (f : A -> bool) (l : list A) (x : A) :
  f x = false -> find f (l ++ [x]) = find f l.
Proof.
  intros Hx. induction l as [|a l IH]; simpl; [by rewrite Hx|].
  destruct (f a); [reflexivity|assumption].
Qed.

Lemma find_none_existsb {A : Type} (f : A -> bool) (l : list A) :
  find f l = None <-> existsb f l = false.
Proof.
  induction l as [|a l IH]; simpl; [tauto|].
  destruct (f a); simpl; [split; discriminate|assumption].
Qed.

Lemma available_spec (collected : bool) (db : Database.t) :
  match Database.available collected db with
  | Some free =>
      (Database.locked db = false \/ collected = true)
      /\ Database.users free = Database.users db
      /\ Database.contacts free = Database.contacts db
      /\ Database.locked free = false
  | None => Database.locked db = true /\ collected = false
  end.
Proof.
  unfold Database.available.
  destruct (Database.locked db), collected; simpl; auto.
Qed.

(** X3: [create_user] on a database that is not locked, or whose lock
    has been collected, succeeds exactly when no user has the email.
    On success the new user is the one [get_user_by_email] finds, with
    the password given and the display name, or the email when no
    display name is given, and the users of other emails are as before.
    On failure the rows are as before, but the database is left locked:
    until the interpreter collects the connection, the next
    [create_user], of whatever email, raises.  On a locked database the
    call raises.  The contacts are never touched. *)
Theorem create_user_registers_once (collected : bool) (db : Database.t)
    (email password : string) (display_name : option string) :
  match Store.create_user collected db email password display_name with
  | None => Database.locked db = true /\ collected = false
  | Some (db', ok) =>
      (Database.locked db = false \/ collected = true)
      /\ (ok = true <-> Database.get_user_by_email db email = None)
      /\ Database.contacts db' = Database.contacts db
      /\ (ok = false ->
          Database.users db' = Database.users db
          /\ Database.locked db' = true
          /\ forall email' password' display_name',
               Store.create_user false db' email' password' display_name'
               = None)
      /\ (ok = true ->
          Database.locked db' = false
          /\ (exists u, Database.get_user_by_email db' email = Some u
                        /\ Database.user_email u = email
                        /\ Database.user_password u = password
                        /\ Database.user_display_name u
                           = Some (Store.display_or_email display_name email))
          /\ (forall other, other <> email ->
                Database.get_user_by_email db' other
                = Database.get_user_by_email db other))
  end.
Proof.
  unfold Store.create_user.
  pose proof (available_spec collected db) as Hfree.
  destruct (Database.available collected db) as [free|]; [|exact Hfree].
  destruct Hfree as (Hlock & Husers & Hcontacts & Hfreed).
  unfold Store.insert_user, Database.get_user_by_email. rewrite Husers.
  destruct (existsb _ (Database.users db)) eqn:Hex; simpl.
  - split; [assumption|]. split; [|split; [assumption|split; [|discriminate]]].
    + split; [discriminate|]. intros Hnone.
      apply find_none_existsb in Hnone. congruence.
    + intros _. split; [assumption|]. split; reflexivity.
  - split; [assumption|]. split; [|split; [assumption|split; [discriminate|]]].
    + split; [|reflexivity]. intros _. by apply find_none_existsb.
    + intros _. split; [assumption|]. split.
      * eexists. rewrite find_app_last by assumption. simpl.
        rewrite String.eqb_refl. split; [reflexivity|]. simpl. auto.
      * intros other Hne. apply find_app_other. simpl.
        apply String.eqb_neq. congruence.
Qed.

Lemma nodup_app_fresh {A : Type} (l : list A) (x : A) :
  NoDup l -> x ∉ l -> NoDup (l ++ [x]).
Proof.
  intros Hl Hx. apply NoDup_app. split; [assumption|].
  split; [|apply NoDup_singleton].
  intros y Hy Hy'. apply list_elem_of_singleton in Hy'. by subst y.
Qed.

Lemma same_key_contact_key (owner peer lst : string) (c : Database.contact) :
  Database.same_key owner peer lst c = true <->
  Store.contact_key c = (owner, peer, lst).
Proof.
  unfold Database.same_key, Store.contact_key.
  rewrite !andb_true_iff, !String.eqb_eq. split.
  - intros [[-> ->] ->]. reflexivity.
  - intros H. injection H as -> -> ->. auto.
Qed.

Lemma existsb_same_key (owner peer lst : string) (l : list Database.contact) :
  existsb (Database.same_key owner peer lst) l = false <->
  (owner, peer, lst) ∉ map Store.contact_key l.
Proof.
  induction l as [|c l IH]; simpl.
  - split; [intros _; apply not_elem_of_nil|reflexivity].
  - rewrite orb_false_iff, IH, not_elem_of_cons. split.
    + intros [Hc Hl]. split; [|assumption].
      intros Heq. symmetry in Heq. apply same_key_contact_key in Heq.
      congruence.
    + intros [Hc Hl]. split; [|assumption].
      destruct (Database.same_key owner peer lst c) eqn:Hk; [|reflexivity].
      apply same_key_contact_key in Hk. congruence.
Qed.

Lemma apply_keeps_unique (db : Database.t) (c : Store.change) :
  Store.unique_contacts db -> Store.unique_contacts (Store.apply db c) /\
  Database.users (Store.apply db c) = Database.users db.
Proof.
  unfold Store.unique_contacts. intros Hdb.
  destruct c as [owner peer nick lst now|owner peer lst]; simpl.
  - unfold Database.add_contact.
    destruct (existsb _ (Database.contacts db)) eqn:Hex; simpl; [by split|].
    split; [|reflexivity]. rewrite map_app. simpl.
    apply nodup_app_fresh; [assumption|]. by apply existsb_same_key.
  - split; [|reflexivity].
    induction (Database.contacts db) as [|a l IH]; simpl; [constructor|].
    apply NoDup_cons in Hdb as [Ha Hl].
    destruct (decide (Database.same_key owner peer lst a = false)).
    + rewrite filter_cons_True by assumption. simpl.
      apply NoDup_cons. split; [|by apply IH].
      intros Hin. apply Ha. apply list_elem_of_fmap in Hin as (x & Hx & Hin).
      apply list_elem_of_filter in Hin as [_ Hin].
      apply list_elem_of_fmap. by exists x.
    + rewrite filter_cons_False by assumption. by apply IH.
Qed.

Lemma add_contact_keeps_users (db : Database.t) (owner peer nick lst : string)
    (now : Z) :
  Database.users (fst (Database.add_contact db owner peer nick lst now))
  = Database.users db.
Proof. unfold Database.add_contact. by case_match. Qed.

(** X4: the uniqueness of (owner, peer, list) in the contact table is an
    invariant of the store: no sequence of [add_contact] and
    [remove_contact] calls on a store that satisfies it produces two rows
    with the same key, and none of them touches the users. *)
Theorem contact_keys_stay_unique (db : Database.t) (cs : list Store.change) :
  Store.unique_contacts db ->
  Store.unique_contacts (Store.run db cs)
  /\ Database.users (Store.run db cs) = Database.users db.
Proof.
  unfold Store.run. revert db. induction cs as [|c cs IH]; intros db Hdb;
    simpl; [by split|].
  destruct (apply_keeps_unique db c Hdb) as [Hu Husers].
  destruct (IH _ Hu) as [Hu' Husers']. split; [assumption|congruence].
Qed.

Lemma contact_keys_stay_unique_witness :
  Store.unique_contacts Scenario.db
  /\ Store.unique_contacts
       (Store.run Scenario.db
          [ Store.Add "a@x" "b@x" "b" "FL" 0; Store.Add "a@x" "b@x" "bee" "FL" 1;
            Store.Add "a@x" "b@x" "b" "AL" 2; Store.Remove "a@x" "b@x" "FL" ]).
Proof.
  assert (H : Store.unique_contacts Scenario.db) by constructor.
  split; [exact H|].
  exact (proj1 (contact_keys_stay_unique Scenario.db _ H)).
Defined.

Lemma filter_owner_app (owner : string) (l : list Database.contact)
    (c : Database.contact) :
  filter (fun x => Database.owner_email x = owner) (l ++ [c])
  = filter (fun x => Database.owner_email x = owner) l
    ++ (if decide (Database.owner_email c = owner) then [c] else []).
Proof.
  by rewrite filter_app.
Qed.

(** X5: what [get_user_contacts] returns after [add_contact] on a
    database whose write lock is free.  When the owner has no row for
    (peer, list), [True] is answered and the list of the owner has the
    new entry besides the old ones, at its place in the ascending order
    of peer and list in which the list is always returned.  When the
    row exists, [False] is answered, the list is as before and the
    database is left locked.  The lists of the other owners and the
    users never change. *)
Theorem contacts_after_add (db : Database.t) (owner peer nick lst : string)
    (now : Z) :
  let db' := fst (Database.add_contact db owner peer nick lst now) in
  let accepted := snd (Database.add_contact db owner peer nick lst now) in
  (accepted = negb (existsb (Database.same_key owner peer lst)
                            (Database.contacts db)))
  /\ Sorted (fun a b => Database.entry_leb a b = true)
            (Database.get_user_contacts db' owner)
  /\ Database.get_user_contacts db' owner
     ≡ₚ (if accepted then [Store.new_entry peer nick lst] else [])
        ++ Database.get_user_contacts db owner
  /\ (accepted = true -> Database.locked db' = Database.locked db)
  /\ (accepted = false ->
      Database.get_user_contacts db' owner
      = Database.get_user_contacts db owner
      /\ Database.contacts db' = Database.contacts db
      /\ Database.locked db' = true)
  /\ (forall other, other <> owner ->
        Database.get_user_contacts db' other
        = Database.get_user_contacts db other)
  /\ Database.users db' = Database.users db.
Proof.
  intros db' accepted.
  split; [|split; [apply get_user_contacts_spec|]].
  { subst accepted. unfold Database.add_contact.
    by destruct (existsb _ (Database.contacts db)). }
  subst db' accepted. unfold Database.add_contact, Database.get_user_contacts.
  destruct (existsb _ (Database.contacts db)) eqn:Hex; simpl.
  - split; [reflexivity|]. split; [discriminate|]. by repeat split.
  - split; [|split; [reflexivity|split; [discriminate|split; [|reflexivity]]]].
    + rewrite filter_owner_app. simpl. rewrite decide_True by reflexivity.
      rewrite index_order_app, index_insert_perm. reflexivity.
    + intros other Hne. rewrite filter_owner_app. simpl.
      rewrite decide_False by congruence. by rewrite app_nil_r.
Qed.

Lemma filter_filter_same {A : Type} (P : A -> Prop) `{forall x, Decision (P x)}
    (l : list A) :
  filter P (filter P l) = filter P l.
Proof.
  induction l as [|a l IH]; [reflexivity|].
  destruct (decide (P a)).
  - rewrite !filter_cons_True by assumption. by rewrite IH.
  - by rewrite filter_cons_False.
Qed.

(** X6: [remove_contact] deletes the rows of the key and no other row:
    a row of the result is a row that was there and has another key, in
    the same order; removing again changes nothing; the lists of the
    other owners are as before. *)
Theorem remove_contact_deletes_only_the_key (db : Database.t)
    (owner peer lst : string) :
  let db' := Database.remove_contact db owner peer lst in
  (forall c, c ∈ Database.contacts db' <->
             c ∈ Database.contacts db /\ Store.contact_key c <> (owner, peer, lst))
  /\ sublist (Database.contacts db') (Database.contacts db)
  /\ Database.remove_contact db' owner peer lst = db'
  /\ (forall other, other <> owner ->
        Database.get_user_contacts db' other
        = Database.get_user_contacts db other)
  /\ Database.users db' = Database.users db.
Proof.
  unfold Database.remove_contact. simpl. split; [|split; [|split; [|split]]].
  - intros c. rewrite list_elem_of_filter. split.
    + intros [Hk Hin]. split; [assumption|].
      intros Heq. apply same_key_contact_key in Heq. congruence.
    + intros [Hin Hk]. split; [|assumption].
      destruct (Database.same_key owner peer lst c) eqn:Hs; [|reflexivity].
      apply same_key_contact_key in Hs. contradiction.
  - apply sublist_filter.
  - by rewrite filter_filter_same.
  - intros other Hne. unfold Database.get_user_contacts. simpl. do 2 f_equal.
    induction (Database.contacts db) as [|a l IH]; [reflexivity|].
    destruct (decide (Database.same_key owner peer lst a = false)) as [Hk|Hk].
    + rewrite (filter_cons_True (fun c => Database.same_key owner peer lst c = false))
        by assumption.
      destruct (decide (Database.owner_email a = other)).
      * rewrite !filter_cons_True by assumption. by rewrite IH.
      * rewrite !filter_cons_False by assumption. assumption.
    + rewrite (filter_cons_False (fun c => Database.same_key owner peer lst c = false))
        by assumption.
      rewrite filter_cons_False; [assumption|].
      apply not_false_is_true in Hk. unfold Database.same_key in Hk.
      apply andb_true_iff in Hk as [Hk _]. apply andb_true_iff in Hk as [Hk _].
      apply String.eqb_eq in Hk. congruence.
  - reflexivity.
Qed.

(* ------------------------------------------------------------------ *)
(** ** The registry ([server/client_manager.py])                       *)
(* ------------------------------------------------------------------ *)

Section NatDict.
Context {V : Type}.
Implicit Types (d : list (nat * V)) (k : nat) (v : V).

Lemma keys_set_present d k v v0 :
  Py.get k d = Some v0 -> Py.keys (Py.set k v d) = Py.keys d.
Proof.
  unfold Py.keys. induction d as [|[k0 x] d IH]; simpl; [discriminate|].
  destruct (decide (k0 = k)) as [->|Hne]; simpl; [reflexivity|].
  intros H. by rewrite IH.
Qed.

Lemma get_none_not_in d k : Py.get k d = None <-> ~ In k (Py.keys d).
Proof.
  unfold Py.keys. induction d as [|[k0 x] d IH]; simpl; [tauto|].
  destruct (decide (k0 = k)) as [->|Hne].
  - split; [discriminate|]. intros H. exfalso. apply H. by left.
  - rewrite IH. split; [intros H [?|?]; [contradiction|tauto]|tauto].
Qed.

Lemma get_del_ne d k k' : k <> k' -> Py.get k' (Py.del k d) = Py.get k' d.
Proof.
  intros Hne. induction d as [|[k0 x] d IH]; simpl; [reflexivity|].
  destruct (decide (k0 = k)) as [->|Hne0]; simpl.
  - by rewrite decide_False.
  - destruct (decide (k0 = k')); [reflexivity|assumption].
Qed.

Lemma get_del_eq d k : NoDup (Py.keys d) -> Py.get k (Py.del k d) = None.
Proof.
  unfold Py.keys. induction d as [|[k0 x] d IH]; simpl; [reflexivity|].
  intros Hd. apply NoDup_cons in Hd as [Hk0 Hd].
  destruct (decide (k0 = k)) as [->|Hne]; simpl.
  - apply get_none_not_in. intros Hin. apply Hk0. by apply list_elem_of_In.
  - rewrite decide_False by assumption. by apply IH.
Qed.
End NatDict.

Lemma registry_init_ok : Registry.ids_ok ClientManager.init.
Proof. split; [constructor|]. intros c info []. Qed.

Lemma registry_apply_ok (m : ClientManager.t) (call : Registry.call) :
  Registry.ids_ok m -> (1 <= ClientManager.next_client_id m)%nat ->
  Registry.ids_ok (Registry.apply m call)
  /\ (ClientManager.next_client_id m
      <= ClientManager.next_client_id (Registry.apply m call))%nat.
Proof.
  intros [Hnodup Hids] Hnext. destruct call as [w e now|w|cid st now]; simpl.
  - split; [|lia]. split; simpl; [by apply nodup_keys_set|].
    intros c info Hin. apply in_set in Hin as [[-> ->]|Hin]; simpl.
    + split; [reflexivity|lia].
    + apply Hids in Hin as [? ?]. split; [assumption|lia].
  - unfold ClientManager.disconnect_client.
    repeat case_match; simpl; (split; [|lia]); try by split.
    split; simpl; [by apply nodup_keys_del|].
    intros k x Hin. apply in_del in Hin. by apply Hids.
  - unfold ClientManager.update_client_status.
    destruct (Py.get cid (ClientManager.clients m)) as [info0|] eqn:Hget;
      simpl; (split; [|lia]); [|by split].
    split; simpl; [by apply nodup_keys_set|].
    apply get_in in Hget. apply Hids in Hget as [Hid Hrange].
    intros c info Hin. apply in_set in Hin as [[-> ->]|Hin]; simpl.
    + by split.
    + by apply Hids.
Qed.

Lemma registry_run_ok (cs : list Registry.call) (m : ClientManager.t) :
  Registry.ids_ok m -> (1 <= ClientManager.next_client_id m)%nat ->
  Registry.ids_ok (Registry.run m cs)
  /\ (ClientManager.next_client_id m
      <= ClientManager.next_client_id (Registry.run m cs))%nat.
Proof.
  unfold Registry.run. revert m.
  induction cs as [|c cs IH]; intros m Hm Hn; simpl; [by split|].
  destruct (registry_apply_ok m c Hm Hn) as [Hm' Hn'].
  destruct (IH _ Hm') as [Hok Hle]; [lia|]. split; [assumption|lia].
Qed.

(** X7: in a registry built from the empty one by any sequence of
    [add_client], [disconnect_client] and [update_client_status] calls,
    the client ids are distinct, every client is stored under its own
    id, and every id is at least 1 (so that the truth tests on client ids
    never take a client for none) and below [next_client_id].  The
    counter never goes down, so that an id is never handed out twice:
    the id of a later [add_client] is greater than the id of an earlier
    one, whatever the calls in between, and than the id of every client
    registered at the time. *)
Theorem registry_ids_are_never_reused (cs1 cs2 : list Registry.call)
    (w1 w2 : nat) (e1 e2 : string) (now1 now2 : Z) :
  let m1 := Registry.run ClientManager.init cs1 in
  let id1 := fst (ClientManager.add_client m1 w1 e1 now1) in
  let m2 := Registry.run (snd (ClientManager.add_client m1 w1 e1 now1)) cs2 in
  let id2 := fst (ClientManager.add_client m2 w2 e2 now2) in
  Registry.ids_ok m1
  /\ Registry.ids_ok m2
  /\ (ClientManager.next_client_id m1 < ClientManager.next_client_id m2)%nat
  /\ (1 <= id1 < id2)%nat
  /\ (forall c info, In (c, info) (ClientManager.clients m2) -> (c < id2)%nat).
Proof.
  intros m1 id1 m2 id2.
  assert (H1 : Registry.ids_ok m1
               /\ (1 <= ClientManager.next_client_id m1)%nat).
  { destruct (registry_run_ok cs1 ClientManager.init registry_init_ok)
      as [Hok Hn]; [simpl; lia|]. split; [exact Hok|exact Hn]. }
  destruct H1 as [Hok1 Hn1].
  assert (H2 : Registry.ids_ok m2
               /\ (S (ClientManager.next_client_id m1)
                   <= ClientManager.next_client_id m2)%nat).
  { destruct (registry_apply_ok m1 (Registry.AddClient w1 e1 now1) Hok1)
      as [Hok1' _]; [lia|].
    destruct (registry_run_ok cs2 _ Hok1') as [Hok Hn]; [simpl; lia|].
    split; [exact Hok|exact Hn]. }
  destruct H2 as [Hok2 Hn2].
  assert (Hid1 : id1 = ClientManager.next_client_id m1) by reflexivity.
  assert (Hid2 : id2 = ClientManager.next_client_id m2) by reflexivity.
  split; [assumption|]. split; [assumption|]. split; [lia|].
  split; [lia|].
  intros c info Hin. apply Hok2 in Hin as [_ Hin]. lia.
Qed.

(** X8: a client added with [add_client] is found by its id; it is found
    by its email too, provided the id handed out is not 0, which
    [get_client_by_email] takes for no client; the client is online
    ([NLN]) and carries the writer and the email given.  The id is the
    value of [next_client_id], which goes up by one; the clients of the
    other ids are found as before. *)
Theorem added_client_is_found (m : ClientManager.t) (w : nat) (e : string)
    (now : Z) :
  let cid := fst (ClientManager.add_client m w e now) in
  let m' := snd (ClientManager.add_client m w e now) in
  let info := {| ClientManager.id := cid; ClientManager.email := e;
                 ClientManager.writer := w; ClientManager.status := "NLN";
                 ClientManager.connected_at := now;
                 ClientManager.last_activity := now |} in
  cid = ClientManager.next_client_id m
  /\ ClientManager.next_client_id m' = S (ClientManager.next_client_id m)
  /\ ClientManager.get_client_by_id m' cid = Some info
  /\ ClientManager.get_client_by_email m' e
     = (if Nat.eqb cid 0 then None else Some info)
  /\ (forall c, c <> cid ->
        ClientManager.get_client_by_id m' c = ClientManager.get_client_by_id m c).
Proof.
  unfold ClientManager.get_client_by_id, ClientManager.get_client_by_email.
  simpl. split; [reflexivity|]. split; [reflexivity|].
  split; [apply get_set_eq|]. split.
  - rewrite lookup_insert_eq. unfold Py.truthy_nat.
    destruct (Nat.eqb _ 0); simpl; [reflexivity|apply get_set_eq].
  - intros c Hc. apply get_set_ne. congruence.
Qed.

Lemma find_writer_in (w : nat) (d : list (nat * ClientManager.client_info))
    (cid : nat) :
  ClientManager.find_writer w d = Some cid ->
  exists info, In (cid, info) d /\ ClientManager.writer info = w.
Proof.
  induction d as [|[c info] d IH]; simpl; [discriminate|].
  destruct (decide (ClientManager.writer info = w)) as [Hw|Hw].
  - intros H. injection H as <-. exists info. split; [by left|assumption].
  - intros H. destruct (IH H) as (info' & Hin & Hw').
    exists info'. split; [by right|assumption].
Qed.

Lemma find_writer_none (w : nat) (d : list (nat * ClientManager.client_info)) :
  ClientManager.find_writer w d = None <->
  forall c info, In (c, info) d -> ClientManager.writer info <> w.
Proof.
  induction d as [|[c info] d IH]; simpl; [split; [intros _ ? ? []|reflexivity]|].
  destruct (decide (ClientManager.writer info = w)) as [Hw|Hw].
  - split; [discriminate|]. intros H. exfalso. apply (H c info); [by left|assumption].
  - rewrite IH. split.
    + intros H c' info' [Heq|Hin]; [injection Heq as <- <-; assumption|by apply (H c')].
    + intros H c' info' Hin. apply (H c'). by right.
Qed.

Lemma in_get {V : Type} (d : list (nat * V)) (k : nat) (v : V) :
  NoDup (Py.keys d) -> In (k, v) d -> Py.get k d = Some v.
Proof.
  unfold Py.keys. induction d as [|[k0 x] d IH]; simpl; [tauto|].
  intros Hd. apply NoDup_cons in Hd as [Hk0 Hd].
  intros [Heq|Hin].
  - injection Heq as -> ->. by rewrite decide_True.
  - destruct (decide (k0 = k)) as [->|Hne]; [|by apply IH].
    exfalso. apply Hk0. apply list_elem_of_In. apply in_map_iff.
    by exists (k, v).
Qed.

(** X9: [disconnect_client(writer)] on a registry whose ids are in order:
    with no client of that writer nothing changes; otherwise the first
    client of the writer is removed, it is no longer found by its id, no
    client is found under its email any more (also when another session
    of the same email is still registered), and the other clients are
    found by their ids as before. *)
Theorem disconnect_removes_the_client_of_the_writer (m : ClientManager.t)
    (w : nat) :
  Registry.ids_ok m ->
  let m' := ClientManager.disconnect_client m w in
  ((forall c info, In (c, info) (ClientManager.clients m) ->
                   ClientManager.writer info <> w) -> m' = m)
  /\ (forall cid,
        ClientManager.find_writer w (ClientManager.clients m) = Some cid ->
        ClientManager.get_client_by_id m' cid = None
        /\ (forall c, c <> cid ->
              ClientManager.get_client_by_id m' c
              = ClientManager.get_client_by_id m c)
        /\ exists info,
             ClientManager.get_client_by_id m cid = Some info
             /\ ClientManager.writer info = w
             /\ ClientManager.get_client_by_email m' (ClientManager.email info)
                = None)
  /\ ClientManager.next_client_id m' = ClientManager.next_client_id m.
Proof.
  intros [Hnodup Hids] m'. subst m'.
  unfold ClientManager.disconnect_client, ClientManager.get_client_by_id,
    ClientManager.get_client_by_email.
  split; [|split].
  - intros Hnone. apply find_writer_none in Hnone. by rewrite Hnone.
  - intros cid Hfind. rewrite Hfind.
    destruct (find_writer_in w _ cid Hfind) as (info & Hin & Hw).
    pose proof (Hids cid info Hin) as [_ Hrange].
    rewrite (in_get _ _ _ Hnodup Hin).
    unfold Py.truthy_nat. destruct (Nat.eqb_spec cid 0) as [?|_]; [lia|].
    simpl. split; [by apply get_del_eq|]. split.
    + intros c Hc. apply get_del_ne. congruence.
    + exists info. split; [reflexivity|]. split; [assumption|].
      by rewrite lookup_delete_eq.
  - repeat case_match; reflexivity.
Qed.

Lemma disconnect_removes_the_client_of_the_writer_witness :
  Registry.ids_ok Registry.two_sessions
  /\ ClientManager.find_writer 1 (ClientManager.clients Registry.two_sessions)
     = Some 1%nat
  /\ ClientManager.get_client_by_id
       (ClientManager.disconnect_client Registry.two_sessions 1) 1 = None
  /\ ClientManager.get_client_by_id
       (ClientManager.disconnect_client Registry.two_sessions 1) 2
     = ClientManager.get_client_by_id Registry.two_sessions 2.
Proof.
  assert (Hok : Registry.ids_ok Registry.two_sessions).
  { split.
    - change (NoDup [1%nat; 2%nat]). apply NoDup_cons. split; [|apply NoDup_singleton].
      intros Hin. apply list_elem_of_singleton in Hin. discriminate.
    - intros c info Hin. vm_compute in Hin.
      destruct Hin as [Hin|[Hin|[]]]; injection Hin as ? ?; subst;
        simpl; lia. }
  split; [exact Hok|]. split; [reflexivity|].
  destruct (disconnect_removes_the_client_of_the_writer
              Registry.two_sessions 1 Hok) as (_ & Hfound & _).
  destruct (Hfound 1%nat eq_refl) as (Hgone & Hothers & _).
  split; [exact Hgone|]. apply Hothers. discriminate.
Defined.

(** X10: [update_client_status] changes the status (and the activity
    time) of the client of that id and nothing else: the ids and their
    order, the email index and the counter are kept, the other clients
    are found unchanged; for an id that is not registered nothing
    changes. *)
Theorem update_status_changes_one_client (m : ClientManager.t) (cid : nat)
    (st : string) (now : Z) :
  let m' := ClientManager.update_client_status m cid st now in
  Py.keys (ClientManager.clients m') = Py.keys (ClientManager.clients m)
  /\ ClientManager.email_to_client m' = ClientManager.email_to_client m
  /\ ClientManager.next_client_id m' = ClientManager.next_client_id m
  /\ ClientManager.get_client_by_id m' cid
     = (fun info => Registry.with_status info st now)
         <$> ClientManager.get_client_by_id m cid
  /\ (forall c, c <> cid ->
        ClientManager.get_client_by_id m' c = ClientManager.get_client_by_id m c)
  /\ (ClientManager.get_client_by_id m cid = None -> m' = m).
Proof.
  unfold ClientManager.update_client_status, ClientManager.get_client_by_id.
  destruct (Py.get cid (ClientManager.clients m)) as [info|] eqn:Hget; simpl.
  - split; [by apply (keys_set_present _ _ _ info)|].
    split; [reflexivity|]. split; [reflexivity|].
    split; [apply get_set_eq|]. split; [|discriminate].
    intros c Hc. apply get_set_ne. congruence.
  - rewrite Hget. repeat split; auto.
Qed.

(* ------------------------------------------------------------------ *)
(** ** The sessions of the asyncio server                              *)
(* ------------------------------------------------------------------ *)

Section Sessions.
Variable router : ClientManager.t -> option string -> string -> list event.

Lemma step_keeps_distinct (srv : AsyncServer.t) (a : AsyncServer.action) :
  AsyncServer.ids_below_next srv ->
  Session.distinct_holders srv ->
  Session.distinct_holders (fst (AsyncServer.step router srv a)).
Proof.
  intros [Hentries Hheld] Hdist. destruct a as [w|w data e|w].
  - simpl. destruct (AsyncServer.handlers srv !! w) eqn:Hw; simpl;
      [assumption|].
    intros w1 w2 h1 h2 c H1 H2 Hc1 Hc2. simpl in H1, H2.
    destruct (decide (w = w1)) as [<-|Hne1].
    { rewrite lookup_insert_eq in H1. injection H1 as <-. discriminate. }
    destruct (decide (w = w2)) as [<-|Hne2].
    { rewrite lookup_insert_eq in H2. injection H2 as <-. discriminate. }
    rewrite lookup_insert_ne in H1, H2 by assumption.
    by apply (Hdist w1 w2 h1 h2 c).
  - destruct (AsyncServer.handlers srv !! w) as [h|] eqn:Hw;
      [|simpl; rewrite Hw; assumption].
    pose proof (handle_line_registry_effect router e w h
                  (AsyncServer.shared srv) data) as Heff.
    apply registry_effect_entries in Heff as (_ & _ & Hid).
    assert (Hown : forall w' h' c,
               AsyncServer.handlers srv !! w' = Some h' ->
               Handler.client_id h' = Some c ->
               Handler.client_id
                 (Handler.handler
                    (Handler.handle_line router e w h (AsyncServer.shared srv)
                       data)) = Some c ->
               w' = w).
    { intros w' h' c Hh' Hc' Hc.
      destruct (Hid c Hc) as [Hold|[-> _]].
      - by apply (Hdist w' w h' h c).
      - specialize (Hheld w' h' _ Hh' Hc').
        unfold AsyncServer.manager in Hheld. lia. }
    destruct (step_line router srv w data e h Hw)
      as [(_ & _ & Hhs)|(_ & _ & Hhs)];
      intros w1 w2 h1 h2 c H1 H2 Hc1 Hc2; rewrite Hhs in H1, H2.
    + destruct (decide (w = w1)) as [<-|Hne1];
        destruct (decide (w = w2)) as [<-|Hne2]; [reflexivity| | |].
      * rewrite lookup_insert_eq in H1. injection H1 as <-.
        rewrite lookup_insert_ne in H2 by assumption.
        symmetry. by apply (Hown w2 h2 c).
      * rewrite lookup_insert_eq in H2. injection H2 as <-.
        rewrite lookup_insert_ne in H1 by assumption.
        by apply (Hown w1 h1 c).
      * rewrite lookup_insert_ne in H1, H2 by assumption.
        by apply (Hdist w1 w2 h1 h2 c).
    + apply lookup_delete_Some in H1 as [_ H1].
      apply lookup_delete_Some in H2 as [_ H2].
      by apply (Hdist w1 w2 h1 h2 c).
  - simpl. destruct (AsyncServer.handlers srv !! w) eqn:Hw; simpl;
      [|assumption].
    intros w1 w2 h1 h2 c H1 H2 Hc1 Hc2. simpl in H1, H2.
    apply lookup_delete_Some in H1 as [_ H1].
    apply lookup_delete_Some in H2 as [_ H2].
    by apply (Hdist w1 w2 h1 h2 c).
Qed.

Lemma run_keeps_distinct (acts : list AsyncServer.action) (srv : AsyncServer.t) :
  AsyncServer.ids_below_next srv ->
  Session.distinct_holders srv ->
  AsyncServer.ids_below_next (fst (AsyncServer.run router srv acts))
  /\ Session.distinct_holders (fst (AsyncServer.run router srv acts)).
Proof.
  revert srv. induction acts as [|a acts IH]; intros srv Hids Hdist;
    [by split|].
  simpl. pose proof (step_keeps_ids router srv a Hids) as Hids'.
  pose proof (step_keeps_distinct srv a Hids Hdist) as Hdist'.
  destruct (AsyncServer.step router srv a) as [srv' evs].
  specialize (IH srv' Hids' Hdist').
  destruct (AsyncServer.run router srv' acts) as [srv'' evs']. exact IH.
Qed.

End Sessions.

(** X11: whatever the connections of the asyncio server send, and
    whatever the router writes, no two connections hold the same client
    id, and every client id in the registry or held by a handler is below
    [next_client_id]: the status update of a [CHG] line goes to a client
    of the connection that sent it. *)
Theorem connections_hold_distinct_clients
    (router : ClientManager.t -> option string -> string -> list event)
    (db : Database.t) (acts : list AsyncServer.action) :
  let srv := fst (AsyncServer.run router (AsyncServer.init db) acts) in
  Session.distinct_holders srv /\ AsyncServer.ids_below_next srv.
Proof.
  destruct (run_keeps_distinct router acts (AsyncServer.init db)
              (init_ids_below_next db)) as [Hids Hdist]; [|by split].
  intros w1 w2 h1 h2 c H1. simpl in H1. by rewrite lookup_empty in H1.
Qed.

Ltac own_writes :=
  repeat (constructor; [eexists; reflexivity|]); constructor.

Lemma lst_lines_own (w : nat) (l : list Database.contact_entry) :
  Forall (Session.writes_to w)
         (flat_map (fun c => Handler.send_response w (Handler.lst_line c)) l).
Proof.
  induction l as [|c l IH]; simpl; [constructor|].
  constructor; [eexists; reflexivity|assumption].
Qed.

(** X12: what an ASCII line of a connection makes the asyncio server
    write.  A [CHG] line of an authenticated session that names a status
    first has the router write what it writes for the new status, and
    then answers [CHG t status 0] on the connection of the line.  Every
    other line writes to its own connection only.  A line that raises
    writes nothing, and the server then closes the connection of the
    line; nothing else is closed. *)
Theorem session_writes_to_its_own_connection
    (router : ClientManager.t -> option string -> string -> list event)
    (srv : AsyncServer.t) (e : Handler.env) (w : nat) (h : Handler.t)
    (data : string) :
  Py.is_ascii data = true ->
  AsyncServer.handlers srv !! w = Some h ->
  let r := Handler.handle_line router e w h (AsyncServer.shared srv) data in
  let parts := Py.split_space (Py.strip data) in
  snd (AsyncServer.step router srv (AsyncServer.Line w data e))
  = Handler.out r ++ (if Handler.raised r then [Close w] else [])
  /\ (Handler.raised r = true -> Handler.out r = [])
  /\ (Session.changes_status h data = true ->
      Handler.raised r = false
      /\ Handler.out r
         = router (Handler.client_manager (Handler.world r)) (Handler.email h)
                  (nth 2 parts ""%string)
           ++ [Send w ("CHG " +:+ nth 1 parts "0"%string +:+ " "
                       +:+ nth 2 parts ""%string +:+ " 0" +:+ Py.CRLF)])
  /\ (Session.changes_status h data = false ->
      Forall (Session.writes_to w) (Handler.out r)).
Proof.
  intros _ Hh r parts. split.
  { cbn [AsyncServer.step]. rewrite Hh. fold r.
    destruct (Handler.raised r); [|by rewrite app_nil_r].
    unfold AsyncServer.close, Handler.close_connection. reflexivity. }
  subst r. unfold Session.changes_status. fold parts.
  unfold Handler.handle_line.
  assert (Hshort : (List.length parts <? 2)%nat = true ->
                   (3 <=? List.length parts)%nat = false).
  { intros H. apply Nat.ltb_lt in H. apply Nat.leb_gt. lia. }
  destruct (negb (Py.truthy_str (Py.strip data))) eqn:Hempty.
  { assert (Hparts : parts = [""%string]).
    { subst parts. apply negb_true_iff in Hempty. unfold Py.truthy_str in Hempty.
      apply negb_false_iff, String.eqb_eq in Hempty. by rewrite Hempty. }
    rewrite Hparts. cbn. split; [discriminate|]. split; [discriminate|].
    intros _. constructor. }
  unfold Handler.process_command. fold parts.
  destruct (List.length parts <? 2)%nat eqn:Hlen.
  { rewrite (Hshort eq_refl), andb_false_r. cbn.
    split; [discriminate|]. split; [discriminate|]. intros _. constructor. }
  set (command := nth 0 parts ""%string).
  set (tid := nth 1 parts "0"%string).
  destruct (String.eqb command "CHG") eqn:Hchg.
  { apply String.eqb_eq in Hchg. rewrite Hchg. cbn [String.eqb Ascii.eqb Bool.eqb].
    cbn [andb]. unfold Handler.handle_chg, Handler.send_error.
    destruct (Handler.authenticated h); cbn [negb andb].
    - destruct (3 <=? List.length parts)%nat; cbn.
      + split; [discriminate|]. split; [|discriminate]. by intros _.
      + split; [discriminate|]. split; [discriminate|]. intros _. constructor.
    - cbn. split; [discriminate|]. split; [discriminate|]. intros _.
      own_writes. }
  rewrite !andb_false_l.
  assert (Hcase : forall r : Handler.step,
             (Handler.raised r = true -> Handler.out r = [])
             /\ Forall (Session.writes_to w) (Handler.out r) ->
             (Handler.raised r = true -> Handler.out r = [])
             /\ (false = true ->
                 Handler.raised r = false
                 /\ Handler.out r
                    = router (Handler.client_manager (Handler.world r))
                             (Handler.email h) (nth 2 parts ""%string)
                      ++ [Send w ("CHG " +:+ tid +:+ " "
                                  +:+ nth 2 parts ""%string +:+ " 0"
                                  +:+ Py.CRLF)])
             /\ (false = false -> Forall (Session.writes_to w) (Handler.out r))).
  { intros r [H1 H2]. split; [exact H1|]. split; [discriminate|by intros _]. }
  apply Hcase.
  destruct (String.eqb command "VER");
    [cbn; split; [discriminate|own_writes]|].
  destruct (String.eqb command "CVR");
    [cbn; split; [discriminate|own_writes]|].
  destruct (String.eqb command "USR").
  { unfold Handler.handle_usr, Handler.send_error.
    repeat case_match; cbn; (split; [discriminate|own_writes]). }
  destruct (String.eqb command "SYN").
  { unfold Handler.handle_syn, Handler.send_error.
    case_match; cbn [Handler.raised Handler.out];
      (split; [discriminate|]); [own_writes|].
    apply Forall_app. split; [apply lst_lines_own|own_writes]. }
  destruct (String.eqb command "MSG").
  { unfold Handler.handle_msg, Handler.send_error.
    repeat case_match; cbn;
      (split; [first [discriminate|reflexivity]|own_writes]). }
  destruct (String.eqb command "ADD").
  { unfold Handler.handle_add.
    repeat case_match; cbn;
      (split; [first [discriminate|reflexivity]|own_writes]). }
  destruct (String.eqb command "REM").
  { unfold Handler.handle_rem.
    repeat case_match; cbn;
      (split; [first [discriminate|reflexivity]|own_writes]). }
  destruct (String.eqb command "LST").
  { cbn [Handler.handle_lst Handler.raised Handler.out].
    split; [discriminate|apply lst_lines_own]. }
  destruct (String.eqb command "CAL").
  { unfold Handler.handle_cal.
    case_match; cbn; (split; [discriminate|own_writes]). }
  destruct (String.eqb command "ANS");
    [cbn; split; [discriminate|own_writes]|].
  destruct (String.eqb command "OUT");
    [cbn; split; [discriminate|own_writes]|].
  destruct (String.eqb command "PNG");
    [cbn; split; [discriminate|own_writes]|].
  destruct (String.eqb command "QNG");
    cbn; (split; [discriminate|own_writes]).
Qed.

Lemma session_writes_to_its_own_connection_witness :
  let srv := fst (AsyncServer.run Scenario.router
                    (AsyncServer.init Scenario.db)
                    (Scenario.async_before
                     ++ [AsyncServer.Line 1 (Scenario.line "USR 4 S dummy_hash")
                                          Scenario.env0])) in
  let data := Scenario.line "CHG 5 BSY 0" in
  Py.is_ascii data = true
  /\ (Handler.authenticated <$> AsyncServer.handlers srv !! 1%nat) = Some true
  /\ snd (AsyncServer.step Scenario.router srv
            (AsyncServer.Line 1 data Scenario.env0))
     = Scenario.router
         (ClientManager.update_client_status (AsyncServer.manager srv) 1
            "BSY" 0)
         (Some "a@x"%string) "BSY"
       ++ [Send 1 (Scenario.line "CHG 5 BSY 0")].
Proof.
  intros srv data.
  split; [reflexivity|]. split; [vm_compute; reflexivity|].
  destruct (session_writes_to_its_own_connection Scenario.router srv
              Scenario.env0 1%nat Scenario.handler_a data eq_refl)
    as (Hstep & _ & Hchg & _); [vm_compute; reflexivity|].
  destruct (Hchg eq_refl) as [Hraised Hout].
  rewrite Hstep, Hraised, Hout, app_nil_r. reflexivity.
Defined.

(** X13: a session never loses what it has: once authenticated it stays
    authenticated after any line (also after [OUT], which only removes
    it from the registry), and an email or a client id once set stays
    set. *)
Theorem session_stays_authenticated
    (router : ClientManager.t -> option string -> string -> list event)
    (e : Handler.env) (w : nat) (h : Handler.t) (s : Handler.shared)
    (data : string) :
  let h' := Handler.handler (Handler.handle_line router e w h s data) in
  (Handler.authenticated h = true -> Handler.authenticated h' = true)
  /\ (is_Some (Handler.email h) -> is_Some (Handler.email h'))
  /\ (is_Some (Handler.client_id h) -> is_Some (Handler.client_id h')).
Proof.
  unfold Handler.handle_line.
  destruct (negb (Py.truthy_str (Py.strip data))); [simpl; auto|].
  unfold Handler.process_command.
  generalize (Py.split_space (Py.strip data)). intros parts.
  destruct (List.length parts <? 2)%nat; [simpl; auto|].
  set (command := nth 0 parts ""%string).
  set (tid := nth 1 parts "0"%string).
  destruct (String.eqb command "VER"); [simpl; auto|].
  destruct (String.eqb command "CVR"); [simpl; auto|].
  destruct (String.eqb command "USR").
  { unfold Handler.handle_usr. repeat case_match; simpl; auto;
      repeat split; eauto; congruence. }
  destruct (String.eqb command "SYN").
  { unfold Handler.handle_syn. case_match; simpl; auto. }
  destruct (String.eqb command "CHG").
  { unfold Handler.handle_chg. repeat case_match; simpl; auto.
    repeat split; auto. intros [x Hx]. discriminate. }
  destruct (String.eqb command "MSG").
  { unfold Handler.handle_msg. repeat case_match; simpl; auto. }
  destruct (String.eqb command "ADD").
  { unfold Handler.handle_add. case_match; [|simpl; auto].
    destruct (Database.available _ _); simpl; auto. }
  destruct (String.eqb command "REM").
  { unfold Handler.handle_rem. case_match; [|simpl; auto].
    destruct (Database.available _ _); simpl; auto. }
  destruct (String.eqb command "LST"); [simpl; auto|].
  destruct (String.eqb command "CAL").
  { unfold Handler.handle_cal. case_match; simpl; auto. }
  destruct (String.eqb command "ANS"); [simpl; auto|].
  destruct (String.eqb command "OUT"); [simpl; auto|].
  destruct (String.eqb command "PNG"); [simpl; auto|].
  destruct (String.eqb command "QNG"); simpl; auto.
Qed.

(** X14: for an ASCII line: the users of the store are read only, no
    line changes them; the store changes on [ADD] and [REM] lines only;
    a line that raises leaves the rows as they were; and a line keeps
    the uniqueness of (owner, peer, list) in the contact table. *)
Theorem session_changes_contacts_only
    (router : ClientManager.t -> option string -> string -> list event)
    (e : Handler.env) (w : nat) (h : Handler.t) (s : Handler.shared)
    (data : string) :
  Py.is_ascii data = true ->
  let r := Handler.handle_line router e w h s data in
  let db := Handler.db_manager s in
  let db' := Handler.db_manager (Handler.world r) in
  Database.users db' = Database.users db
  /\ (AsyncServer.command_of data <> "ADD"%string ->
      AsyncServer.command_of data <> "REM"%string -> db' = db)
  /\ (Handler.raised r = true ->
      Database.contacts db' = Database.contacts db)
  /\ (Store.unique_contacts db -> Store.unique_contacts db').
Proof.
  intros _. unfold Handler.handle_line, AsyncServer.command_of.
  destruct (negb (Py.truthy_str (Py.strip data))); [simpl; auto|].
  unfold Handler.process_command.
  generalize (Py.split_space (Py.strip data)). intros parts.
  destruct (List.length parts <? 2)%nat; [simpl; auto|].
  set (command := nth 0 parts ""%string).
  set (tid := nth 1 parts "0"%string).
  destruct (String.eqb command "VER"); [simpl; auto|].
  destruct (String.eqb command "CVR"); [simpl; auto|].
  destruct (String.eqb command "USR").
  { unfold Handler.handle_usr. repeat case_match; simpl; auto. }
  destruct (String.eqb command "SYN").
  { unfold Handler.handle_syn. case_match; simpl; auto. }
  destruct (String.eqb command "CHG").
  { unfold Handler.handle_chg. repeat case_match; simpl; auto. }
  destruct (String.eqb command "MSG").
  { unfold Handler.handle_msg. repeat case_match; simpl; auto. }
  destruct (String.eqb command "ADD") eqn:Hadd.
  { apply String.eqb_eq in Hadd. unfold Handler.handle_add.
    case_match; [|simpl; auto].
    pose proof (available_spec (Handler.collected e) (Handler.db_manager s))
      as Hfree.
    destruct (Database.available _ _) as [free|]; [|simpl; auto].
    destruct Hfree as (_ & Husers & Hcontacts & _).
    cbn [Handler.world Handler.db_manager Handler.set_db Handler.raised].
    split; [|split; [congruence|split; [discriminate|]]].
    - destruct (Handler.email h); [rewrite add_contact_keeps_users|];
        simpl; assumption.
    - intros Hu.
      assert (Hfree : Store.unique_contacts free)
        by (unfold Store.unique_contacts; by rewrite Hcontacts).
      destruct (Handler.email h); [|exact Hfree].
      by apply (apply_keeps_unique _ (Store.Add _ _ _ _ _)). }
  destruct (String.eqb command "REM") eqn:Hrem.
  { apply String.eqb_eq in Hrem. unfold Handler.handle_rem.
    case_match; [|simpl; auto].
    pose proof (available_spec (Handler.collected e) (Handler.db_manager s))
      as Hfree.
    destruct (Database.available _ _) as [free|]; [|simpl; auto].
    destruct Hfree as (_ & Husers & Hcontacts & _).
    cbn [Handler.world Handler.db_manager Handler.set_db Handler.raised].
    split; [|split; [congruence|split; [discriminate|]]].
    - destruct (Handler.email h); simpl; assumption.
    - intros Hu.
      assert (Hfree : Store.unique_contacts free)
        by (unfold Store.unique_contacts; by rewrite Hcontacts).
      destruct (Handler.email h); [|exact Hfree].
      by apply (apply_keeps_unique _ (Store.Remove _ _ _)). }
  destruct (String.eqb command "LST"); [simpl; auto|].
  destruct (String.eqb command "CAL").
  { unfold Handler.handle_cal. case_match; simpl; auto. }
  destruct (String.eqb command "ANS"); [simpl; auto|].
  destruct (String.eqb command "OUT"); [simpl; auto|].
  destruct (String.eqb command "PNG"); [simpl; auto|].
  destruct (String.eqb command "QNG"); simpl; auto.
Qed.

Lemma session_changes_contacts_only_witness :
  let data := Scenario.line "ADD 8 FL b@x b" in
  let r := Handler.handle_line Scenario.router Scenario.env0 1
             Scenario.handler_a Scenario.shared0 data in
  Py.is_ascii data = true
  /\ Store.unique_contacts Scenario.db
  /\ List.length (Database.contacts (Handler.db_manager (Handler.world r)))
     = 1%nat
  /\ Database.users (Handler.db_manager (Handler.world r))
     = Database.users Scenario.db
  /\ Store.unique_contacts (Handler.db_manager (Handler.world r)).
Proof.
  intros data r.
  assert (Hu : Store.unique_contacts Scenario.db) by constructor.
  destruct (session_changes_contacts_only Scenario.router Scenario.env0 1%nat
              Scenario.handler_a Scenario.shared0 data eq_refl)
    as (Husers & _ & _ & Hunique).
  split; [reflexivity|]. split; [exact Hu|]. split; [reflexivity|].
  split; [exact Husers|exact (Hunique Hu)].
Defined.

Lemma lstrip_blank (s : string) : Session.blank s = true -> Py.lstrip s = ""%string.
Proof.
  induction s as [|c s IH]; simpl; [reflexivity|].
  intros H. apply andb_true_iff in H as [-> H]. by apply IH.
Qed.

(** X15: the ASCII lines a session ignores: a line of whitespace only, a
    line of one word (no transaction id), and a line whose first word is
    not one of the fourteen command words, in capitals, leave the handler
    and the shared state as they are and write nothing. *)
Theorem session_ignores_line
    (router : ClientManager.t -> option string -> string -> list event)
    (e : Handler.env) (w : nat) (h : Handler.t) (s : Handler.shared)
    (data : string) :
  Py.is_ascii data = true ->
  Session.blank data = true
  \/ (List.length (Py.split_space (Py.strip data)) < 2)%nat
  \/ ~ In (AsyncServer.command_of data) Session.commands ->
  Handler.handle_line router e w h s data = Handler.Step h s [] false.
Proof.
  unfold Handler.handle_line, AsyncServer.command_of.
  intros _ [Hblank|[Hshort|Hunknown]].
  - unfold Py.strip. by rewrite (lstrip_blank data Hblank).
  - destruct (negb (Py.truthy_str (Py.strip data))); [reflexivity|].
    unfold Handler.process_command.
    destruct (Nat.ltb_spec (List.length (Py.split_space (Py.strip data))) 2);
      [reflexivity|lia].
  - destruct (negb (Py.truthy_str (Py.strip data))); [reflexivity|].
    unfold Handler.process_command.
    destruct (List.length (Py.split_space (Py.strip data)) <? 2)%nat;
      [reflexivity|].
    set (command := nth 0 (Py.split_space (Py.strip data)) ""%string) in *.
    repeat match goal with
           | |- context [String.eqb command ?k] =>
               destruct (String.eqb_spec command k) as [Heq|_];
               [exfalso; apply Hunknown; rewrite Heq; simpl; tauto|]
           end.
    reflexivity.
Qed.

Lemma session_ignores_line_witness :
  Py.is_ascii Py.CRLF = true
  /\ Session.blank Py.CRLF = true
  /\ Handler.handle_line Scenario.router Scenario.env0 1 Scenario.handler_a
       Scenario.shared0 Py.CRLF
     = Handler.Step Scenario.handler_a Scenario.shared0 [] false
  /\ Py.is_ascii (Scenario.line "ver 1 MSNP8") = true
  /\ ~ In (AsyncServer.command_of (Scenario.line "ver 1 MSNP8")) Session.commands
  /\ Handler.handle_line Scenario.router Scenario.env0 1 Scenario.handler_a
       Scenario.shared0 (Scenario.line "ver 1 MSNP8")
     = Handler.Step Scenario.handler_a Scenario.shared0 [] false.
Proof.
  assert (Hn : ~ In (AsyncServer.command_of (Scenario.line "ver 1 MSNP8"))
                    Session.commands).
  { vm_compute. intros H.
    repeat (destruct H as [H|H]; [discriminate|]). exact H. }
  split; [reflexivity|]. split; [reflexivity|]. split.
  - apply session_ignores_line; [reflexivity|]. left. reflexivity.
  - split; [reflexivity|]. split; [exact Hn|].
    apply session_ignores_line; [reflexivity|]. right. right. exact Hn.
Defined.

(** X16: an ASCII [MSG] line whose length field is not an integer ends
    the connection of an authenticated session: nothing is answered, the
    client of the connection is taken out of the registry, the writer is
    closed, and the lines that follow are not read. *)
Theorem bad_msg_length_ends_connection
    (router : ClientManager.t -> option string -> string -> list event)
    (e : Handler.env) (w : nat) (h : Handler.t) (s : Handler.shared)
    (data tid kind len : string) (more : list string)
    (rest : list (string * Handler.env)) :
  Py.is_ascii data = true ->
  Handler.authenticated h = true ->
  Py.split_space (Py.strip data) = "MSG"%string :: tid :: kind :: len :: more ->
  Py.int len = None ->
  Handler.handle_connection router w h s ((data, e) :: rest)
  = (h,
     Handler.set_manager s
       (ClientManager.disconnect_client (Handler.client_manager s) w),
     [Close w]).
Proof.
  intros _ Hauth Hparts Hint. cbn [Handler.handle_connection].
  assert (Hr : Handler.handle_line router e w h s data
               = Handler.Step h s [] true).
  { unfold Handler.handle_line.
    destruct (Py.strip data) as [|c m] eqn:Hstrip; [discriminate|].
    cbn [Py.truthy_str String.eqb negb]. unfold Handler.process_command.
    rewrite Hparts. cbn [List.length Nat.ltb Nat.leb nth].
    cbn [String.eqb Ascii.eqb Bool.eqb]. cbv iota.
    unfold Handler.handle_msg. rewrite Hauth. cbn [negb].
    cbn [List.length Nat.leb nth]. by rewrite Hint. }
  rewrite Hr. reflexivity.
Qed.

Lemma bad_msg_length_ends_connection_witness :
  Py.is_ascii (Scenario.line "MSG 6 U abc") = true
  /\ Handler.authenticated Scenario.handler_a = true
  /\ Py.split_space (Py.strip (Scenario.line "MSG 6 U abc"))
     = ["MSG"; "6"; "U"; "abc"]%string
  /\ Py.int "abc" = None
  /\ Handler.handle_connection Scenario.router 1 Scenario.handler_a
       Scenario.shared0
       [ (Scenario.line "MSG 6 U abc", Scenario.env0);
         (Scenario.line "PNG 7", Scenario.env0) ]
     = (Scenario.handler_a,
        Handler.set_manager Scenario.shared0
          (ClientManager.disconnect_client
             (Handler.client_manager Scenario.shared0) 1),
        [Close 1]).
Proof.
  split; [reflexivity|]. split; [reflexivity|]. split; [reflexivity|].
  split; [reflexivity|].
  exact (bad_msg_length_ends_connection Scenario.router Scenario.env0 1
           Scenario.handler_a Scenario.shared0 (Scenario.line "MSG 6 U abc")
           "6" "U" "abc" [] [(Scenario.line "PNG 7", Scenario.env0)]
           eq_refl eq_refl eq_refl eq_refl).
Defined.

(* ------------------------------------------------------------------ *)
(** ** The threaded server ([msn_messenger_server.py])                 *)
(* ------------------------------------------------------------------ *)

Lemma legacy_usr_phase1 (ch : string) (srv : Legacy.t) (ci : Legacy.client_info)
    (cmd tid name : string) :
  Legacy.handle_usr_command ch srv ci [cmd; tid; "MD5"%string; name]
  = Legacy.Step srv
      {| Legacy.socket := Legacy.socket ci; Legacy.id := Legacy.id ci;
         Legacy.authenticated := Legacy.authenticated ci;
         Legacy.email := Legacy.email ci;
         Legacy.transaction_id := Legacy.transaction_id ci;
         Legacy.version := Legacy.version ci; Legacy.status := Legacy.status ci;
         Legacy.challenge := Some ch; Legacy.username := Some name |}
      [Send (Legacy.socket ci) ("USR " +:+ tid +:+ " MD5 S " +:+ ch +:+ Py.CRLF)]
      false.
Proof. reflexivity. Qed.

Lemma legacy_usr_match (ch : string) (srv : Legacy.t) (ci : Legacy.client_info)
    (cmd tid name client_hash : string) :
  Legacy.authenticate_user (Legacy.db srv) name client_hash
    (default ""%string (Legacy.challenge ci)) = true ->
  Legacy.handle_usr_command ch srv ci [cmd; tid; "MD5"%string; name; client_hash]
  = Legacy.Step srv
      {| Legacy.socket := Legacy.socket ci; Legacy.id := Legacy.id ci;
         Legacy.authenticated := true; Legacy.email := Some name;
         Legacy.transaction_id := Legacy.transaction_id ci;
         Legacy.version := Legacy.version ci; Legacy.status := "NLN";
         Legacy.challenge := Legacy.challenge ci;
         Legacy.username := Legacy.username ci |}
      [ Send (Legacy.socket ci)
             ("USR " +:+ tid +:+ " OK " +:+ name +:+ " "
              +:+ Legacy.get_display_name (Legacy.db srv) name +:+ Py.CRLF);
        Send (Legacy.socket ci)
             ("NLN NLN " +:+ name +:+ " "
              +:+ Legacy.get_display_name (Legacy.db srv) name +:+ Py.CRLF) ]
      false.
Proof.
  intros H. unfold Legacy.handle_usr_command.
  change (List.length [cmd; tid; "MD5"%string; name; client_hash] <? 4)%nat
    with false.
  cbn [nth]. cbv iota.
  change (String.eqb "MD5" "MD5") with true.
  change (List.length [cmd; tid; "MD5"%string; name; client_hash] =? 4)%nat
    with false.
  change (List.length [cmd; tid; "MD5"%string; name; client_hash] =? 5)%nat
    with true.
  cbn [andb]. rewrite H. reflexivity.
Qed.

(** X17: the challenge and the response compose: after phase 1 of [USR]
    for a user of the store, phase 2 with MD5(MD5(password) + challenge),
    in letters of any case, logs the client in: it is authenticated
    under the name, its status is [NLN], and it is sent [USR t OK] and
    then its own presence line. *)
Theorem legacy_challenge_then_response_logs_in
    (ch ch' : string) (srv : Legacy.t) (ci : Legacy.client_info)
    (c1 t1 c2 t2 name client_hash : string) (u : Legacy.user) :
  Legacy.find_user (Legacy.db srv) name = Some u ->
  Py.lower client_hash
  = Py.lower (MD5.hexdigest (MD5.hexdigest (Legacy.user_password u) +:+ ch)) ->
  let r1 := Legacy.handle_usr_command ch srv ci [c1; t1; "MD5"%string; name] in
  let r2 := Legacy.handle_usr_command ch' (Legacy.server r1) (Legacy.client r1)
              [c2; t2; "MD5"%string; name; client_hash] in
  let display := Legacy.get_display_name (Legacy.db srv) name in
  Legacy.out r1
  = [Send (Legacy.socket ci) ("USR " +:+ t1 +:+ " MD5 S " +:+ ch +:+ Py.CRLF)]
  /\ Legacy.authenticated (Legacy.client r2) = true
  /\ Legacy.email (Legacy.client r2) = Some name
  /\ Legacy.status (Legacy.client r2) = "NLN"%string
  /\ Legacy.out r2
     = [ Send (Legacy.socket ci)
              ("USR " +:+ t2 +:+ " OK " +:+ name +:+ " " +:+ display +:+ Py.CRLF);
         Send (Legacy.socket ci)
              ("NLN NLN " +:+ name +:+ " " +:+ display +:+ Py.CRLF) ].
Proof.
  intros Hu Hhash r1 r2 display.
  assert (Hauth : Legacy.authenticate_user (Legacy.db srv) name client_hash ch
                  = true).
  { apply authenticate_user_iff. exists u. auto. }
  subst r1 r2. rewrite legacy_usr_phase1. split; [reflexivity|].
  cbn [Legacy.server Legacy.client].
  rewrite legacy_usr_match by exact Hauth.
  repeat split.
Qed.

Lemma legacy_challenge_then_response_logs_in_witness :
  Legacy.find_user Scenario.legacy_db "a@x"
  = Some {| Legacy.user_id := 1; Legacy.user_email := "a@x";
            Legacy.user_password := "p";
            Legacy.user_display_name := Some "a@x"%string;
            Legacy.user_status := "NLN" |}
  /\ Legacy.out
       (Legacy.handle_usr_command "M" Scenario.legacy_two
          (Legacy.client
             (Legacy.handle_usr_command Scenario.nonce Scenario.legacy_two
                (Legacy.new_client 11 1) ["USR"; "3"; "MD5"; "a@x"]%string))
          ["USR"; "4"; "MD5"; "a@x"; Py.upper Scenario.response_a]%string)
     = [ Send 11 (Scenario.line "USR 4 OK a@x a@x");
         Send 11 (Scenario.line "NLN NLN a@x a@x") ].
Proof.
  split; [reflexivity|].
  exact (proj2 (proj2 (proj2 (proj2
           (legacy_challenge_then_response_logs_in Scenario.nonce "M"
              Scenario.legacy_two (Legacy.new_client 11 1)
              "USR" "3" "USR" "4" "a@x" (Py.upper Scenario.response_a)
              _ eq_refl eq_refl))))).
Defined.

Ltac on_own_socket :=
  repeat (constructor; [first [left; reflexivity|right; eexists; reflexivity]|]);
  constructor.

Lemma dispatch_unauthenticated (ch : string) (srv : Legacy.t)
    (ci : Legacy.client_info) (parts : list string) (message : string) :
  Legacy.authenticated ci = false ->
  let r := Legacy.dispatch ch srv ci parts message in
  Legacy.db (Legacy.server r) = Legacy.db srv
  /\ Forall (Accounts.on_socket (Legacy.socket ci)) (Legacy.out r)
  /\ Legacy.raised r = false.
Proof.
  intros Hauth. unfold Legacy.dispatch.
  set (command := Py.upper (nth 0 parts ""%string)).
  destruct (String.eqb command "VER").
  { unfold Legacy.handle_ver_command, Legacy.send_error.
    case_match; simpl; repeat split; on_own_socket. }
  destruct (String.eqb command "CVR").
  { unfold Legacy.handle_cvr_command, Legacy.send_error.
    case_match; simpl; repeat split; on_own_socket. }
  destruct (String.eqb command "USR").
  { unfold Legacy.handle_usr_command, Legacy.send_error.
    repeat case_match; simpl; repeat split; on_own_socket. }
  destruct (String.eqb command "SYN").
  { unfold Legacy.handle_syn_command, Legacy.send_error. rewrite Hauth.
    simpl; repeat split; on_own_socket. }
  destruct (String.eqb command "CHG").
  { unfold Legacy.handle_chg_command, Legacy.send_error. rewrite Hauth.
    simpl; repeat split; on_own_socket. }
  destruct (String.eqb command "LST");
    [simpl; repeat split; on_own_socket|].
  destruct (String.eqb command "ADD").
  { unfold Legacy.handle_add_command, Legacy.send_error. rewrite Hauth.
    simpl; repeat split; on_own_socket. }
  destruct (String.eqb command "REM").
  { unfold Legacy.handle_rem_command, Legacy.send_error. rewrite Hauth.
    simpl; repeat split; on_own_socket. }
  destruct (String.eqb command "MSG").
  { unfold Legacy.handle_msg_command, Legacy.send_error. rewrite Hauth.
    simpl; repeat split; on_own_socket. }
  destruct (String.eqb command "OUT");
    [simpl; repeat split; on_own_socket|].
  destruct (String.eqb command "PNG");
    [simpl; repeat split; on_own_socket|].
  destruct (String.eqb command "QNG"); simpl; repeat split; on_own_socket.
Qed.

(** X18: a client of the threaded server that is not authenticated
    cannot reach the store or the other clients: whatever it sends, the
    database is unchanged and every write goes to its own socket. *)
Theorem legacy_unauthenticated_is_contained (ch : string) (srv : Legacy.t)
    (ci : Legacy.client_info) (message : string) :
  Legacy.authenticated ci = false ->
  let result := Legacy.process_msnp_command ch srv ci message in
  Legacy.db (fst (fst result)) = Legacy.db srv
  /\ Forall (Accounts.on_socket (Legacy.socket ci)) (snd result).
Proof.
  intros Hauth. unfold Legacy.process_msnp_command.
  destruct (negb (Py.truthy_str message)); [simpl; split; [reflexivity|constructor]|].
  destruct (List.length (Py.split message) <? 1)%nat;
    [simpl; split; [reflexivity|constructor]|].
  destruct (dispatch_unauthenticated ch srv ci (Py.split message) message Hauth)
    as (Hdb & Hout & Hraised).
  cbn. rewrite Hraised. split; assumption.
Qed.

Lemma legacy_unauthenticated_is_contained_witness :
  Legacy.authenticated (Legacy.new_client 11 1) = false
  /\ Legacy.db (fst (fst (Legacy.process_msnp_command Scenario.nonce
                            Scenario.legacy_two (Legacy.new_client 11 1)
                            "ADD 5 FL c@x c")))
     = Legacy.db Scenario.legacy_two.
Proof.
  split; [reflexivity|].
  exact (proj1 (legacy_unauthenticated_is_contained Scenario.nonce
                  Scenario.legacy_two (Legacy.new_client 11 1)
                  "ADD 5 FL c@x c" eq_refl)).
Defined.

Lemma upper_char_idem (c : ascii) :
  Py.upper_char (Py.upper_char c) = Py.upper_char c.
Proof.
  destruct c as [b0 b1 b2 b3 b4 b5 b6 b7].
  destruct b0, b1, b2, b3, b4, b5, b6, b7; reflexivity.
Qed.

Lemma upper_idem (s : string) : Py.upper (Py.upper s) = Py.upper s.
Proof.
  unfold Py.upper. induction s as [|c s IH]; simpl; [reflexivity|].
  by rewrite upper_char_idem, IH.
Qed.

(** X19: the threaded server reads the command word in any case: a
    command whose word is in small or mixed letters is handled as the
    command in capitals. *)
Theorem legacy_command_word_in_any_case (ch : string) (srv : Legacy.t)
    (ci : Legacy.client_info) (word : string) (rest : list string)
    (message : string) :
  Legacy.dispatch ch srv ci (word :: rest) message
  = Legacy.dispatch ch srv ci (Py.upper word :: rest) message.
Proof.
  unfold Legacy.dispatch. cbn [nth]. rewrite upper_idem.
  repeat match goal with
         | |- (if ?b then _ else _) = (if ?b then _ else _) =>
             destruct b; [reflexivity|]
         end.
  reflexivity.
Qed.

(** X20: [cleanup_client] closes the socket of a registered client and
    takes the client out; the other clients stay; a second call finds
    nothing to do. *)
Theorem legacy_cleanup_once (srv : Legacy.t) (cid : nat) :
  Legacy.keys_ok srv ->
  let first := Legacy.cleanup_client srv cid in
  let second := Legacy.cleanup_client (fst first) cid in
  Py.get cid (Legacy.clients (fst first)) = None
  /\ (forall k, k <> cid ->
        Py.get k (Legacy.clients (fst first)) = Py.get k (Legacy.clients srv))
  /\ snd first = match Py.get cid (Legacy.clients srv) with
                 | Some ci => [Close (Legacy.socket ci)]
                 | None => []
                 end
  /\ second = (fst first, [])
  /\ Legacy.keys_ok (fst first).
Proof.
  intros Hok. pose proof Hok as [Hnodup Hkeys]. unfold Legacy.cleanup_client.
  destruct (Py.get cid (Legacy.clients srv)) as [ci|] eqn:Hget; simpl.
  - rewrite (get_del_eq _ _ Hnodup). simpl.
    split; [reflexivity|]. split; [|split; [reflexivity|split; [reflexivity|]]].
    + intros k Hk. apply get_del_ne. congruence.
    + split; simpl; [by apply nodup_keys_del|].
      intros k x Hin. apply in_del in Hin. by apply Hkeys.
  - rewrite Hget. simpl. split; [reflexivity|]. split; [reflexivity|].
    split; [reflexivity|]. split; [reflexivity|assumption].
Qed.

Lemma legacy_two_keys_ok : Legacy.keys_ok Scenario.legacy_two.
Proof.
  split.
  - simpl. apply NoDup_cons. split.
    + intros H. apply list_elem_of_singleton in H. discriminate.
    + apply NoDup_cons. split; [apply not_elem_of_nil|constructor].
  - intros k ci [H|[H|[]]]; injection H as ? ?; subst; simpl; split;
      (reflexivity || lia).
Qed.

Lemma legacy_cleanup_once_witness :
  Legacy.keys_ok Scenario.legacy_two
  /\ snd (Legacy.cleanup_client Scenario.legacy_two 2) = [Close 12]
  /\ Legacy.cleanup_client (fst (Legacy.cleanup_client Scenario.legacy_two 2)) 2
     = (fst (Legacy.cleanup_client Scenario.legacy_two 2), []).
Proof.
  split; [exact legacy_two_keys_ok|].
  pose proof (legacy_cleanup_once Scenario.legacy_two 2 legacy_two_keys_ok)
    as (_ & _ & Hevs & Hsecond & _).
  split; [exact Hevs|exact Hsecond].
Defined.

Lemma fold_max_ge (ids : list Z) (x : Z) : In x ids -> x <= fold_right Z.max 0 ids.
Proof.
  induction ids as [|a l IH]; simpl; [tauto|].
  intros [->|H]; [lia|]. specialize (IH H). lia.
Qed.

Lemma next_id_fresh (ids : list Z) (seq : Z) :
  seq < Legacy.next_id ids seq /\ forall x, In x ids -> x < Legacy.next_id ids seq.
Proof.
  unfold Legacy.next_id. split; [lia|].
  intros x Hx. apply fold_max_ge in Hx. lia.
Qed.

Lemma nodup_ids_app {A : Type} (f : A -> Z) (l : list A) (x : A) :
  NoDup (map f l) -> (forall y, In y l -> f y < f x) -> NoDup (map f (l ++ [x])).
Proof.
  intros Hl Hlt. rewrite map_app. simpl. apply nodup_app_fresh; [assumption|].
  intros Hin. apply list_elem_of_In, in_map_iff in Hin as (y & Hy & Hin).
  specialize (Hlt y Hin). lia.
Qed.

Lemma add_contact_rows_fresh (db : Legacy.database) (user : option string)
    (peer name lst : string) :
  Accounts.rows_fresh db ->
  Accounts.rows_fresh (Legacy.add_contact db user peer name lst).
Proof.
  intros (Hc & Hcs & Hm & Hms). unfold Legacy.add_contact.
  destruct (user ≫= Legacy.find_user db) as [u|]; [|by repeat split].
  destruct (next_id_fresh (map Legacy.contact_id (Legacy.contacts db))
              (Legacy.contacts_seq db)) as [Hseq Hids].
  rewrite List.Forall_forall in Hcs.
  split; [|split; [|by split]]; simpl.
  - apply nodup_ids_app; [assumption|]. intros y Hy. simpl.
    apply Hids. by apply in_map.
  - apply List.Forall_forall. intros c Hin. apply in_app_iff in Hin as [Hin|[<-|[]]].
    + specialize (Hcs c Hin). lia.
    + simpl. lia.
Qed.

Lemma nodup_map_filter {A B : Type} (f : A -> B) (P : A -> Prop)
    `{forall x, Decision (P x)} (l : list A) :
  NoDup (map f l) -> NoDup (map f (filter P l)).
Proof.
  induction l as [|a l IH]; simpl; [constructor|].
  intros Hd. apply NoDup_cons in Hd as [Ha Hl].
  destruct (decide (P a)).
  - rewrite filter_cons_True by assumption. simpl.
    apply NoDup_cons. split; [|by apply IH].
    intros Hin. apply Ha. apply list_elem_of_In, in_map_iff in Hin
      as (x & Hx & Hin).
    apply list_elem_of_In, list_elem_of_filter in Hin as [_ Hin].
    apply list_elem_of_In, in_map_iff. exists x. split; [assumption|].
    by apply list_elem_of_In.
  - rewrite filter_cons_False by assumption. by apply IH.
Qed.

Lemma remove_contact_rows_fresh (db : Legacy.database) (user : option string)
    (peer lst : string) :
  Accounts.rows_fresh db ->
  Accounts.rows_fresh (Legacy.remove_contact db user peer lst).
Proof.
  intros (Hc & Hcs & Hm & Hms). unfold Legacy.remove_contact.
  destruct (user ≫= Legacy.find_user db) as [u|]; [|by repeat split].
  split; [|split; [|by split]]; simpl.
  - by apply nodup_map_filter.
  - apply Forall_forall. intros c Hin.
    apply list_elem_of_filter in Hin as [_ Hin].
    rewrite Forall_forall in Hcs. by apply Hcs.
Qed.

Lemma store_message_rows_fresh (db : Legacy.database)
    (sender recipient : option string) (body : string) :
  Accounts.rows_fresh db ->
  Accounts.rows_fresh (Legacy.store_message db sender recipient body).
Proof.
  intros (Hc & Hcs & Hm & Hms). unfold Legacy.store_message.
  destruct (next_id_fresh (map Legacy.message_id (Legacy.messages db))
              (Legacy.messages_seq db)) as [Hseq Hids].
  rewrite List.Forall_forall in Hms.
  split; [assumption|split; [assumption|split]]; simpl.
  - apply nodup_ids_app; [assumption|]. intros y Hy. simpl.
    apply Hids. by apply in_map.
  - apply List.Forall_forall. intros m Hin. apply in_app_iff in Hin as [Hin|[<-|[]]].
    + specialize (Hms m Hin). lia.
    + simpl. lia.
Qed.

Lemma dispatch_rows_fresh (ch : string) (srv : Legacy.t)
    (ci : Legacy.client_info) (parts : list string) (message : string) :
  Accounts.rows_fresh (Legacy.db srv) ->
  Accounts.rows_fresh
    (Legacy.db (Legacy.server (Legacy.dispatch ch srv ci parts message)))
  /\ Legacy.users (Legacy.db (Legacy.server
                                (Legacy.dispatch ch srv ci parts message)))
     = Legacy.users (Legacy.db srv).
Proof.
  intros Hdb. unfold Legacy.dispatch.
  set (command := Py.upper (nth 0 parts ""%string)).
  destruct (String.eqb command "VER").
  { unfold Legacy.handle_ver_command. case_match; simpl; auto. }
  destruct (String.eqb command "CVR").
  { unfold Legacy.handle_cvr_command. case_match; simpl; auto. }
  destruct (String.eqb command "USR").
  { unfold Legacy.handle_usr_command. repeat case_match; simpl; auto. }
  destruct (String.eqb command "SYN").
  { unfold Legacy.handle_syn_command. case_match; simpl; auto. }
  destruct (String.eqb command "CHG").
  { unfold Legacy.handle_chg_command. repeat case_match; simpl; auto. }
  destruct (String.eqb command "LST"); [simpl; auto|].
  destruct (String.eqb command "ADD").
  { unfold Legacy.handle_add_command. repeat case_match; simpl; auto.
    split; [by apply add_contact_rows_fresh|].
    unfold Legacy.add_contact. by case_match. }
  destruct (String.eqb command "REM").
  { unfold Legacy.handle_rem_command. repeat case_match; simpl; auto.
    split; [by apply remove_contact_rows_fresh|].
    unfold Legacy.remove_contact. by case_match. }
  destruct (String.eqb command "MSG").
  { unfold Legacy.handle_msg_command. repeat case_match; simpl; auto;
      (split; [by apply store_message_rows_fresh|reflexivity]). }
  destruct (String.eqb command "OUT"); [simpl; auto|].
  destruct (String.eqb command "PNG"); [simpl; auto|].
  destruct (String.eqb command "QNG"); simpl; auto.
Qed.

Lemma step_rows_fresh (srv : Legacy.t) (a : Legacy.action) :
  Accounts.rows_fresh (Legacy.db srv) ->
  Accounts.rows_fresh (Legacy.db (fst (Legacy.run_step srv a)))
  /\ Legacy.users (Legacy.db (fst (Legacy.run_step srv a)))
     = Legacy.users (Legacy.db srv).
Proof.
  intros Hdb. destruct a as [sock|cid data ch|cid]; simpl.
  - by split.
  - unfold Legacy.receive.
    destruct (Py.get cid (Legacy.clients srv)) as [ci|]; [|by split].
    unfold Legacy.process_msnp_command.
    destruct (negb (Py.truthy_str (Py.strip data))); [by split|].
    destruct (List.length (Py.split (Py.strip data)) <? 1)%nat; [by split|].
    cbn. apply dispatch_rows_fresh. assumption.
  - unfold Legacy.cleanup_client.
    destruct (Py.get cid (Legacy.clients srv)); by split.
Qed.

(** X21: the threaded server never reuses a row id and never changes the
    users: after any run of connections, bytes and disconnections on a
    database whose contact and message ids are distinct and not above
    their counters, the ids are still so, and the table of users is the
    one it started with. *)
Theorem legacy_row_ids_are_never_reused (db : Legacy.database)
    (acts : list Legacy.action) :
  Accounts.rows_fresh db ->
  let srv := fst (Legacy.run (Legacy.init db) acts) in
  Accounts.rows_fresh (Legacy.db srv)
  /\ Legacy.users (Legacy.db srv) = Legacy.users db.
Proof.
  intros Hdb.
  assert (H : forall srv0, Accounts.rows_fresh (Legacy.db srv0) ->
                Accounts.rows_fresh (Legacy.db (fst (Legacy.run srv0 acts)))
                /\ Legacy.users (Legacy.db (fst (Legacy.run srv0 acts)))
                   = Legacy.users (Legacy.db srv0)).
  { induction acts as [|a acts IH]; intros srv0 H0; [by split|].
    simpl. destruct (step_rows_fresh srv0 a H0) as [H1 Hu1].
    destruct (Legacy.run_step srv0 a) as [srv1 evs].
    destruct (IH srv1 H1) as [H2 Hu2].
    destruct (Legacy.run srv1 acts) as [srv2 evs']. simpl in *.
    split; [assumption|congruence]. }
  exact (H (Legacy.init db) Hdb).
Qed.

Lemma legacy_row_ids_are_never_reused_witness :
  Accounts.rows_fresh Scenario.legacy_db
  /\ Accounts.rows_fresh
       (Legacy.db (fst (Legacy.run (Legacy.init Scenario.legacy_db)
                          (Scenario.legacy_before
                           ++ [Legacy.Receive 1 Scenario.legacy_login
                                              Scenario.nonce;
                               Legacy.Receive 1 (Scenario.line "ADD 5 FL b@x b")
                                              Scenario.nonce;
                               Legacy.Receive 1 (Scenario.line "REM 6 FL b@x")
                                              Scenario.nonce;
                               Legacy.Receive 1 (Scenario.line "ADD 7 FL c@x c")
                                              Scenario.nonce])))).
Proof.
  assert (H : Accounts.rows_fresh Scenario.legacy_db)
    by (repeat split; constructor).
  split; [exact H|].
  exact (proj1 (legacy_row_ids_are_never_reused Scenario.legacy_db _ H)).
Defined.

(* ------------------------------------------------------------------ *)
(** ** The accounts of the threaded server                             *)
(* ------------------------------------------------------------------ *)

Lemma find_user_unique (db : Legacy.database) (u : Legacy.user) :
  Accounts.unique_emails db -> In u (Legacy.users db) ->
  Legacy.find_user db (Legacy.user_email u) = Some u.
Proof.
  unfold Accounts.unique_emails, Legacy.find_user.
  induction (Legacy.users db) as [|a l IH]; simpl; [tauto|].
  intros Hd. apply NoDup_cons in Hd as [Ha Hl]. intros [->|Hin].
  - by rewrite String.eqb_refl.
  - destruct (String.eqb_spec (Legacy.user_email a) (Legacy.user_email u))
      as [Heq|_]; [|by apply IH].
    exfalso. apply Ha. rewrite Heq. apply list_elem_of_In. by apply in_map.
Qed.

Lemma authenticate_right_response (db : Legacy.database) (u : Legacy.user)
    (email ch : string) :
  Legacy.find_user db email = Some u ->
  Legacy.authenticate_user db email
    (MD5.hexdigest (MD5.hexdigest (Legacy.user_password u) +:+ ch)) ch = true.
Proof. intros Hu. apply authenticate_user_iff. exists u. auto. Qed.

(** X22: the two logins of the threaded server agree: with the emails of
    the users distinct, an email and password that the web login accepts
    pass the challenge of the messenger login, for every challenge, with
    the response MD5(MD5(password) + challenge). *)
Theorem web_login_passes_challenge (db : Legacy.database)
    (email password ch : string) :
  Accounts.unique_emails db ->
  Accounts.authenticate_web_user db email password = true ->
  Legacy.authenticate_user db email
    (MD5.hexdigest (MD5.hexdigest password +:+ ch)) ch = true.
Proof.
  intros Huniq Hweb. unfold Accounts.authenticate_web_user in Hweb.
  apply existsb_exists in Hweb as (u & Hin & Hu).
  apply andb_true_iff in Hu as [He Hp].
  apply String.eqb_eq in He, Hp. subst email password.
  apply authenticate_right_response. by apply find_user_unique.
Qed.

Lemma legacy_db_unique_emails : Accounts.unique_emails Scenario.legacy_db.
Proof.
  unfold Accounts.unique_emails. simpl. apply NoDup_cons. split.
  - intros H. apply list_elem_of_singleton in H. discriminate.
  - apply NoDup_cons. split; [apply not_elem_of_nil|constructor].
Qed.

Lemma web_login_passes_challenge_witness :
  Accounts.unique_emails Scenario.legacy_db
  /\ Accounts.authenticate_web_user Scenario.legacy_db "a@x" "p" = true
  /\ Legacy.authenticate_user Scenario.legacy_db "a@x"
       (MD5.hexdigest (MD5.hexdigest "p" +:+ Scenario.nonce)) Scenario.nonce
     = true.
Proof.
  split; [exact legacy_db_unique_emails|]. split; [reflexivity|].
  exact (web_login_passes_challenge Scenario.legacy_db "a@x" "p" Scenario.nonce
           legacy_db_unique_emails eq_refl).
Defined.

Lemma insert_user_spec (db : Legacy.database) (email password : string)
    (display : option string) :
  let db' := fst (Accounts.insert_user db email password display) in
  let ok := snd (Accounts.insert_user db email password display) in
  (ok = true <-> Legacy.find_user db email = None)
  /\ (ok = false -> db' = db)
  /\ (ok = true ->
      Legacy.find_user db' email
      = Some {| Legacy.user_id := Accounts.next_user_id db;
                Legacy.user_email := email; Legacy.user_password := password;
                Legacy.user_display_name := display;
                Legacy.user_status := "NLN" |})
  /\ (forall other, other <> email ->
        Legacy.find_user db' other = Legacy.find_user db other)
  /\ (is_Some (Legacy.find_user db' email))
  /\ (Accounts.unique_emails db -> Accounts.unique_emails db').
Proof.
  unfold Accounts.insert_user, Legacy.find_user, Accounts.unique_emails.
  destruct (existsb _ (Legacy.users db)) eqn:Hex; simpl.
  - split; [|split; [reflexivity|split; [discriminate|split; [reflexivity|]]]].
    + split; [discriminate|]. intros Hnone.
      apply find_none_existsb in Hnone. congruence.
    + split; [|auto].
      destruct (find _ (Legacy.users db)) eqn:Hf; [eauto|].
      apply find_none_existsb in Hf. congruence.
  - split; [|split; [discriminate|split; [|split; [|split]]]].
    + split; [|reflexivity]. intros _. by apply find_none_existsb.
    + intros _. rewrite find_app_last by assumption. simpl.
      by rewrite String.eqb_refl.
    + intros other Hne. apply find_app_other. simpl.
      apply String.eqb_neq. congruence.
    + rewrite find_app_last by assumption. simpl.
      rewrite String.eqb_refl. eauto.
    + intros Hu. rewrite map_app. simpl. apply nodup_app_fresh; [assumption|].
      intros Hin. apply list_elem_of_In, in_map_iff in Hin as (u & Hu' & Hin).
      assert (existsb (fun u => String.eqb (Legacy.user_email u) email)
                      (Legacy.users db) = true); [|congruence].
      apply existsb_exists. exists u. split; [assumption|].
      by apply String.eqb_eq.
Qed.

Lemma insert_or_ignore_spec (db : Legacy.database) (email password : string)
    (display : option string) :
  let db' := Accounts.insert_or_ignore db email password display in
  Legacy.users_seq db' = Accounts.next_user_id db
  /\ (is_Some (Legacy.find_user db email) ->
      Legacy.users db' = Legacy.users db)
  /\ is_Some (Legacy.find_user db' email)
  /\ (forall e u, Legacy.find_user db e = Some u ->
                  Legacy.find_user db' e = Some u)
  /\ (forall other, other <> email ->
        Legacy.find_user db' other = Legacy.find_user db other)
  /\ (Accounts.unique_emails db -> Accounts.unique_emails db')
  /\ Legacy.contacts db' = Legacy.contacts db
  /\ Legacy.contacts_seq db' = Legacy.contacts_seq db
  /\ Legacy.messages db' = Legacy.messages db
  /\ Legacy.messages_seq db' = Legacy.messages_seq db.
Proof.
  unfold Accounts.insert_or_ignore.
  pose proof (insert_user_spec db email password display)
    as (Hok & Hsame & Hnew & Hother & Hsome & Hu).
  unfold Accounts.insert_user in *. unfold Legacy.find_user in *.
  destruct (existsb _ (Legacy.users db)) eqn:Hex; simpl in *.
  - repeat split; auto.
  - split; [reflexivity|]. split.
    { intros [u Hf]. apply find_none_existsb in Hex. congruence. }
    split; [assumption|]. split; [|repeat split; auto].
    intros e u Hf. destruct (decide (e = email)) as [->|Hne].
    + apply find_none_existsb in Hex. congruence.
    + by rewrite Hother.
Qed.

(** X23: [init_database] may run at every start: the two default users
    exist afterwards, a user that was there keeps its row (an existing
    default user keeps its password) and the emails stay distinct.  A
    second run changes no row of any table; it uses up two ids, which
    the counter of [users] keeps: the ids of the users are not
    consecutive once the server has been started again. *)
Theorem init_database_rerun_keeps_rows (db : Legacy.database) :
  let db' := Accounts.init_database db in
  let db'' := Accounts.init_database db' in
  Legacy.users db'' = Legacy.users db'
  /\ Legacy.users_seq db'' = Accounts.next_user_id db' + 1
  /\ Legacy.users_seq db' < Legacy.users_seq db''
  /\ (Legacy.contacts db'', Legacy.contacts_seq db'',
      Legacy.messages db'', Legacy.messages_seq db'')
     = (Legacy.contacts db, Legacy.contacts_seq db,
        Legacy.messages db, Legacy.messages_seq db)
  /\ is_Some (Legacy.find_user db' "aquaboxs34@hotmail.com")
  /\ is_Some (Legacy.find_user db' "testuser@hotmail.com")
  /\ (forall email u, Legacy.find_user db email = Some u ->
                      Legacy.find_user db' email = Some u)
  /\ (Accounts.unique_emails db -> Accounts.unique_emails db').
Proof.
  unfold Accounts.init_database.
  set (e1 := "aquaboxs34@hotmail.com"%string).
  set (e2 := "testuser@hotmail.com"%string).
  assert (Hne : e1 <> e2) by discriminate.
  pose proof (insert_or_ignore_spec db e1 "password123"
                (Some "AquaBoxs"%string))
    as (Hq1 & _ & Hs1 & Hk1 & Ho1 & Hu1 & Hc1 & Hcs1 & Hm1 & Hms1).
  set (db1 := Accounts.insert_or_ignore db e1 "password123"
                (Some "AquaBoxs"%string)) in *.
  pose proof (insert_or_ignore_spec db1 e2 "test123" (Some "Test User"%string))
    as (Hq2 & _ & Hs2 & Hk2 & Ho2 & Hu2 & Hc2 & Hcs2 & Hm2 & Hms2).
  set (db2 := Accounts.insert_or_ignore db1 e2 "test123"
                (Some "Test User"%string)) in *.
  assert (Hs12 : is_Some (Legacy.find_user db2 e1)).
  { destruct Hs1 as [u Hf]. exists u. by apply Hk2. }
  pose proof (insert_or_ignore_spec db2 e1 "password123"
                (Some "AquaBoxs"%string))
    as (Hq3 & Hr3 & _ & Hk3 & _ & _ & Hc3 & Hcs3 & Hm3 & Hms3).
  set (db3 := Accounts.insert_or_ignore db2 e1 "password123"
                (Some "AquaBoxs"%string)) in *.
  assert (Hs23 : is_Some (Legacy.find_user db3 e2)).
  { destruct Hs2 as [u Hf]. exists u. by apply Hk3. }
  pose proof (insert_or_ignore_spec db3 e2 "test123" (Some "Test User"%string))
    as (Hq4 & Hr4 & _ & _ & _ & _ & Hc4 & Hcs4 & Hm4 & Hms4).
  set (db4 := Accounts.insert_or_ignore db3 e2 "test123"
                (Some "Test User"%string)) in *.
  specialize (Hr3 Hs12). specialize (Hr4 Hs23).
  assert (Hseq : Legacy.users_seq db4 = Accounts.next_user_id db2 + 1).
  { rewrite Hq4. unfold Accounts.next_user_id, Legacy.next_id in *.
    rewrite Hr3, Hq3. unfold Accounts.next_user_id, Legacy.next_id. lia. }
  split; [congruence|]. split; [exact Hseq|]. split.
  { rewrite Hseq. unfold Accounts.next_user_id, Legacy.next_id. lia. }
  split; [congruence|]. split; [assumption|]. split; [assumption|].
  split; [auto|auto].
Qed.

(** X24: a user added with [add_user] of [database_setup.py] under a new
    email can log in both ways with the password given, and is shown
    under the display name given or, when that is missing or empty,
    under the part of the email before the [@]; a second [add_user] of
    the email is refused and changes nothing. *)
Theorem added_user_can_log_in (db : Legacy.database) (email password : string)
    (display_name : option string) :
  Legacy.find_user db email = None ->
  let db' := fst (Accounts.add_user db email password display_name) in
  snd (Accounts.add_user db email password display_name) = true
  /\ Accounts.authenticate_web_user db' email password = true
  /\ (forall ch, Legacy.authenticate_user db' email
                   (MD5.hexdigest (MD5.hexdigest password +:+ ch)) ch = true)
  /\ Legacy.get_display_name db' email
     = match display_name with
       | Some n => if Py.truthy_str n then n else Py.before_at email
       | None => Py.before_at email
       end
  /\ Accounts.add_user db' email password display_name = (db', false).
Proof.
  intros Hnew db'. subst db'. unfold Accounts.add_user.
  set (name := match display_name with
               | Some n => if Py.truthy_str n then n else Py.before_at email
               | None => Py.before_at email
               end).
  pose proof (insert_user_spec db email password (Some name))
    as (Hok & _ & Hfound & _ & _ & _).
  assert (Hs : snd (Accounts.insert_user db email password (Some name)) = true)
    by (by apply Hok).
  specialize (Hfound Hs).
  set (db' := fst (Accounts.insert_user db email password (Some name))) in *.
  split; [assumption|]. split; [|split; [|split]].
  - unfold Accounts.authenticate_web_user. apply existsb_exists.
    unfold Legacy.find_user in Hfound. apply find_some in Hfound as [Hin _].
    eexists. split; [exact Hin|]. simpl. by rewrite !String.eqb_refl.
  - intros ch.
    exact (authenticate_right_response db' _ email ch Hfound).
  - unfold Legacy.get_display_name. rewrite Hfound. simpl.
    destruct (Py.truthy_str name) eqn:Ht; [reflexivity|].
    unfold Py.truthy_str in Ht. apply negb_false_iff, String.eqb_eq in Ht.
    subst name. destruct display_name as [n|]; [|congruence].
    destruct (Py.truthy_str n) eqn:Hn; [|congruence].
    unfold Py.truthy_str in Hn. rewrite Ht in Hn. discriminate.
  - pose proof (insert_user_spec db' email password (Some name))
      as (Hok' & Hsame' & _).
    destruct (snd (Accounts.insert_user db' email password (Some name))) eqn:Hs'.
    + pose proof (proj1 Hok' eq_refl). congruence.
    + specialize (Hsame' eq_refl).
      destruct (Accounts.insert_user db' email password (Some name)) as [d b].
      simpl in *. congruence.
Qed.

Lemma added_user_can_log_in_witness :
  Legacy.find_user Scenario.legacy_db "c@x" = None
  /\ Legacy.get_display_name
       (fst (Accounts.add_user Scenario.legacy_db "c@x" "r" None)) "c@x"
     = "c"%string
  /\ Accounts.authenticate_web_user
       (fst (Accounts.add_user Scenario.legacy_db "c@x" "r" None)) "c@x" "r"
     = true.
Proof.
  pose proof (added_user_can_log_in Scenario.legacy_db "c@x" "r" None eq_refl)
    as (_ & Hweb & _ & Hname & _).
  split; [reflexivity|]. split; [exact Hname|exact Hweb].
Defined.

Lemma dispatch_keeps_email (ch : string) (srv : Legacy.t)
    (ci : Legacy.client_info) (parts : list string) (message : string) :
  (Legacy.authenticated ci = true -> is_Some (Legacy.email ci)) ->
  Legacy.authenticated (Legacy.client (Legacy.dispatch ch srv ci parts message))
  = true ->
  is_Some (Legacy.email (Legacy.client (Legacy.dispatch ch srv ci parts message))).
Proof.
  intros Hci. unfold Legacy.dispatch.
  set (command := Py.upper (nth 0 parts ""%string)).
  destruct (String.eqb command "VER").
  { unfold Legacy.handle_ver_command. case_match; simpl; auto. }
  destruct (String.eqb command "CVR").
  { unfold Legacy.handle_cvr_command. case_match; simpl; auto. }
  destruct (String.eqb command "USR").
  { unfold Legacy.handle_usr_command. repeat case_match; simpl; eauto. }
  destruct (String.eqb command "SYN").
  { unfold Legacy.handle_syn_command. case_match; simpl; auto. }
  destruct (String.eqb command "CHG").
  { unfold Legacy.handle_chg_command. repeat case_match; simpl; auto. }
  destruct (String.eqb command "LST"); [simpl; auto|].
  destruct (String.eqb command "ADD").
  { unfold Legacy.handle_add_command. repeat case_match; simpl; auto. }
  destruct (String.eqb command "REM").
  { unfold Legacy.handle_rem_command. repeat case_match; simpl; auto. }
  destruct (String.eqb command "MSG").
  { unfold Legacy.handle_msg_command. repeat case_match; simpl; auto. }
  destruct (String.eqb command "OUT"); [simpl; auto|].
  destruct (String.eqb command "PNG"); [simpl; auto|].
  destruct (String.eqb command "QNG"); simpl; auto.
Qed.

Lemma step_keeps_email (srv : Legacy.t) (a : Legacy.action) :
  Accounts.logged_in_have_email srv ->
  Accounts.logged_in_have_email (fst (Legacy.run_step srv a)).
Proof.
  intros Hsrv. destruct a as [sock|cid data ch|cid]; simpl.
  - intros k ci Hin. simpl in Hin.
    apply in_set in Hin as [[-> ->]|Hin]; [discriminate|by apply (Hsrv k)].
  - unfold Legacy.receive.
    destruct (Py.get cid (Legacy.clients srv)) as [ci|] eqn:Hget;
      [|assumption].
    unfold Legacy.process_msnp_command.
    destruct (negb (Py.truthy_str (Py.strip data))); [assumption|].
    destruct (List.length (Py.split (Py.strip data)) <? 1)%nat; [assumption|].
    cbn.
    pose proof (dispatch_client_effect ch srv ci (Py.split (Py.strip data))
                  (Py.strip data)) as (_ & Hclients & _).
    pose proof (dispatch_keeps_email ch srv ci (Py.split (Py.strip data))
                  (Py.strip data) (Hsrv cid ci (get_in _ _ _ Hget))) as Hmail.
    intros k x Hin. unfold Legacy.store_client in Hin. simpl in Hin.
    rewrite Hclients in Hin.
    destruct (Py.get (Legacy.id (Legacy.client _)) (Legacy.clients srv));
      [|by apply (Hsrv k)].
    apply in_set in Hin as [[-> ->]|Hin]; [assumption|by apply (Hsrv k)].
  - unfold Legacy.cleanup_client.
    destruct (Py.get cid (Legacy.clients srv)); simpl; [|assumption].
    intros k x Hin. simpl in Hin. apply in_del in Hin. by apply (Hsrv k).
Qed.

(** X25: in the threaded server, whatever is accepted, received and
    cleaned up, every client is registered once, under its own id and
    below the counter, and every authenticated client has an email: the
    presence line of [broadcast_status_change] can always be formatted,
    so that a [CHG] never ends in the error of the exception handler. *)
Theorem legacy_clients_stay_well_formed (db : Legacy.database)
    (acts : list Legacy.action) :
  let srv := fst (Legacy.run (Legacy.init db) acts) in
  Legacy.keys_ok srv
  /\ Accounts.logged_in_have_email srv
  /\ forall k ci, In (k, ci) (Legacy.clients srv) ->
                  Legacy.authenticated ci = true ->
                  is_Some (Legacy.broadcast_status_change srv ci).
Proof.
  assert (H : forall srv0, Accounts.logged_in_have_email srv0 ->
                Accounts.logged_in_have_email (fst (Legacy.run srv0 acts))).
  { induction acts as [|a acts IH]; intros srv0 H0; [assumption|].
    simpl. pose proof (step_keeps_email srv0 a H0) as H1.
    destruct (Legacy.run_step srv0 a) as [srv1 evs].
    specialize (IH srv1 H1).
    destruct (Legacy.run srv1 acts) as [srv2 evs']. exact IH. }
  assert (Hmail : Accounts.logged_in_have_email
                    (fst (Legacy.run (Legacy.init db) acts))).
  { apply H. intros k ci []. }
  split; [apply legacy_run_keeps_keys, legacy_init_keys_ok|].
  split; [exact Hmail|].
  intros k ci Hin Hauth. destruct (Hmail k ci Hin Hauth) as [e He].
  unfold Legacy.broadcast_status_change, Legacy.status_message.
  rewrite He. eauto.
Qed.

(* ------------------------------------------------------------------ *)
(** ** The test client ([tests/test_client.py])                        *)
(* ------------------------------------------------------------------ *)











Section TestClientFacts.
Variable router : ClientManager.t -> option string -> string -> list event.












End TestClientFacts.

